(** * Reward claims, registration and login of the Riyadah Elite backend

    A shallow embedding of the storage helpers of the backend
    ([db.claimReward], [db.getUserById], [db.updateUser], [db.logActivity])
    and of the authentication controller ([register], [login],
    [getProfile], [updateProfile]), with the statements of the
    specification settled against them.

    The hosted store is reached through the supabase client.  Every call on
    it settles with an object [{data, error}] or has its promise rejected; a
    call may fail for reasons that are outside the program (network, row
    level security, constraints), which the embedding takes as an input of
    the call (type [fault]). *)

From stdpp Require Import base option list gmap strings pretty sorting.
From Stdlib Require Import ZArith Lia Ascii.

Open Scope string_scope.
Open Scope Z_scope.

(** ** JavaScript effects: a state and exception monad *)

(** What a [throw] or a rejected promise carries: the error object of the
    storage client (with its [code]) or [new Error(message)]. *)
Inductive error :=
| PostgrestError (code : string) (message : string)
| Error (message : string).

#[global] Instance error_eq_dec : EqDecision error.
Proof. solve_decision. Defined.

(** The outcome of running a function body: it returns or it throws. *)
Inductive completion (A : Type) :=
| Return (a : A)
| Throw (e : error).
Arguments Return {A} a.
Arguments Throw {A} e.

(** What the environment does to one call on the storage client. *)
Inductive fault :=
| NoFault                    (* the store executes the statement *)
| ErrorResult (e : error)    (* the call settles with [{data: null, error: e}] *)
| Rejects (e : error).       (* the promise of the call rejects with [e] *)

(** The object [{data, error}] a storage call settles with. *)
Record response (A : Type) := Response { data : option A; err : option error }.
Arguments Response {A} data err.
Arguments data {A} r.
Arguments err {A} r.

(** No row, or more than one, where [.single()] asks for exactly one. *)
Definition PGRST116 : error :=
  PostgrestError "PGRST116" "JSON object requested, multiple (or no) rows returned".

Definition Js (S A : Type) : Type := S -> completion A * S.

#[global] Instance Js_ret {S} : MRet (Js S) := fun A a s => (Return a, s).
#[global] Instance Js_bind {S} : MBind (Js S) := fun A B k m s =>
  match m s with
  | (Return a, s') => k a s'
  | (Throw e, s') => (Throw e, s')
  end.

Definition throw {S A} (e : error) : Js S A := fun s => (Throw e, s).

(** [try { m } catch (error) { h error }] *)
Definition try_catch {S A} (m : Js S A) (h : error -> Js S A) : Js S A := fun s =>
  match m s with
  | (Return a, s') => (Return a, s')
  | (Throw e, s') => h e s'
  end.

(** [await Promise.all([p, q])]: both requests are issued, whatever becomes
    of the other one; the result rejects when one of them rejects (with the
    error of [p] when both do: which of the two JavaScript reports is a
    matter of timing). *)
Definition promise_all {S A B} (p : Js S A) (q : Js S B) : Js S (A * B) := fun s =>
  let '(ra, s1) := p s in
  let '(rb, s2) := q s1 in
  match ra, rb with
  | Return a, Return b => (Return (a, b), s2)
  | Throw e, _ => (Throw e, s2)
  | Return _, Throw e => (Throw e, s2)
  end.

(** Return or throw, as the completion says. *)
Definition complete {S A} (c : completion A) : Js S A := fun s => (c, s).

Definition gets {S A} (f : S -> A) : Js S A := fun s => (Return (f s), s).
Definition modify {S} (f : S -> S) : Js S unit := fun s => (Return tt, f s).

(** A call on the storage client: [run] is what the store does when the
    environment lets the statement through; a statement that fails leaves
    the store as it was. *)
Definition storage_call {S A} (f : fault) (run : S -> response A * S) : Js S (response A) :=
  fun s =>
    match f with
    | NoFault => let '(r, s') := run s in (Return r, s')
    | ErrorResult e => (Return (Response None (Some e)), s)
    | Rejects e => (Throw e, s)
    end.

Definition returned {A} (c : completion A) : bool :=
  match c with Return _ => true | Throw _ => false end.

(** ** The storage helpers with the claim operation (the [db] object that
    owns [claimReward]) *)

Module ClaimEngine.

(** Rows, with the columns the helpers read or write. The columns of
    [users] that no helper here touches (password, avatar) are left out.
    The integer columns ([points], [points_required], [stock]) hold
    integers, without a bound. *)
Record User := mkUser {
  u_id : string;
  u_username : string;
  u_email : string;
  u_role : string;
  u_points : Z;
  u_created_at : string;
  u_updated_at : string
}.

Record Reward := mkReward {
  r_id : string;
  r_title : string;
  r_points_required : Z;
  r_stock : Z;
  r_is_active : bool
}.

(** A row of [user_rewards]: the Claim record. *)
Record UserReward := mkUserReward {
  ur_user_id : string;
  ur_reward_id : string
}.

(** A row of [user_activity]: the Activity Entry. *)
Record Activity := mkActivity {
  a_user_id : string;
  a_tournament_id : option string;
  a_reward_id : option string;
  a_activity_type : string;
  a_description : string;
  a_points_change : Z
}.

Record Db := mkDb {
  users : gmap string User;
  rewards : gmap string Reward;
  user_rewards : list UserReward;
  user_activity : list Activity
}.

(** [supabase] is the module variable: [false] stands for [null] (no
    credentials configured). [console] collects what [console.error]
    prints: the label and the error. *)
Record World := mkWorld {
  supabase : bool;
  db : Db;
  console : list (string * error)
}.

(** What the environment contributes to one run of a helper: the clock and
    the fate of each storage call the helper can make. *)
Record Env := mkEnv {
  now : string;
  get_user_fault : fault;
  get_reward_fault : fault;
  insert_claim_fault : fault;
  update_user_fault : fault;
  update_reward_fault : fault;
  insert_activity_fault : fault
}.

Definition set_db (f : Db -> Db) (w : World) : World :=
  mkWorld (supabase w) (f (db w)) (console w).

Definition console_error (label : string) (e : error) : Js World unit :=
  modify (fun w => mkWorld (supabase w) (db w) (console w ++ [(label, e)])).

(** [.single()] on the rows a filter on the primary key selects. *)
Definition single {A} (row : option A) : response A :=
  match row with
  | Some a => Response (Some a) None
  | None => Response None (Some PGRST116)
  end.

(** [supabase.from('users').select('*').eq('id', id).single()] *)
Definition select_user (f : fault) (id : string) : Js World (response User) :=
  storage_call f (fun w => (single (users (db w) !! id), w)).

(** [supabase.from('rewards').select('*').eq('id', rewardId).single()] *)
Definition select_reward (f : fault) (id : string) : Js World (response Reward) :=
  storage_call f (fun w => (single (rewards (db w) !! id), w)).

(** The object literal passed to [updateUser]. *)
Record UserUpdates := mkUserUpdates {
  upd_username : option string;
  upd_points : option Z
}.

Definition apply_updates (u : User) (updates : UserUpdates) (updated_at : string) : User :=
  mkUser (u_id u) (default (u_username u) (upd_username updates)) (u_email u) (u_role u)
         (default (u_points u) (upd_points updates)) (u_created_at u) updated_at.

(** [supabase.from('users').update({...updates, updated_at}).eq('id', id).select().single()] *)
Definition update_user_row (f : fault) (id : string) (updates : UserUpdates) (updated_at : string)
  : Js World (response User) :=
  storage_call f (fun w =>
    match users (db w) !! id with
    | Some u =>
        let u' := apply_updates u updates updated_at in
        (Response (Some u') None,
         set_db (fun d => mkDb (<[id := u']> (users d)) (rewards d) (user_rewards d) (user_activity d)) w)
    | None => (Response None (Some PGRST116), w)
    end).

(** [supabase.from('rewards').update({ stock }).eq('id', rewardId)]: no
    [.select()], so no rows come back, and updating no row is no error. *)
Definition update_reward_stock (f : fault) (id : string) (stock : Z) : Js World (response Reward) :=
  storage_call f (fun w =>
    match rewards (db w) !! id with
    | Some r =>
        let r' := mkReward (r_id r) (r_title r) (r_points_required r) stock (r_is_active r) in
        (Response None None,
         set_db (fun d => mkDb (users d) (<[id := r']> (rewards d)) (user_rewards d) (user_activity d)) w)
    | None => (Response None None, w)
    end).

(** [supabase.from('user_rewards').insert([row]).select().single()] *)
Definition insert_user_reward (f : fault) (row : UserReward) : Js World (response UserReward) :=
  storage_call f (fun w =>
    (Response (Some row) None,
     set_db (fun d => mkDb (users d) (rewards d) (user_rewards d ++ [row]) (user_activity d)) w)).

(** [supabase.from('user_activity').insert([row])] *)
Definition insert_activity (f : fault) (row : Activity) : Js World (response Activity) :=
  storage_call f (fun w =>
    (Response None None,
     set_db (fun d => mkDb (users d) (rewards d) (user_rewards d) (user_activity d ++ [row])) w)).

(** [db.getUserById(id)] *)
Definition getUserById (E : Env) (id : string) : Js World (option User) :=
  configured ← gets supabase;
  if negb configured then
    mret (Some (mkUser id "MockUser" "user@example.com" "user" 100 (now E) (now E)))
  else
    r ← select_user (get_user_fault E) id;
    match err r with
    | Some e => throw e
    | None => mret (data r)
    end.

(** What [updateUser] returns: the row the store sends back, or, without a
    client, the object literal [{id, ...updates, updated_at}]. *)
Inductive updated_user :=
| StoredRow (row : option User)
| MockRow (id : string) (updates : UserUpdates) (updated_at : string).

(** [db.updateUser(id, updates)] *)
Definition updateUser (E : Env) (id : string) (updates : UserUpdates) : Js World updated_user :=
  configured ← gets supabase;
  if negb configured then mret (MockRow id updates (now E))
  else
    r ← update_user_row (update_user_fault E) id updates (now E);
    match err r with
    | Some e => throw e
    | None => mret (StoredRow (data r))
    end.

(** [db.logActivity(userId, activityType, description, pointsChange,
    tournamentId, rewardId)] *)
Definition logActivity (E : Env) (userId activityType description : string)
    (pointsChange : Z) (tournamentId rewardId : option string) : Js World (option Activity) :=
  configured ← gets supabase;
  if negb configured then mret None
  else
    try_catch
      (r ← insert_activity (insert_activity_fault E)
             (mkActivity userId tournamentId rewardId activityType description pointsChange);
       match err r with
       | Some e => console_error "Activity logging error:" e
       | None => mret tt
       end;;
       mret (data r))
      (fun e => console_error "Activity logging failed:" e;; mret None).

(** The four stretches of [claimReward] between its [await]s. *)

(** The three [if]s after the reads, on what the reads produced. *)
Definition claim_checks (user : option User) (reward : response Reward)
  : completion (User * Reward) :=
  match user, data reward with
  | Some user, Some reward =>
      if u_points user <? r_points_required reward then Throw (Error "Insufficient points")
      else if r_stock reward <=? 0 then Throw (Error "Reward out of stock")
      else Return (user, reward)
  | _, _ => Throw (Error "User or reward not found")
  end.

(** Reads and checks: the guard on [supabase], the two reads and the three
    [if]s. *)
Definition claim_read (E : Env) (userId rewardId : string) : Js World (User * Reward) :=
  configured ← gets supabase;
  if negb configured then throw (Error "Database not configured")
  else
    '(user, reward) ← promise_all (getUserById E userId)
                                  (select_reward (get_reward_fault E) rewardId);
    complete (claim_checks user reward).

(** The insert into [user_rewards] and [if (error) throw error]. *)
Definition claim_insert (E : Env) (userId rewardId : string) : Js World (option UserReward) :=
  r ← insert_user_reward (insert_claim_fault E) (mkUserReward userId rewardId);
  match err r with
  | Some e => throw e
  | None => mret (data r)
  end.

(** The two updates, computed from the rows read at the start. *)
Definition claim_update (E : Env) (userId rewardId : string) (user : User) (reward : Reward)
  : Js World unit :=
  promise_all
    (updateUser E userId (mkUserUpdates None (Some (u_points user - r_points_required reward))))
    (update_reward_stock (update_reward_fault E) rewardId (r_stock reward - 1));;
  mret tt.

(** The activity entry. *)
Definition claim_log (E : Env) (userId rewardId : string) (reward : Reward) : Js World unit :=
  logActivity E userId "reward_claim" ("Claimed " +:+ r_title reward)
              (- r_points_required reward) None (Some rewardId);;
  mret tt.

(** [db.claimReward(userId, rewardId)] *)
Definition claimReward (E : Env) (userId rewardId : string) : Js World (option UserReward) :=
  '(user, reward) ← claim_read E userId rewardId;
  data ← claim_insert E userId rewardId;
  claim_update E userId rewardId user reward;;
  claim_log E userId rewardId reward;;
  mret data.

(** *** Concurrent calls

    A call gives up control at each [await]; between two of them it runs
    alone (the two requests of one [Promise.all] are taken together). A
    call in progress is the stretch it is about to run, with the local
    variables that stretch needs. *)
Inductive thread :=
| Reading (userId rewardId : string)
| Inserting (userId rewardId : string) (user : User) (reward : Reward)
| Updating (userId rewardId : string) (user : User) (reward : Reward) (data : option UserReward)
| Logging (userId rewardId : string) (reward : Reward) (data : option UserReward)
| Settled (c : completion (option UserReward)).

Definition continue_with {A} (r : completion A * World) (k : A -> thread) : thread * World :=
  match r with
  | (Return a, w) => (k a, w)
  | (Throw e, w) => (Settled (Throw e), w)
  end.

(** One stretch of a call. *)
Definition step (E : Env) (t : thread) (w : World) : thread * World :=
  match t with
  | Reading u r =>
      continue_with (claim_read E u r w) (fun '(user, reward) => Inserting u r user reward)
  | Inserting u r user reward =>
      continue_with (claim_insert E u r w) (fun data => Updating u r user reward data)
  | Updating u r user reward data =>
      continue_with (claim_update E u r user reward w) (fun _ => Logging u r reward data)
  | Logging u r reward data =>
      continue_with (claim_log E u r reward w) (fun _ => Settled (Return data))
  | Settled c => (Settled c, w)
  end.

(** Two calls in flight, [E1] and [E2] their environments; the schedule
    says which of the two runs its next stretch ([true]: the first). *)
Fixpoint run2 (E1 E2 : Env) (schedule : list bool) (t1 t2 : thread) (w : World)
  : thread * thread * World :=
  match schedule with
  | [] => (t1, t2, w)
  | true :: schedule =>
      let '(t1', w') := step E1 t1 w in run2 E1 E2 schedule t1' t2 w'
  | false :: schedule =>
      let '(t2', w') := step E2 t2 w in run2 E1 E2 schedule t1 t2' w'
  end.

(** A sequence of claim operations, one after the other; the worlds after
    each of them. *)
Record operation := mkOperation {
  op_env : Env;
  op_user : string;
  op_reward : string
}.

Fixpoint run_claims (ops : list operation) (w : World) : list World :=
  match ops with
  | [] => []
  | op :: ops =>
      let w' := (claimReward (op_env op) (op_user op) (op_reward op) w).2 in
      w' :: run_claims ops w'
  end.

(** The ledger invariant of the data model. *)
Definition ledger_invariant (d : Db) : Prop :=
  map_Forall (fun _ u => 0 <= u_points u) (users d) ∧
  map_Forall (fun _ r => 0 <= r_stock r) (rewards d).

#[global] Instance ledger_invariant_dec d : Decision (ledger_invariant d).
Proof. unfold ledger_invariant. apply _. Defined.

(** What a call in progress holds: rows that passed the checks. *)
Definition thread_ok (t : thread) : Prop :=
  match t with
  | Inserting _ _ user reward | Updating _ _ user reward _ =>
      r_points_required reward <= u_points user ∧ 0 < r_stock reward
  | _ => True
  end.

(** *** Vocabulary of the statements *)

(** The row the points update leaves in place of [cur], for a call that
    read [user] and [reward]. *)
Definition spend (user : User) (reward : Reward) (updated_at : string) (cur : User) : User :=
  apply_updates cur (mkUserUpdates None (Some (u_points user - r_points_required reward)))
                updated_at.

(** The row the stock update leaves in place of [cur]. *)
Definition take_one (reward cur : Reward) : Reward :=
  mkReward (r_id cur) (r_title cur) (r_points_required cur) (r_stock reward - 1) (r_is_active cur).

(** The Activity Entry of a claim. *)
Definition claim_entry (userId rewardId : string) (reward : Reward) : Activity :=
  mkActivity userId None (Some rewardId) "reward_claim" ("Claimed " +:+ r_title reward)
             (- r_points_required reward).

(** An environment in which the store executes every statement. *)
Definition faultless (E : Env) : Prop :=
  get_user_fault E = NoFault ∧ get_reward_fault E = NoFault ∧
  insert_claim_fault E = NoFault ∧ update_user_fault E = NoFault ∧
  update_reward_fault E = NoFault ∧ insert_activity_fault E = NoFault.

(** [E], with [f] as the fate of the append to [user_activity]. *)
Definition set_activity_fault (f : fault) (E : Env) : Env :=
  mkEnv (now E) (get_user_fault E) (get_reward_fault E) (insert_claim_fault E)
        (update_user_fault E) (update_reward_fault E) f.

(** Two schedules of two calls: both read before either writes; the
    second starts when the first is done. *)
Definition both_read_first : list bool :=
  [true; false; true; true; true; false; false; false].
Definition one_after_the_other : list bool :=
  [true; true; true; true; false; false; false; false].

(** All the schedules of [n] stretches. *)
Fixpoint schedules (n : nat) : list (list bool) :=
  match n with
  | O => [[]]
  | S n => (cons true <$> schedules n) ++ (cons false <$> schedules n)
  end.

End ClaimEngine.

(** Sample data for the claim operation. *)
Module ClaimExamples.
Import ClaimEngine.

Definition alice : User := mkUser "u1" "alice" "alice@example.com" "user" 500 "t0" "t0".
Definition bob : User := mkUser "u2" "bob" "bob@example.com" "user" 700 "t0" "t0".
Definition headset : Reward := mkReward "r1" "Gaming Headset" 500 1 true.
Definition mousepad : Reward := mkReward "r2" "Mousepad" 100 5 false.

Definition db0 : Db :=
  mkDb (<["u1" := alice]> (<["u2" := bob]> ∅))
       (<["r1" := headset]> (<["r2" := mousepad]> ∅)) [] [].
Definition w0 : World := mkWorld true db0 [].

Definition statement_timeout : error :=
  PostgrestError "57014" "canceling statement due to statement timeout".

(** The store executes everything. *)
Definition quiet : Env := mkEnv "t1" NoFault NoFault NoFault NoFault NoFault NoFault.
(** The store refuses the append to [user_activity]. *)
Definition lossy_log : Env :=
  mkEnv "t1" NoFault NoFault NoFault NoFault NoFault (ErrorResult statement_timeout).
(** The store refuses the update of [users]. *)
Definition failing_update : Env :=
  mkEnv "t1" NoFault NoFault NoFault (ErrorResult statement_timeout) NoFault NoFault.

(** What a schedule makes of the claims of ["r1"] by ["u1"] and ["u2"], if
    it lets both settle: whether each returned, and the stock left. *)
Definition outcome (schedule : list bool) : option (bool * bool * option Z) :=
  match run2 quiet quiet schedule (Reading "u1" "r1") (Reading "u2" "r1") w0 with
  | (Settled c1, Settled c2, w) =>
      Some (returned c1, returned c2, r_stock <$> rewards (db w) !! "r1")
  | _ => None
  end.

Definition three_claims : list operation :=
  [mkOperation quiet "u1" "r1"; mkOperation failing_update "u2" "r2";
   mkOperation lossy_log "u2" "r1"].

End ClaimExamples.

(** ** The authentication controller and the [db] object it imports *)

Module Auth.

(** The values a row or a JSON object holds. A key that is absent from the
    map is a property that is [undefined]. *)
Inductive jsval :=
| VNull
| VBool (b : bool)
| VNum (n : Z)
| VStr (s : string).

#[global] Instance jsval_eq_dec : EqDecision jsval.
Proof. solve_decision. Defined.

Abbreviation Obj := (gmap string jsval).

(** A [string] is a sequence of ASCII characters: [String.length] is its
    [length], and [s.toLowerCase()] and [s.trim()] are as follows. Text
    outside ASCII, where JavaScript counts UTF-16 units, lower-cases other
    letters and strips other spaces, is outside the embedding. *)
Definition lower_char (c : ascii) : ascii :=
  let n := N_of_ascii c in
  if ((65 <=? n) && (n <=? 90))%N then ascii_of_N (n + 32) else c.

Fixpoint toLowerCase (s : string) : string :=
  match s with
  | EmptyString => EmptyString
  | String c s => String (lower_char c) (toLowerCase s)
  end.

Definition is_space (c : ascii) : bool :=
  let n := N_of_ascii c in ((9 <=? n) && (n <=? 13) || (n =? 32))%N.

Fixpoint trimStart (s : string) : string :=
  match s with
  | EmptyString => EmptyString
  | String c s' => if is_space c then trimStart s' else s
  end.

Definition trim (s : string) : string :=
  String.rev (trimStart (String.rev (trimStart s))).

(** A row of [user_activity] as [logActivity] builds it; [userId] is
    whatever the caller passes ([user.id] may be [undefined]). *)
Record Activity := mkActivity {
  a_user_id : option jsval;
  a_tournament_id : option string;
  a_reward_id : option string;
  a_activity_type : string;
  a_description : string;
  a_points_change : Z
}.

(** [supabase]: [false] stands for [null]. [users] and [user_activity] are
    the tables of the store, [users] keyed by its primary key [id];
    [mockUsers] is the array of the module. *)
Record World := mkWorld {
  supabase : bool;
  users : gmap string Obj;
  user_activity : list Activity;
  mockUsers : list Obj;
  console : list (string * error)
}.

(** What the environment contributes to one run of a handler. *)
Record Env := mkEnv {
  now : string;                    (* new Date().toISOString() *)
  date_now : Z;                    (* Date.now() *)
  new_id : string;                 (* the id the store gives an inserted row *)
  salt : string;                   (* the salt bcrypt draws *)
  env_JWT_SECRET : option string;  (* process.env.JWT_SECRET *)
  get_by_email_fault : fault;
  get_by_id_fault : fault;
  insert_user_fault : fault;
  update_user_fault : fault;
  insert_activity_fault : fault
}.

(** The payload [jwt.sign] receives. *)
Record JwtPayload := mkJwtPayload {
  jwt_userId : option jsval;
  jwt_email : option jsval;
  jwt_role : option jsval;
  jwt_name : option jsval
}.

(** The imported libraries, opaque: [bcrypt.hash(password, rounds)] with the
    salt it draws, [bcrypt.compare(password, hash)], and
    [jwt.sign(payload, secret, { expiresIn })] at the time of the call. *)
Class Libraries := {
  bcrypt_hash : string -> Z -> string -> string;
  bcrypt_compare : string -> string -> bool;
  jwt_sign : JwtPayload -> string -> string -> Z -> string
}.

(** The bodies of a registration and of a profile update, as the forms of
    the site send them: a field is a string or missing. *)
Record RegisterBody := mkRegisterBody {
  rb_username : option string;
  rb_email : option string;
  rb_password : option string
}.

Record ProfileBody := mkProfileBody {
  pb_name : option string;
  pb_avatar : option string
}.

(** A field of the body of a login: [express.json()] hands the handler
    whatever JSON the client posted, so a field is any JSON value, or
    missing ([undefined]). Of a number [login] uses only whether it is zero,
    of an array or an object only that it is one. *)
Inductive field :=
| FStr (s : string)
| FNum (n : Z)
| FBool (b : bool)
| FNull
| FArray
| FObject.

#[global] Instance field_eq_dec : EqDecision field.
Proof. solve_decision. Defined.

Record LoginBody := mkLoginBody {
  lb_email : option field;
  lb_password : option field
}.

(** What a handler sends: [res.status(status).json(body)]. *)
Inductive Body :=
| ErrorBody (error : string)
| SessionBody (message token : string) (user : Obj)
| UserBody (user : Obj).

Record Res := mkRes { status : Z; json : Body }.

(** The user object a response carries, if any. *)
Definition body_user (b : Body) : option Obj :=
  match b with
  | ErrorBody _ => None
  | SessionBody _ _ user => Some user
  | UserBody user => Some user
  end.

(** [!x] is false for a string that is present and not empty. *)
Definition truthy (x : option string) : bool :=
  match x with
  | Some s => negb (String.eqb s "")
  | None => false
  end.

(** [!x] is false for a field that is truthy: a string that is not empty,
    a number that is not zero, [true], an array, an object. *)
Definition truthy_field (x : option field) : bool :=
  match x with
  | Some (FStr s) => negb (String.eqb s "")
  | Some (FNum n) => negb (n =? 0)
  | Some (FBool b) => b
  | Some FArray | Some FObject => true
  | Some FNull | None => false
  end.

(** [typeof x], for a field of a request and for a property of a row. *)
Definition typeof_field (x : option field) : string :=
  match x with
  | Some (FStr _) => "string"
  | Some (FNum _) => "number"
  | Some (FBool _) => "boolean"
  | Some FNull | Some FArray | Some FObject => "object"
  | None => "undefined"
  end.

Definition typeof (x : option jsval) : string :=
  match x with
  | Some (VStr _) => "string"
  | Some (VNum _) => "number"
  | Some (VBool _) => "boolean"
  | Some VNull => "object"
  | None => "undefined"
  end.

(** [error.code] *)
Definition code (e : error) : option string :=
  match e with
  | PostgrestError c _ => Some c
  | Error _ => None
  end.

Definition console_error (label : string) (e : error) : Js World unit :=
  modify (fun w => mkWorld (supabase w) (users w) (user_activity w) (mockUsers w)
                           (console w ++ [(label, e)])).

(** [.single()] on the selected rows. *)
Definition single (rows : list Obj) : response Obj :=
  match rows with
  | [row] => Response (Some row) None
  | _ => Response None (Some PGRST116)
  end.

Definition has_field (k : string) (v : jsval) (row : Obj) : bool :=
  bool_decide (row !! k = Some v).

(** [supabase.from('users').select('*').eq('email', email).single()] *)
Definition select_by_email (f : fault) (email : string) : Js World (response Obj) :=
  storage_call f (fun w =>
    (single (filter (fun row => has_field "email" (VStr email) row) (map_to_list (users w)).*2), w)).

(** [supabase.from('users').select('*').eq('id', id).single()] *)
Definition select_by_id (f : fault) (id : string) : Js World (response Obj) :=
  storage_call f (fun w => (single (option_list (users w !! id)), w)).

(** [supabase.from('users').insert([userData]).select().single()]: the
    store fills in the columns [userData] leaves out (the key [id] and the
    two timestamps) and refuses a key that is taken. *)
Definition insert_user (f : fault) (id created_at : string) (userData : Obj)
  : Js World (response Obj) :=
  storage_call f (fun w =>
    let row := userData ∪ {[ "id" := VStr id; "created_at" := VStr created_at;
                             "updated_at" := VStr created_at ]} in
    match row !! "id" with
    | Some (VStr key) =>
        match users w !! key with
        | Some _ =>
            (Response None (Some (PostgrestError "23505" "duplicate key value violates unique constraint")), w)
        | None =>
            (Response (Some row) None,
             mkWorld (supabase w) (<[key := row]> (users w)) (user_activity w) (mockUsers w)
                     (console w))
        end
    | _ => (Response None (Some (PostgrestError "22P02" "invalid input syntax for type uuid")), w)
    end).

(** [supabase.from('users').update(updates).eq('id', id).select().single()] *)
Definition update_user_row (f : fault) (id : string) (updates : Obj) : Js World (response Obj) :=
  storage_call f (fun w =>
    match users w !! id with
    | Some row =>
        let row' := updates ∪ row in
        (Response (Some row') None,
         mkWorld (supabase w) (<[id := row']> (users w)) (user_activity w) (mockUsers w) (console w))
    | None => (Response None (Some PGRST116), w)
    end).

(** [supabase.from('user_activity').insert([row])] *)
Definition insert_activity (f : fault) (row : Activity) : Js World (response Activity) :=
  storage_call f (fun w =>
    (Response None None,
     mkWorld (supabase w) (users w) (user_activity w ++ [row]) (mockUsers w) (console w))).

(** [arr.find(pred) || null] and [arr.findIndex(pred)] *)
Definition find_user (k : string) (v : jsval) (arr : list Obj) : option Obj :=
  List.find (has_field k v) arr.

Fixpoint findIndex (k : string) (v : jsval) (arr : list Obj) : option nat :=
  match arr with
  | [] => None
  | row :: arr => if has_field k v row then Some 0%nat else S <$> findIndex k v arr
  end.

(** [db.createUser(userData)] *)
Definition createUser (E : Env) (userData : Obj) : Js World (option Obj) :=
  configured ← gets supabase;
  if negb configured then
    let newUser := <["created_at" := VStr (now E)]> (<["updated_at" := VStr (now E)]>
                     (userData ∪ {[ "id" := VStr ("user-" +:+ pretty (date_now E)) ]})) in
    modify (fun w => mkWorld (supabase w) (users w) (user_activity w) (mockUsers w ++ [newUser])
                             (console w));;
    mret (Some newUser)
  else
    r ← insert_user (insert_user_fault E) (new_id E) (now E) userData;
    match err r with
    | Some e => throw e
    | None => mret (data r)
    end.

(** [db.getUserByEmail(email)] *)
Definition getUserByEmail (E : Env) (email : string) : Js World (option Obj) :=
  configured ← gets supabase;
  if negb configured then gets (fun w => find_user "email" (VStr email) (mockUsers w))
  else
    r ← select_by_email (get_by_email_fault E) email;
    match err r with
    | Some e => if bool_decide (code e = Some "PGRST116") then mret (data r) else throw e
    | None => mret (data r)
    end.

(** [db.getUserById(id)] *)
Definition getUserById (E : Env) (id : string) : Js World (option Obj) :=
  configured ← gets supabase;
  if negb configured then gets (fun w => find_user "id" (VStr id) (mockUsers w))
  else
    r ← select_by_id (get_by_id_fault E) id;
    match err r with
    | Some e => throw e
    | None => mret (data r)
    end.

(** [db.updateUser(id, updates)] *)
Definition updateUser (E : Env) (id : string) (updates : Obj) : Js World (option Obj) :=
  configured ← gets supabase;
  if negb configured then
    arr ← gets mockUsers;
    match findIndex "id" (VStr id) arr with
    | Some userIndex =>
        let updated := <["updated_at" := VStr (now E)]> (updates ∪ default ∅ (arr !! userIndex)) in
        modify (fun w => mkWorld (supabase w) (users w) (user_activity w)
                                 (<[userIndex := updated]> (mockUsers w)) (console w));;
        mret (Some updated)
    | None => throw (Error "User not found")
    end
  else
    r ← update_user_row (update_user_fault E) id (<["updated_at" := VStr (now E)]> updates);
    match err r with
    | Some e => throw e
    | None => mret (data r)
    end.

(** [db.logActivity(userId, activityType, description, pointsChange,
    tournamentId, rewardId)] *)
Definition logActivity (E : Env) (userId : option jsval) (activityType description : string)
    (pointsChange : Z) (tournamentId rewardId : option string) : Js World (option Activity) :=
  configured ← gets supabase;
  if negb configured then mret None
  else
    try_catch
      (r ← insert_activity (insert_activity_fault E)
             (mkActivity userId tournamentId rewardId activityType description pointsChange);
       match err r with
       | Some e => console_error "Activity logging error:" e
       | None => mret tt
       end;;
       mret (data r))
      (fun e => console_error "Activity logging failed:" e;; mret None).

(** The controller. *)
Section Controller.
Context `{Libraries}.

(** [process.env.JWT_SECRET || 'riyadah_elite_fallback_secret'] *)
Definition JWT_SECRET (E : Env) : string :=
  if truthy (env_JWT_SECRET E) then default "" (env_JWT_SECRET E)
  else "riyadah_elite_fallback_secret".

(** The token both [register] and [login] issue for [user]. *)
Definition sign_token (E : Env) (user : Obj) : string :=
  jwt_sign (mkJwtPayload (user !! "id") (user !! "email") (user !! "role") (user !! "name"))
           (JWT_SECRET E) "7d" (date_now E).

(** [const { password: _, ...userWithoutPassword } = user] *)
Definition without_password (user : Obj) : Obj := delete "password" user.

(** Reading a property of [null], or destructuring it, throws. *)
Definition not_null (message : string) (x : option Obj) : Js World Obj :=
  match x with
  | Some o => mret o
  | None => throw (Error message)
  end.

(** [authController.register(req, res)], [body] being [req.body] *)
Definition register (E : Env) (body : RegisterBody) : Js World Res :=
  try_catch
    (if negb (truthy (rb_username body)) || negb (truthy (rb_email body))
        || negb (truthy (rb_password body)) then
       mret (mkRes 400 (ErrorBody "Username, email, and password are required"))
     else
       let username := default "" (rb_username body) in
       let email := default "" (rb_email body) in
       let password := default "" (rb_password body) in
       if Z.of_nat (String.length password) <? 6 then
         mret (mkRes 400 (ErrorBody "Password must be at least 6 characters"))
       else
         existingUser ← getUserByEmail E email;
         if bool_decide (is_Some existingUser) then
           mret (mkRes 400 (ErrorBody "User already exists with this email"))
         else
           let hashedPassword := bcrypt_hash password 12 (salt E) in
           let userData : Obj :=
             {[ "name" := VStr (trim username);
                "email" := VStr (trim (toLowerCase email));
                "password" := VStr hashedPassword;
                "role" := VStr "user";
                "points" := VNum 100 ]} in
           created ← createUser E userData;
           user ← not_null "Cannot read properties of null (reading 'id')" created;
           logActivity E (user !! "id") "registration" "User registered" 100 None None;;
           let token := sign_token E user in
           mret (mkRes 201 (SessionBody "User registered successfully" token
                                        (without_password user))))
    (fun error =>
       console_error "Registration error:" error;;
       mret (mkRes 500 (ErrorBody "Registration failed. Please try again."))).

(** [bcrypt.compare(password, user.password)]: the library rejects
    arguments that are not both strings, naming their types. *)
Definition compare_password (password : option field) (user : Obj) : Js World bool :=
  match password, user !! "password" with
  | Some (FStr password), Some (VStr hash) => mret (bcrypt_compare password hash)
  | _, stored =>
      throw (Error ("Illegal arguments: " +:+ typeof_field password +:+ ", " +:+ typeof stored))
  end.

(** [email.toLowerCase().trim()]: a value that is not a string has no
    method [toLowerCase], and the call throws a [TypeError]. *)
Definition lowered_and_trimmed (email : option field) : Js World string :=
  match email with
  | Some (FStr email) => mret (trim (toLowerCase email))
  | _ => throw (Error "email.toLowerCase is not a function")
  end.

(** [authController.login(req, res)] *)
Definition login (E : Env) (body : LoginBody) : Js World Res :=
  try_catch
    (if negb (truthy_field (lb_email body)) || negb (truthy_field (lb_password body)) then
       mret (mkRes 400 (ErrorBody "Email and password are required"))
     else
       email ← lowered_and_trimmed (lb_email body);
       found ← getUserByEmail E email;
       match found with
       | None => mret (mkRes 401 (ErrorBody "Invalid email or password"))
       | Some user =>
           isValidPassword ← compare_password (lb_password body) user;
           if negb isValidPassword then
             mret (mkRes 401 (ErrorBody "Invalid email or password"))
           else
             logActivity E (user !! "id") "login" "User logged in" 0 None None;;
             let token := sign_token E user in
             mret (mkRes 200 (SessionBody "Login successful" token (without_password user)))
       end)
    (fun error =>
       console_error "Login error:" error;;
       mret (mkRes 500 (ErrorBody "Login failed. Please try again."))).

(** [authController.getProfile(req, res)], [userId] being
    [req.user.userId] *)
Definition getProfile (E : Env) (userId : string) : Js World Res :=
  try_catch
    (found ← getUserById E userId;
     match found with
     | None => mret (mkRes 404 (ErrorBody "User not found"))
     | Some user => mret (mkRes 200 (UserBody (without_password user)))
     end)
    (fun error =>
       console_error "Get profile error:" error;;
       mret (mkRes 500 (ErrorBody "Failed to get profile"))).

(** [authController.updateProfile(req, res)] *)
Definition updateProfile (E : Env) (userId : string) (body : ProfileBody) : Js World Res :=
  try_catch
    (let updates : Obj := ∅ in
     let updates :=
       if truthy (pb_name body) then <["name" := VStr (trim (default "" (pb_name body)))]> updates
       else updates in
     let updates :=
       if truthy (pb_avatar body) then <["avatar" := VStr (default "" (pb_avatar body))]> updates
       else updates in
     updated ← updateUser E userId updates;
     logActivity E (Some (VStr userId)) "profile_update" "Profile updated" 0 None None;;
     updatedUser ← not_null "Cannot destructure 'updatedUser' as it is null." updated;
     mret (mkRes 200 (UserBody (without_password updatedUser))))
    (fun error =>
       console_error "Update profile error:" error;;
       mret (mkRes 500 (ErrorBody "Failed to update profile"))).

(** The object [register] hands to [createUser]. *)
Definition userData_of (E : Env) (body : RegisterBody) : Obj :=
  {[ "name" := VStr (trim (default "" (rb_username body)));
     "email" := VStr (trim (toLowerCase (default "" (rb_email body))));
     "password" := VStr (bcrypt_hash (default "" (rb_password body)) 12 (salt E));
     "role" := VStr "user";
     "points" := VNum 100 ]}.

End Controller.

(** *** Vocabulary of the statements *)

(** [E], with [f] as the fate of the append to [user_activity]. *)
Definition set_activity_fault (f : fault) (E : Env) : Env :=
  mkEnv (now E) (date_now E) (new_id E) (salt E) (env_JWT_SECRET E)
        (get_by_email_fault E) (get_by_id_fault E) (insert_user_fault E) (update_user_fault E) f.

(** The world [logActivity] leaves when asked to record [row]. *)
Definition log_world (E : Env) (row : Activity) (w : World) : World :=
  if supabase w then
    match insert_activity_fault E with
    | NoFault => mkWorld (supabase w) (users w) (user_activity w ++ [row]) (mockUsers w) (console w)
    | ErrorResult e =>
        mkWorld (supabase w) (users w) (user_activity w) (mockUsers w)
                (console w ++ [("Activity logging error:", e)])
    | Rejects e =>
        mkWorld (supabase w) (users w) (user_activity w) (mockUsers w)
                (console w ++ [("Activity logging failed:", e)])
    end
  else w.

(** The handler responds, and the user object in the response, if there is
    one, has no [password] property. *)
Definition password_free (r : completion Res * World) : Prop :=
  ∃ res, r.1 = Return res ∧
         ∀ user, body_user (json res) = Some user → user !! "password" = None.

End Auth.

Module AuthExamples.
Import Auth.

(** Stand-ins for the libraries, to run the handlers on examples. *)
Definition toy_libraries : Libraries := {|
  bcrypt_hash password rounds salt := "$2a$" +:+ salt +:+ "$" +:+ password;
  bcrypt_compare password hash := bool_decide (hash = "$2a$salt$" +:+ password);
  jwt_sign payload secret expiresIn iat := "header.payload." +:+ secret
|}.

Definition admin : Obj :=
  {[ "id" := VStr "admin-id"; "name" := VStr "Admin"; "email" := VStr "admin@gmail.com";
     "password" := VStr "$2a$salt$Admin@123"; "role" := VStr "admin"; "points" := VNum 1000 ]}.

Definition w0 : World := mkWorld true {[ "admin-id" := admin ]} [] [] [].
Definition mock0 : World := mkWorld false ∅ [] [admin] [].
(** A store without any user. *)
Definition emptied : World := mkWorld true ∅ [] [] [].

Definition quiet : Env :=
  mkEnv "2025-07-12T13:42:41.000Z" 1752327761000 "uuid-1" "salt" None
        NoFault NoFault NoFault NoFault NoFault.

Definition statement_timeout : error :=
  PostgrestError "57014" "canceling statement due to statement timeout".

(** [quiet], but the store refuses the append to [user_activity]. *)
Definition lossy : Env :=
  mkEnv "2025-07-12T13:42:41.000Z" 1752327761000 "uuid-1" "salt" None
        NoFault NoFault NoFault NoFault (ErrorResult statement_timeout).

Definition alice_form : RegisterBody :=
  mkRegisterBody (Some "alice") (Some "alice@example.com") (Some "secret1").

(** The row of alice after her registration in [quiet], and the response. *)
Definition alice_row : Obj :=
  {[ "id" := VStr "uuid-1"; "name" := VStr "alice"; "email" := VStr "alice@example.com";
     "password" := VStr "$2a$salt$secret1"; "role" := VStr "user"; "points" := VNum 100;
     "created_at" := VStr "2025-07-12T13:42:41.000Z";
     "updated_at" := VStr "2025-07-12T13:42:41.000Z" ]}.

Definition alice_registered : Res :=
  mkRes 201 (SessionBody "User registered successfully"
                         "header.payload.riyadah_elite_fallback_secret"
                         (delete "password" alice_row)).

Definition admin_login : LoginBody :=
  mkLoginBody (Some (FStr "Admin@gmail.com ")) (Some (FStr "Admin@123")).
Definition wrong_password_login : LoginBody :=
  mkLoginBody (Some (FStr "admin@gmail.com")) (Some (FStr "letmein")).
(** Logins with a number for the password: of an email that no user has,
    and of the administrator's. *)
Definition numeric_login_unknown : LoginBody :=
  mkLoginBody (Some (FStr "nobody@example.com")) (Some (FNum 123456)).
Definition numeric_login_admin : LoginBody :=
  mkLoginBody (Some (FStr "admin@gmail.com")) (Some (FNum 123456)).

End AuthExamples.

(** ** Any number of concurrent claims *)

Module ClaimPool.
Import ClaimEngine.

(** The calls in flight, each with its environment. The schedule names, by
    its position, the call that runs its next stretch; a position that
    names no call is skipped. *)
Fixpoint run_pool (schedule : list nat) (pool : list (Env * thread)) (w : World)
  : list (Env * thread) * World :=
  match schedule with
  | [] => (pool, w)
  | i :: schedule =>
      match pool !! i with
      | Some (E, t) =>
          let '(t', w') := step E t w in
          run_pool schedule (<[i := (E, t')]> pool) w'
      | None => run_pool schedule pool w
      end
  end.

(** Calls that have not started yet. *)
Definition fresh_calls (calls : list (Env * string * string)) : list (Env * thread) :=
  (fun '(E, u, r) => (E, Reading u r)) <$> calls.

End ClaimPool.

(** More sample data for the claim operation. *)
Module MoreClaimExamples.
Import ClaimEngine ClaimExamples.

Definition keyboard : Reward := mkReward "r3" "Keyboard" 600 2 true.

(** The sample store, with the keyboard on offer too. *)
Definition shop : World :=
  mkWorld true
    (mkDb (users db0) (<["r3" := keyboard]> (rewards db0)) (user_rewards db0) (user_activity db0))
    [].

(** The sample store after alice has claimed the mousepad, the store
    executing everything: she has one Claim record, and four mousepads are
    left. *)
Definition after_mousepad : World := (claimReward quiet "u1" "r2" w0).2.

(** The shop after bob has claimed the keyboard, the store executing
    everything: bob is left with 100 points. *)
Definition after_keyboard : World := (claimReward quiet "u2" "r3" shop).2.

End MoreClaimExamples.

(** ** The listings of the [db] object that owns [claimReward] *)

Module RewardQueries.
Import ClaimEngine.

(** The order of [.order('points_required', { ascending: true })]. *)
Definition cheaper (a b : Reward) : Prop := r_points_required a <= r_points_required b.

#[global] Instance cheaper_dec a b : Decision (cheaper a b).
Proof. unfold cheaper. apply _. Defined.

#[global] Instance cheaper_total : Total cheaper.
Proof. intros a b. unfold cheaper. lia. Qed.

#[global] Instance cheaper_trans : Transitive cheaper.
Proof. intros a b c. unfold cheaper. lia. Qed.



(** [supabase.from('user_rewards').select(...).eq('user_id', userId)
    .order('redeemed_at', { ascending: false })], the selection being every
    column and, as [reward], the row of [rewards] the record refers to:
    each Claim record with the row of its reward ([null] when there is
    none). The store stamps [redeemed_at] at the insert, so the newest
    record is the last one inserted. *)
Definition select_user_rewards (f : fault) (userId : string)
  : Js World (response (list (UserReward * option Reward))) :=
  storage_call f (fun w =>
    (Response
       (Some ((fun ur => (ur, rewards (db w) !! ur_reward_id ur)) <$>
              reverse (filter (fun ur => ur_user_id ur = userId) (user_rewards (db w)))))
       None, w)).

(** [db.getUserRewards(userId)] *)
Definition getUserRewards (f : fault) (userId : string)
  : Js World (list (UserReward * option Reward)) :=
  configured ← gets supabase;
  if negb configured then mret []
  else
    r ← select_user_rewards f userId;
    match err r with
    | Some e => throw e
    | None => mret (default [] (data r))
    end.

End RewardQueries.

(** ** Tournaments and the activity feed of the same [db] object *)

Module Tournaments.
Import ClaimEngine.

(** Rows of [tournaments] and of [user_tournaments], with the columns the
    helpers use; [start_date] as a point in time. *)
Record Tournament := mkTournament {
  t_id : string;
  t_title : string;
  t_start_date : Z;
  t_created_by : option string
}.

Record UserTournament := mkUserTournament {
  ut_user_id : string;
  ut_tournament_id : string
}.

(** The world of [ClaimEngine], with the two tables it leaves out. *)
Record Store := mkStore {
  base : World;
  tournaments : gmap string Tournament;
  user_tournaments : list UserTournament
}.

(** A helper of [ClaimEngine], run on the store. *)
Definition on_base {A} (m : Js World A) : Js Store A := fun s =>
  let '(c, w) := m (base s) in (c, mkStore w (tournaments s) (user_tournaments s)).

(** The order of [.order('start_date', { ascending: true })]. *)
Definition earlier (a b : Tournament * option string) : Prop :=
  t_start_date a.1 <= t_start_date b.1.

#[global] Instance earlier_dec a b : Decision (earlier a b).
Proof. unfold earlier. apply _. Defined.

#[global] Instance earlier_total : Total earlier.
Proof. intros a b. unfold earlier. lia. Qed.

#[global] Instance earlier_trans : Transitive earlier.
Proof. intros a b c. unfold earlier. lia. Qed.

(** [supabase.from('tournaments').select(...).order('start_date',
    { ascending: true })], the selection being every column and, as
    [created_by_user], the username of the user [created_by] refers to. *)
Definition select_tournaments (f : fault) : Js Store (response (list (Tournament * option string))) :=
  storage_call f (fun s =>
    (Response
       (Some (merge_sort earlier
                ((fun t => (t, t_created_by t ≫= fun id =>
                                 u_username <$> users (db (base s)) !! id))
                 <$> (map_to_list (tournaments s)).*2)))
       None, s)).

(** [db.getTournaments()] *)
Definition getTournaments (f : fault) : Js Store (list (Tournament * option string)) :=
  configured ← gets (fun s => supabase (base s));
  if negb configured then mret []
  else
    r ← select_tournaments f;
    match err r with
    | Some e => throw e
    | None => mret (default [] (data r))
    end.

(** [supabase.from('user_tournaments').select(...).eq('user_id', userId)
    .order('joined_at', { ascending: false })], the selection being every
    column and, as [tournament], the row of the tournament. The store
    stamps [joined_at] at the insert. *)
Definition select_user_tournaments (f : fault) (userId : string)
  : Js Store (response (list (UserTournament * option Tournament))) :=
  storage_call f (fun s =>
    (Response
       (Some ((fun ut => (ut, tournaments s !! ut_tournament_id ut)) <$>
              reverse (filter (fun ut => ut_user_id ut = userId) (user_tournaments s))))
       None, s)).

(** [db.getUserTournaments(userId)] *)
Definition getUserTournaments (f : fault) (userId : string)
  : Js Store (list (UserTournament * option Tournament)) :=
  configured ← gets (fun s => supabase (base s));
  if negb configured then mret []
  else
    r ← select_user_tournaments f userId;
    match err r with
    | Some e => throw e
    | None => mret (default [] (data r))
    end.

(** [supabase.from('user_tournaments').insert([row]).select().single()] *)
Definition insert_user_tournament (f : fault) (row : UserTournament)
  : Js Store (response UserTournament) :=
  storage_call f (fun s =>
    (Response (Some row) None,
     mkStore (base s) (tournaments s) (user_tournaments s ++ [row]))).

(** [db.joinTournament(userId, tournamentId)]; [f] is the fate of the
    insert, [E] the environment of [logActivity]. *)
Definition joinTournament (f : fault) (E : Env) (userId tournamentId : string)
  : Js Store (option UserTournament) :=
  configured ← gets (fun s => supabase (base s));
  if negb configured then throw (Error "Database not configured")
  else
    r ← insert_user_tournament f (mkUserTournament userId tournamentId);
    match err r with
    | Some e => throw e
    | None =>
        on_base (logActivity E userId "tournament_join" "Joined tournament" 10
                             (Some tournamentId) None);;
        mret (data r)
    end.

(** An Activity Entry as the feed shows it: with the title of its
    tournament and the title of its reward, when it has one. *)
Record FeedEntry := mkFeedEntry {
  fe_activity : Activity;
  fe_tournament : option string;
  fe_reward : option string
}.

(** [supabase.from('user_activity').select(...).eq('user_id', userId)
    .order('created_at', { ascending: false }).limit(limit)]. The store
    stamps [created_at] at the insert. *)
Definition select_user_activity (f : fault) (userId : string) (limit : nat)
  : Js Store (response (list FeedEntry)) :=
  storage_call f (fun s =>
    (Response
       (Some ((fun a =>
                 mkFeedEntry a
                   (a_tournament_id a ≫= fun id => t_title <$> tournaments s !! id)
                   (a_reward_id a ≫= fun id => r_title <$> rewards (db (base s)) !! id))
              <$> take limit
                    (reverse (filter (fun a => a_user_id a = userId)
                                     (user_activity (db (base s)))))))
       None, s)).

(** [db.getUserActivity(userId, limit = 10)]; [None] is a call that leaves
    [limit] out. *)
Definition getUserActivity (f : fault) (userId : string) (limit : option nat)
  : Js Store (list FeedEntry) :=
  configured ← gets (fun s => supabase (base s));
  if negb configured then mret []
  else
    r ← select_user_activity f userId (default 10%nat limit);
    match err r with
    | Some e => throw e
    | None => mret (default [] (data r))
    end.

End Tournaments.

(** Sample data for the tournaments. *)
Module TournamentExamples.
Import ClaimEngine ClaimExamples Tournaments.

Definition apex : Tournament := mkTournament "t1" "Apex Legends Championship" 1757930400 (Some "u1").
Definition valorant : Tournament := mkTournament "t2" "Valorant Pro Series" 1741201200 None.

Definition s0 : Store :=
  mkStore w0 (<["t1" := apex]> (<["t2" := valorant]> ∅)) [].

End TournamentExamples.

(** More sample data for the controller. *)
Module MoreAuthExamples.
Import Auth AuthExamples.

(** A registration under another spelling of the administrator's email,
    and the mock user it makes in [quiet]. *)
Definition admin_again : RegisterBody :=
  mkRegisterBody (Some "root") (Some "Admin@Gmail.com") (Some "secret1").

Definition second_admin : Obj :=
  {[ "id" := VStr "user-1752327761000"; "name" := VStr "root";
     "email" := VStr "admin@gmail.com"; "password" := VStr "$2a$salt$secret1";
     "role" := VStr "user"; "points" := VNum 100;
     "created_at" := VStr "2025-07-12T13:42:41.000Z";
     "updated_at" := VStr "2025-07-12T13:42:41.000Z" ]}.

(** [quiet], but the store refuses the insertion into [users]. *)
Definition failing_insert : Env :=
  mkEnv "2025-07-12T13:42:41.000Z" 1752327761000 "uuid-1" "salt" None
        NoFault NoFault (ErrorResult statement_timeout) NoFault NoFault.

(** What the administrator gets for [admin_login] in [quiet]. *)
Definition admin_session : Res :=
  mkRes 200 (SessionBody "Login successful" "header.payload.riyadah_elite_fallback_secret"
                         (delete "password" admin)).

(** A new name for a profile, and the answer to the administrator's update
    in [quiet]. *)
Definition new_name : ProfileBody := mkProfileBody (Some " Root ") None.

Definition renamed : Res :=
  mkRes 200 (UserBody (delete "password"
                         (<["updated_at" := VStr (now quiet)]>
                            (<["name" := VStr "Root"]> admin)))).

End MoreAuthExamples.

(** ** The middleware in front of the controller *)

Module Middleware.
Import Auth.

(** [jwt.verify(token, secret)] at a given time, opaque: the decoded
    payload, or the [name] of the error it throws. *)
Inductive verification :=
| Decoded (payload : JwtPayload)
| Throws (name : string).

Class Verifier := {
  jwt_verify : string -> string -> Z -> verification
}.

(** [s.split(' ')] *)
Fixpoint split_spaces (s : string) : list string :=
  match s with
  | EmptyString => [EmptyString]
  | String c s' =>
      if Ascii.eqb c " "%char then EmptyString :: split_spaces s'
      else match split_spaces s' with
           | [] => [String c EmptyString]
           | word :: words => String c word :: words
           end
  end.

(** A string without a space. *)
Fixpoint space_free (s : string) : bool :=
  match s with
  | EmptyString => true
  | String c s' => negb (Ascii.eqb c " "%char) && space_free s'
  end.

(** What a middleware does with a request: it calls [next()], having set
    [req.user], or it answers. *)
Inductive passage :=
| Next (user : JwtPayload)
| Answer (res : Res).

Section WithVerifier.
Context `{Verifier}.

(** [process.env.JWT_SECRET || 'riyadah_elite_fallback_secret'], the
    constant of the file of [authMiddleware]. *)
Definition middleware_secret (env_secret : option string) : string :=
  if truthy env_secret then default "" env_secret else "riyadah_elite_fallback_secret".

(** [authMiddleware(req, res, next)]; [authorization] is
    [req.headers.authorization]. *)
Definition authMiddleware (env_secret : option string) (now : Z) (authorization : option string)
  : passage :=
  if negb (truthy authorization) then Answer (mkRes 401 (ErrorBody "No token provided"))
  else
    let token := split_spaces (default "" authorization) !! 1%nat in
    if negb (truthy token) then Answer (mkRes 401 (ErrorBody "Invalid token format"))
    else
      match jwt_verify (default "" token) (middleware_secret env_secret) now with
      | Decoded decoded => Next decoded
      | Throws name =>
          if String.eqb name "JsonWebTokenError" then
            Answer (mkRes 401 (ErrorBody "Invalid token"))
          else if String.eqb name "TokenExpiredError" then
            Answer (mkRes 401 (ErrorBody "Token expired"))
          else Answer (mkRes 500 (ErrorBody "Token verification failed"))
      end.

(** [adminMiddleware(req, res, next)]; [user] is [req.user]. *)
Definition adminMiddleware (user : JwtPayload) : passage :=
  if negb (bool_decide (jwt_role user = Some (VStr "admin")))
     && negb (bool_decide (jwt_role user = Some (VStr "moderator")))
  then Answer (mkRes 403 (ErrorBody "Admin access required"))
  else Next user.

(** [process.env.JWT_SECRET || 'fallback_secret_key'], the expression of
    the file of [auth] and [adminAuth]. *)
Definition auth_secret (env_secret : option string) : string :=
  if truthy env_secret then default "" env_secret else "fallback_secret_key".

(** [auth(req, res, next)], with what it prints: the label and the name of
    the error. *)
Definition auth (env_secret : option string) (now : Z) (authorization : option string)
  : passage * list (string * string) :=
  let token := authorization ≫= fun header => split_spaces header !! 1%nat in
  if negb (truthy token) then (Answer (mkRes 401 (ErrorBody "Authentication required")), [])
  else
    match jwt_verify (default "" token) (auth_secret env_secret) now with
    | Decoded decoded => (Next decoded, [])
    | Throws name =>
        (Answer (mkRes 401 (ErrorBody "Invalid token")), [("Auth middleware error:", name)])
    end.

(** [adminAuth(req, res, next)] *)
Definition adminAuth (env_secret : option string) (now : Z) (authorization : option string)
  : passage * list (string * string) :=
  let token := authorization ≫= fun header => split_spaces header !! 1%nat in
  if negb (truthy token) then (Answer (mkRes 401 (ErrorBody "Authentication required")), [])
  else
    match jwt_verify (default "" token) (auth_secret env_secret) now with
    | Decoded decoded =>
        if negb (bool_decide (jwt_role decoded = Some (VStr "admin"))) then
          (Answer (mkRes 403 (ErrorBody "Admin access required")), [])
        else (Next decoded, [])
    | Throws name =>
        (Answer (mkRes 401 (ErrorBody "Invalid token")),
         [("Admin auth middleware error:", name)])
    end.

End WithVerifier.

(** Every stored row is stored under its own [id]. *)
Definition keyed_by_id (w : World) : Prop :=
  map_Forall (fun key row => row !! "id" = Some (VStr key)) (users w).

#[global] Instance keyed_by_id_dec w : Decision (keyed_by_id w).
Proof. unfold keyed_by_id. apply _. Defined.

End Middleware.

(** Sample data for the middleware. *)
Module MiddlewareExamples.
Import Auth AuthExamples Middleware.

(** What the tokens of the samples decode to. *)
Definition admin_payload : JwtPayload :=
  mkJwtPayload (Some (VStr "admin-id")) (Some (VStr "admin@gmail.com"))
               (Some (VStr "admin")) (Some (VStr "Admin")).

Definition moderator_payload : JwtPayload :=
  mkJwtPayload (Some (VStr "mod-id")) (Some (VStr "mod@gmail.com"))
               (Some (VStr "moderator")) (Some (VStr "Mod")).

(** A stand-in for [jwt.verify] that knows the tokens of [toy_libraries]:
    it takes the one signed with the controller's fallback secret for the
    administrator's, one signed with another secret for a moderator's, and
    refuses a token checked against a secret it was not signed with. *)
Definition toy_verifier : Verifier := {|
  jwt_verify token secret now :=
    if String.eqb token ("header.payload." +:+ secret) then
      if String.eqb secret "riyadah_elite_fallback_secret" then Decoded admin_payload
      else Decoded moderator_payload
    else Throws "JsonWebTokenError"
|}.

End MiddlewareExamples.


(** * Properties *)

(** ** The claim operation *)

Module ClaimFacts.
Import ClaimEngine ClaimExamples.

#[local] Arguments claim_checks : simpl never.
#[local] Arguments single : simpl never.

Ltac js_unfold :=
  unfold claim_read, claim_insert, claim_update, claim_log,
    getUserById, updateUser, logActivity, select_user, select_reward,
    update_user_row, update_reward_stock, insert_user_reward, insert_activity,
    storage_call, promise_all, try_catch, console_error, modify, gets, complete,
    throw, set_db, mbind, mret, Js_bind, Js_ret in *.

(** *** The four stretches, one by one *)

(** Reading changes nothing. *)
Lemma claim_read_world E u r w : (claim_read E u r w).2 = w.
Proof.
  js_unfold. unfold single. destruct w as [[] d c]; simpl; [|done].
  destruct (get_user_fault E), (get_reward_fault E); simpl;
    repeat (simpl in *; try case_match; simplify_eq); done.
Qed.

(** With a client and reads that go through, reading is a lookup of the
    two rows followed by the checks. *)
Lemma claim_read_eq E u r w :
  supabase w = true -> get_user_fault E = NoFault -> get_reward_fault E = NoFault ->
  claim_read E u r w =
  (match users (db w) !! u with
   | None => Throw PGRST116
   | Some user => claim_checks (Some user) (single (rewards (db w) !! r))
   end, w).
Proof.
  destruct w as [s d c]; simpl; intros -> Hu Hr. js_unfold. simpl. rewrite Hu, Hr. simpl.
  destruct (users d !! u); simpl; [|done].
  destruct (rewards d !! r); done.
Qed.

(** The checks pass on rows with enough points and stock only. *)
Lemma claim_checks_Return user reward user' reward' :
  claim_checks user reward = Return (user', reward') ->
  user = Some user' ∧ data reward = Some reward' ∧
  r_points_required reward' <= u_points user' ∧ 0 < r_stock reward'.
Proof.
  unfold claim_checks. destruct user as [x|]; [|done].
  destruct (data reward) as [y|]; [|done].
  destruct (Z.ltb_spec (u_points x) (r_points_required y)); [done|].
  destruct (Z.leb_spec (r_stock y) 0); [done|].
  intros [= -> ->]. repeat split; [done|lia].
Qed.

Lemma claim_checks_pass user reward :
  r_points_required reward <= u_points user -> 0 < r_stock reward ->
  claim_checks (Some user) (single (Some reward)) = Return (user, reward).
Proof.
  intros Hp Hst. unfold claim_checks, single; simpl.
  destruct (Z.ltb_spec (u_points user) (r_points_required reward)); [lia|].
  destruct (Z.leb_spec (r_stock reward) 0); [lia|done].
Qed.

(** What a read that returns has seen. *)
Lemma claim_read_Return E u r w user reward w' :
  claim_read E u r w = (Return (user, reward), w') ->
  w' = w ∧ supabase w = true ∧
  get_user_fault E = NoFault ∧ get_reward_fault E = NoFault ∧
  users (db w) !! u = Some user ∧ rewards (db w) !! r = Some reward ∧
  r_points_required reward <= u_points user ∧ 0 < r_stock reward.
Proof.
  intros Hrun. pose proof (claim_read_world E u r w) as Hw. rewrite Hrun in Hw.
  simpl in Hw. subst w'. split; [done|]. revert Hrun.
  js_unfold. unfold single. destruct w as [[] d c]; simpl; [|done].
  destruct (get_user_fault E), (get_reward_fault E); simpl; try done.
  - destruct (users d !! u) as [user'|]; simpl; [|done].
    destruct (rewards d !! r) as [reward'|]; simpl; [|done].
    intros [= Hck]. apply claim_checks_Return in Hck as (Hu & Hr & Hp & Hst).
    simpl in *. by simplify_eq.
  - destruct (users d !! u); simpl; done.
  - destruct (users d !! u); simpl; done.
Qed.

Lemma claim_insert_eq E u r w :
  claim_insert E u r w =
  match insert_claim_fault E with
  | NoFault =>
      (Return (Some (mkUserReward u r)),
       set_db (fun d => mkDb (users d) (rewards d) (user_rewards d ++ [mkUserReward u r])
                             (user_activity d)) w)
  | ErrorResult e | Rejects e => (Throw e, w)
  end.
Proof. js_unfold. destruct (insert_claim_fault E); reflexivity. Qed.

Lemma claim_update_eq E u r user reward w :
  supabase w = true ->
  claim_update E u r user reward w =
  let w1 :=
    match update_user_fault E, users (db w) !! u with
    | NoFault, Some cur =>
        set_db (fun d => mkDb (<[u := spend user reward (now E) cur]> (users d)) (rewards d)
                              (user_rewards d) (user_activity d)) w
    | _, _ => w
    end in
  let w2 :=
    match update_reward_fault E, rewards (db w1) !! r with
    | NoFault, Some cur =>
        set_db (fun d => mkDb (users d) (<[r := take_one reward cur]> (rewards d))
                              (user_rewards d) (user_activity d)) w1
    | _, _ => w1
    end in
  (match update_user_fault E, users (db w) !! u, update_reward_fault E with
   | NoFault, Some _, (NoFault | ErrorResult _) => Return tt
   | NoFault, Some _, Rejects e => Throw e
   | NoFault, None, _ => Throw PGRST116
   | (ErrorResult e | Rejects e), _, _ => Throw e
   end, w2).
Proof.
  destruct w as [s d c]; simpl; intros ->. js_unfold. simpl.
  destruct (update_user_fault E); simpl.
  - destruct (users d !! u) eqn:Hu; simpl.
    + destruct (update_reward_fault E); simpl; try reflexivity.
      destruct (rewards d !! r); reflexivity.
    + destruct (update_reward_fault E); simpl; try reflexivity.
      destruct (rewards d !! r); reflexivity.
  - destruct (update_reward_fault E); simpl; try (destruct (users d !! u); reflexivity).
    destruct (rewards d !! r); destruct (users d !! u); reflexivity.
  - destruct (update_reward_fault E); simpl; try (destruct (users d !! u); reflexivity).
    destruct (rewards d !! r); destruct (users d !! u); reflexivity.
Qed.

(** [logActivity] returns [null], whatever becomes of the append. *)
Lemma claim_logActivity_eq E userId activityType description pointsChange tournamentId rewardId w :
  logActivity E userId activityType description pointsChange tournamentId rewardId w =
  (Return None,
   if supabase w then
     match insert_activity_fault E with
     | NoFault =>
         set_db (fun d => mkDb (users d) (rewards d) (user_rewards d)
                   (user_activity d ++ [mkActivity userId tournamentId rewardId activityType
                                                   description pointsChange])) w
     | ErrorResult e =>
         mkWorld (supabase w) (db w) (console w ++ [("Activity logging error:", e)])
     | Rejects e =>
         mkWorld (supabase w) (db w) (console w ++ [("Activity logging failed:", e)])
     end
   else w).
Proof.
  js_unfold. destruct w as [[] d c]; simpl; [|done].
  destruct (insert_activity_fault E); reflexivity.
Qed.

Lemma claim_log_eq E u r reward w :
  supabase w = true ->
  claim_log E u r reward w =
  (Return tt,
   match insert_activity_fault E with
   | NoFault =>
       set_db (fun d => mkDb (users d) (rewards d) (user_rewards d)
                             (user_activity d ++ [claim_entry u r reward])) w
   | ErrorResult e => mkWorld (supabase w) (db w) (console w ++ [("Activity logging error:", e)])
   | Rejects e => mkWorld (supabase w) (db w) (console w ++ [("Activity logging failed:", e)])
   end).
Proof.
  intros Hs. unfold claim_log, mbind, Js_bind, mret, Js_ret.
  rewrite claim_logActivity_eq, Hs. reflexivity.
Qed.

(** *** The whole call *)

Lemma claimReward_unfold E u r w :
  claimReward E u r w =
  match claim_read E u r w with
  | (Return (user, reward), w1) =>
      match claim_insert E u r w1 with
      | (Return data, w2) =>
          match claim_update E u r user reward w2 with
          | (Return _, w3) =>
              match claim_log E u r reward w3 with
              | (Return _, w4) => (Return data, w4)
              | (Throw e, w4) => (Throw e, w4)
              end
          | (Throw e, w3) => (Throw e, w3)
          end
      | (Throw e, w2) => (Throw e, w2)
      end
  | (Throw e, w1) => (Throw e, w1)
  end.
Proof.
  unfold claimReward, mbind, Js_bind, mret, Js_ret.
  destruct (claim_read E u r w) as [[[user reward]|e] w1]; [|done].
  destruct (claim_insert E u r w1) as [[data|e] w2]; [|done].
  destruct (claim_update E u r user reward w2) as [[[]|e] w3]; [|done].
  destruct (claim_log E u r reward w3) as [[[]|e] w4]; done.
Qed.

(** A call that returns: what it saw and what it left. *)
Lemma claimReward_Return E u r w data w' :
  claimReward E u r w = (Return data, w') ->
  ∃ user reward,
    supabase w = true ∧
    users (db w) !! u = Some user ∧ rewards (db w) !! r = Some reward ∧
    r_points_required reward <= u_points user ∧ 0 < r_stock reward ∧
    data = Some (mkUserReward u r) ∧
    users (db w') = <[u := spend user reward (now E) user]> (users (db w)) ∧
    rewards (db w') =
      match update_reward_fault E with
      | NoFault => <[r := take_one reward reward]> (rewards (db w))
      | _ => rewards (db w)
      end ∧
    user_rewards (db w') = (user_rewards (db w) ++ [mkUserReward u r])%list ∧
    user_activity (db w') =
      match insert_activity_fault E with
      | NoFault => (user_activity (db w) ++ [claim_entry u r reward])%list
      | _ => user_activity (db w)
      end.
Proof.
  rewrite claimReward_unfold.
  destruct (claim_read E u r w) as [[[user reward]|e] w1] eqn:Hread; [|done].
  apply claim_read_Return in Hread as (-> & Hs & _ & _ & Hu & Hr & Hp & Hst).
  rewrite claim_insert_eq.
  destruct (insert_claim_fault E); [|done..].
  rewrite claim_update_eq by done. simpl. rewrite Hu, Hr.
  destruct (update_user_fault E); [|done..].
  simpl. rewrite Hr.
  destruct (update_reward_fault E) eqn:Hf; [| |done].
  all: rewrite claim_log_eq by done.
  all: intros [= <- <-]; exists user, reward.
  all: destruct (insert_activity_fault E); simpl; repeat split; done.
Qed.

(** A call that throws: it left the world as it was, or it threw at the
    updates, after the insert of the Claim record. *)
Lemma claimReward_Throw E u r w e w' :
  claimReward E u r w = (Throw e, w') ->
  w' = w ∨
  ∃ user reward,
    users (db w) !! u = Some user ∧ rewards (db w) !! r = Some reward ∧
    r_points_required reward <= u_points user ∧ 0 < r_stock reward ∧
    (update_user_fault E = ErrorResult e ∨ update_user_fault E = Rejects e ∨
     update_reward_fault E = Rejects e) ∧
    supabase w' = supabase w ∧ console w' = console w ∧
    users (db w') =
      match update_user_fault E with
      | NoFault => <[u := spend user reward (now E) user]> (users (db w))
      | _ => users (db w)
      end ∧
    rewards (db w') =
      match update_reward_fault E with
      | NoFault => <[r := take_one reward reward]> (rewards (db w))
      | _ => rewards (db w)
      end ∧
    user_rewards (db w') = (user_rewards (db w) ++ [mkUserReward u r])%list ∧
    user_activity (db w') = user_activity (db w).
Proof.
  rewrite claimReward_unfold.
  destruct (claim_read E u r w) as [[[user reward]|e'] w1] eqn:Hread.
  2:{ pose proof (claim_read_world E u r w) as Hw. rewrite Hread in Hw.
      intros [= <- <-]. by left. }
  apply claim_read_Return in Hread as (-> & Hs & _ & _ & Hu & Hr & Hp & Hst).
  rewrite claim_insert_eq.
  destruct (insert_claim_fault E); [|intros [= <- <-]; by left..].
  rewrite claim_update_eq by done. simpl. rewrite Hu, Hr.
  destruct (update_user_fault E) eqn:Hfu; simpl; rewrite ?Hr.
  - destruct (update_reward_fault E) eqn:Hfr.
    + rewrite claim_log_eq by done. done.
    + rewrite claim_log_eq by done. done.
    + intros [= <- <-]. right. exists user, reward. repeat split; auto.
  - intros [= <- <-]. right. exists user, reward.
    destruct (update_reward_fault E); repeat split; auto.
  - intros [= <- <-]. right. exists user, reward.
    destruct (update_reward_fault E); repeat split; auto.
Qed.

(** The call is the four stretches of the machine, run without a pause. *)
Lemma run2_alone E1 E2 u r t2 w :
  run2 E1 E2 [true; true; true; true] (Reading u r) t2 w =
  (Settled (claimReward E1 u r w).1, t2, (claimReward E1 u r w).2).
Proof.
  rewrite claimReward_unfold. simpl.
  destruct (claim_read E1 u r w) as [[[user reward]|e] w1]; simpl; [|done].
  destruct (claim_insert E1 u r w1) as [[data|e] w2]; simpl; [|done].
  destruct (claim_update E1 u r user reward w2) as [[[]|e] w3]; simpl; [|done].
  destruct (claim_log E1 u r reward w3) as [[[]|e] w4] eqn:Hlog; simpl; [done|].
  revert Hlog. unfold claim_log, mbind, Js_bind, mret, Js_ret.
  by rewrite claim_logActivity_eq.
Qed.

(** *** Success *)

(** A call that has thrown stays settled, and never returns. *)
Ltac dead_call :=
  repeat match goal with
         | H : step _ (Settled _) _ = _ |- _ =>
             simpl in H; first [discriminate H | injection H as <- <-]
         end.

(** C1 (counterexample). The store refuses the append to [user_activity];
    [claimReward] returns all the same, and the number of Activity Entries
    is not one more than before: no entry was created. And two calls of
    bob, who has 700 points, for the headset (500) and for the keyboard
    (600), both reading before either writes, in a store that executes
    everything: both return their Claim record, and bob is left with 100
    points, not with 700 less 500 less 600. *)
Lemma claim_success_without_activity_entry :
  (returned (claimReward lossy_log "u1" "r1" w0).1 = true ∧
   length (user_activity (db (claimReward lossy_log "u1" "r1" w0).2)) ≠
     S (length (user_activity (db w0)))) ∧
  ((run2 quiet quiet both_read_first (Reading "u2" "r1") (Reading "u2" "r3")
         MoreClaimExamples.shop).1 =
     (Settled (Return (Some (mkUserReward "u2" "r1"))),
      Settled (Return (Some (mkUserReward "u2" "r3")))) ∧
   u_points <$> users (db MoreClaimExamples.shop) !! "u2" = Some 700 ∧
   u_points <$> users (db (run2 quiet quiet both_read_first (Reading "u2" "r1")
                                (Reading "u2" "r3") MoreClaimExamples.shop).2) !! "u2" =
     Some 100 ∧
   100 ≠ 700 - 500 - 600).
Proof.
  split; [split; [vm_compute; reflexivity | vm_compute; lia]|].
  repeat split; try (vm_compute; reflexivity). lia.
Qed.

(** C1 (amended). Every [claimReward] call that returns adds exactly one
    Claim record, for its user and its reward, which it returns; it sets
    the user's points to the points it read at its start less
    [points_required] and, when the store executes the update of the stock,
    the stock to the stock it read less 1; when the store executes the
    append, it adds exactly one Activity Entry: of kind [reward_claim],
    with the negated cost as points delta and a description that names the
    reward; when the store refuses the append, it adds none.

    First conjunct: a call that runs alone, from [w] to [w']; there the
    points are lower by exactly [points_required] and the stock by exactly
    1. Second conjunct: a call among others; [wR], [wI], [wU] and [wL] are
    the worlds in which its four stretches start (the reads, the insert,
    the two updates, the append), each made by whatever ran since the
    stretch before, with the client the module was loaded with. *)
Theorem claim_success_effects E userId rewardId :
  (∀ w data w',
     claimReward E userId rewardId w = (Return data, w') ->
     ∃ user reward,
       users (db w) !! userId = Some user ∧ rewards (db w) !! rewardId = Some reward ∧
       u_points <$> users (db w') !! userId =
         Some (u_points user - r_points_required reward) ∧
       data = Some (mkUserReward userId rewardId) ∧
       user_rewards (db w') = (user_rewards (db w) ++ [mkUserReward userId rewardId])%list ∧
       (update_reward_fault E = NoFault ->
        r_stock <$> rewards (db w') !! rewardId = Some (r_stock reward - 1)) ∧
       (insert_activity_fault E = NoFault ->
        user_activity (db w') =
          (user_activity (db w) ++
           [mkActivity userId None (Some rewardId) "reward_claim"
                       ("Claimed " +:+ r_title reward) (- r_points_required reward)])%list) ∧
       (insert_activity_fault E ≠ NoFault -> user_activity (db w') = user_activity (db w))) ∧
  (∀ wR wI wU wL t1 t2 t3 data wR' wI' wU' wL',
     step E (Reading userId rewardId) wR = (t1, wR') ->
     step E t1 wI = (t2, wI') ->
     step E t2 wU = (t3, wU') ->
     step E t3 wL = (Settled (Return data), wL') ->
     supabase wI = supabase wR -> supabase wU = supabase wR -> supabase wL = supabase wR ->
     ∃ user reward cur,
       (* the reads *)
       wR' = wR ∧
       users (db wR) !! userId = Some user ∧ rewards (db wR) !! rewardId = Some reward ∧
       (* the insert *)
       data = Some (mkUserReward userId rewardId) ∧
       user_rewards (db wI') = (user_rewards (db wI) ++ [mkUserReward userId rewardId])%list ∧
       users (db wI') = users (db wI) ∧ rewards (db wI') = rewards (db wI) ∧
       user_activity (db wI') = user_activity (db wI) ∧
       (* the two updates *)
       users (db wU) !! userId = Some cur ∧
       users (db wU') = <[userId := spend user reward (now E) cur]> (users (db wU)) ∧
       u_points <$> users (db wU') !! userId =
         Some (u_points user - r_points_required reward) ∧
       (update_reward_fault E = NoFault ->
        ∀ stocked, rewards (db wU) !! rewardId = Some stocked ->
          rewards (db wU') = <[rewardId := take_one reward stocked]> (rewards (db wU)) ∧
          r_stock <$> rewards (db wU') !! rewardId = Some (r_stock reward - 1)) ∧
       user_rewards (db wU') = user_rewards (db wU) ∧
       user_activity (db wU') = user_activity (db wU) ∧
       (* the append *)
       users (db wL') = users (db wL) ∧ rewards (db wL') = rewards (db wL) ∧
       user_rewards (db wL') = user_rewards (db wL) ∧
       (insert_activity_fault E = NoFault ->
        user_activity (db wL') =
          (user_activity (db wL) ++
           [mkActivity userId None (Some rewardId) "reward_claim"
                       ("Claimed " +:+ r_title reward) (- r_points_required reward)])%list) ∧
       (insert_activity_fault E ≠ NoFault -> user_activity (db wL') = user_activity (db wL))).
Proof.
  split.
  - intros w data w' Hrun.
    apply claimReward_Return in Hrun
      as (user & reward & _ & Hu & Hr & _ & _ & Hdata & Hus & Hrs & Hur & Hua).
    exists user, reward. repeat split; try done.
    + rewrite Hus, lookup_insert_eq. reflexivity.
    + intros Hf. rewrite Hrs, Hf, lookup_insert_eq. reflexivity.
    + intros Hf. by rewrite Hua, Hf.
    + intros Hf. rewrite Hua. by destruct (insert_activity_fault E).
  - intros wR wI wU wL t1 t2 t3 data wR' wI' wU' wL' H1 H2 H3 H4 HsI HsU HsL.
    simpl in H1. unfold continue_with in H1.
    destruct (claim_read E userId rewardId wR) as [[[user reward]|e] wx] eqn:Hread;
      injection H1 as <- <-; [|dead_call].
    apply claim_read_Return in Hread as (-> & Hs & _ & _ & Hu & Hr & _ & _).
    rewrite Hs in HsI, HsU, HsL.
    simpl in H2. rewrite claim_insert_eq in H2.
    destruct (insert_claim_fault E); simpl in H2; injection H2 as <- <-; [|dead_call..].
    simpl in H3. rewrite claim_update_eq in H3 by done. simpl in H3.
    destruct (update_user_fault E) eqn:Hfu; [|injection H3 as <- <-; dead_call..].
    destruct (users (db wU) !! userId) as [cur|] eqn:Hcur;
      [|injection H3 as <- <-; dead_call].
    simpl in H3.
    destruct (update_reward_fault E) eqn:Hfr; [| |injection H3 as <- <-; dead_call].
    + injection H3 as <- <-. simpl in H4. rewrite claim_log_eq in H4.
      2:{ by destruct (rewards (db wU) !! rewardId). }
      simpl in H4. injection H4 as <- <-.
      exists user, reward, cur.
      destruct (rewards (db wU) !! rewardId) as [stocked|] eqn:Hst; simpl.
      * rewrite !lookup_insert_eq.
        repeat split; try done;
          try congruence;
          try (destruct (insert_activity_fault E); done).
      * rewrite !lookup_insert_eq.
        repeat split; try done;
          try (destruct (insert_activity_fault E); done).
    + injection H3 as <- <-. simpl in H4. rewrite claim_log_eq in H4 by done.
      simpl in H4. injection H4 as <- <-.
      exists user, reward, cur. simpl. rewrite !lookup_insert_eq.
      repeat split; try done;
        try (destruct (insert_activity_fault E); done).
Qed.

(** Two instances. Alice claims the headset, alone, the store executing
    everything. And bob claims the headset while his claim of the keyboard
    runs between the reads and the insert: the points that the call writes
    are the 700 it read less 500, whatever bob had when it wrote (100). *)
Lemma claim_success_effects_witness :
  (claimReward quiet "u1" "r1" w0 =
     (Return (Some (mkUserReward "u1" "r1")), (claimReward quiet "u1" "r1" w0).2) ∧
   u_points <$> users (db w0) !! "u1" = Some 500 ∧
   u_points <$> users (db (claimReward quiet "u1" "r1" w0).2) !! "u1" = Some (500 - 500)) ∧
  (step quiet (Reading "u2" "r1") MoreClaimExamples.shop =
     (Inserting "u2" "r1" bob headset, MoreClaimExamples.shop) ∧
   step quiet (Inserting "u2" "r1" bob headset) MoreClaimExamples.after_keyboard =
     (Updating "u2" "r1" bob headset (Some (mkUserReward "u2" "r1")),
      (step quiet (Inserting "u2" "r1" bob headset) MoreClaimExamples.after_keyboard).2) ∧
   u_points <$> users (db MoreClaimExamples.after_keyboard) !! "u2" = Some 100 ∧
   u_points <$>
     users (db (step quiet (Updating "u2" "r1" bob headset (Some (mkUserReward "u2" "r1")))
                  (step quiet (Inserting "u2" "r1" bob headset)
                        MoreClaimExamples.after_keyboard).2).2) !! "u2" =
     Some (700 - 500)).
Proof.
  split.
  - split; [vm_compute; reflexivity|]. split; [vm_compute; reflexivity|].
    assert (Hrun : claimReward quiet "u1" "r1" w0 =
                   (Return (Some (mkUserReward "u1" "r1")),
                    (claimReward quiet "u1" "r1" w0).2)) by (vm_compute; reflexivity).
    destruct (proj1 (claim_success_effects quiet "u1" "r1") w0 _ _ Hrun)
      as (user & reward & Hu & Hr & Hpoints & _).
    rewrite Hpoints. vm_compute in Hu, Hr. by simplify_eq.
  - split; [vm_compute; reflexivity|]. split; [vm_compute; reflexivity|].
    split; [vm_compute; reflexivity|].
    set (wI' := (step quiet (Inserting "u2" "r1" bob headset)
                      MoreClaimExamples.after_keyboard).2).
    set (wU' := (step quiet (Updating "u2" "r1" bob headset (Some (mkUserReward "u2" "r1")))
                      wI').2).
    assert (H1 : step quiet (Reading "u2" "r1") MoreClaimExamples.shop =
                 (Inserting "u2" "r1" bob headset, MoreClaimExamples.shop))
      by (vm_compute; reflexivity).
    assert (H2 : step quiet (Inserting "u2" "r1" bob headset)
                      MoreClaimExamples.after_keyboard =
                 (Updating "u2" "r1" bob headset (Some (mkUserReward "u2" "r1")), wI'))
      by (vm_compute; reflexivity).
    assert (H3 : step quiet (Updating "u2" "r1" bob headset (Some (mkUserReward "u2" "r1")))
                      wI' =
                 (Logging "u2" "r1" headset (Some (mkUserReward "u2" "r1")), wU'))
      by (vm_compute; reflexivity).
    assert (H4 : step quiet (Logging "u2" "r1" headset (Some (mkUserReward "u2" "r1"))) wU' =
                 (Settled (Return (Some (mkUserReward "u2" "r1"))),
                  (step quiet (Logging "u2" "r1" headset (Some (mkUserReward "u2" "r1")))
                        wU').2))
      by (vm_compute; reflexivity).
    destruct (proj2 (claim_success_effects quiet "u2" "r1") _ _ _ _ _ _ _ _ _ _ _ _
                H1 H2 H3 H4 eq_refl eq_refl eq_refl)
      as (user & reward & cur & _ & Hu & Hr & _ & _ & _ & _ & _ & _ & _ & Hpoints & _).
    rewrite Hpoints. vm_compute in Hu, Hr. by simplify_eq.
Defined.

(** *** Failure *)

(** C2 (counterexample). The store refuses the update of [users], after the
    insert of the Claim record and while the update of the stock goes
    through: [claimReward] throws, and the number of Claim records and the
    stock of the reward are no longer what they were. *)
Lemma failed_claim_leaves_claim_record :
  (claimReward failing_update "u1" "r1" w0).1 = Throw statement_timeout ∧
  length (user_rewards (db (claimReward failing_update "u1" "r1" w0).2)) ≠
    length (user_rewards (db w0)) ∧
  r_stock <$> rewards (db (claimReward failing_update "u1" "r1" w0).2) !! "r1" ≠
    r_stock <$> rewards (db w0) !! "r1".
Proof. repeat split; vm_compute; congruence. Qed.

(** C2 (amended). A [claimReward] call that throws leaves the store as it
    was (points, stock, Claim records and Activity Entries), unless it
    throws at the updates of the points and the stock, which follow the
    insert of the Claim record: then the Claim record stays, there being no
    rollback, no Activity Entry is added, and an update that the store
    refused has changed nothing. *)
Theorem failed_claim_effects E userId rewardId w e w' :
  claimReward E userId rewardId w = (Throw e, w') ->
  db w' = db w ∨
  ((update_user_fault E = ErrorResult e ∨ update_user_fault E = Rejects e ∨
    update_reward_fault E = Rejects e) ∧
   user_rewards (db w') = (user_rewards (db w) ++ [mkUserReward userId rewardId])%list ∧
   user_activity (db w') = user_activity (db w) ∧
   (update_user_fault E ≠ NoFault -> users (db w') = users (db w)) ∧
   (update_reward_fault E ≠ NoFault -> rewards (db w') = rewards (db w))).
Proof.
  intros Hrun. apply claimReward_Throw in Hrun as [->|Hrun]; [by left|right].
  destruct Hrun as (user & reward & _ & _ & _ & _ & Hf & _ & _ & Hus & Hrs & Hur & Hua).
  repeat split; try done.
  - intros Hne. rewrite Hus. by destruct (update_user_fault E).
  - intros Hne. rewrite Hrs. by destruct (update_reward_fault E).
Qed.

(** An instance: the claim of the headset by alice, the store refusing the
    update of [users]. *)
Lemma failed_claim_effects_witness :
  claimReward failing_update "u1" "r1" w0 =
    (Throw statement_timeout, (claimReward failing_update "u1" "r1" w0).2) ∧
  (db (claimReward failing_update "u1" "r1" w0).2 = db w0 ∨
   ((update_user_fault failing_update = ErrorResult statement_timeout ∨
     update_user_fault failing_update = Rejects statement_timeout ∨
     update_reward_fault failing_update = Rejects statement_timeout) ∧
    user_rewards (db (claimReward failing_update "u1" "r1" w0).2) =
      (user_rewards (db w0) ++ [mkUserReward "u1" "r1"])%list ∧
    user_activity (db (claimReward failing_update "u1" "r1" w0).2) = user_activity (db w0) ∧
    (update_user_fault failing_update ≠ NoFault ->
     users (db (claimReward failing_update "u1" "r1" w0).2) = users (db w0)) ∧
    (update_reward_fault failing_update ≠ NoFault ->
     rewards (db (claimReward failing_update "u1" "r1" w0).2) = rewards (db w0)))).
Proof.
  split; [vm_compute; reflexivity|].
  apply (failed_claim_effects failing_update "u1" "r1" w0 statement_timeout).
  vm_compute. reflexivity.
Defined.

(** *** The conditions of success *)

(** What success requires: the client, the two rows, the balance and the
    stock. The flag [is_active] of the reward is not among them. *)
Lemma claim_success_requires E userId rewardId w data w' :
  claimReward E userId rewardId w = (Return data, w') ->
  supabase w = true ∧
  ∃ user reward,
    users (db w) !! userId = Some user ∧ rewards (db w) !! rewardId = Some reward ∧
    r_points_required reward <= u_points user ∧ 0 < r_stock reward.
Proof.
  intros Hrun.
  apply claimReward_Return in Hrun as (user & reward & Hs & Hu & Hr & Hp & Hst & _).
  split; [done|]. by exists user, reward.
Qed.

(** C3 (the code at the failing input). The reward ["r2"] exists and is
    not active; the claim of it by a user with enough points returns the
    Claim record and takes one from the stock. *)
Lemma inactive_reward_is_claimed :
  r_is_active <$> rewards (db w0) !! "r2" = Some false ∧
  (claimReward quiet "u2" "r2" w0).1 = Return (Some (mkUserReward "u2" "r2")) ∧
  r_stock <$> rewards (db w0) !! "r2" = Some 5 ∧
  r_stock <$> rewards (db (claimReward quiet "u2" "r2" w0).2) !! "r2" = Some 4.
Proof. repeat split; vm_compute; reflexivity. Qed.

(** *** Concurrent calls *)

(** C4 (counterexample). Two calls, by two users with enough points, for
    the one reward left in stock, the second reading before the first has
    written: both return a Claim record. *)
Lemma two_concurrent_claims_both_succeed :
  r_stock <$> rewards (db w0) !! "r1" = Some 1 ∧
  run2 quiet quiet both_read_first (Reading "u1" "r1") (Reading "u2" "r1") w0 =
    (Settled (Return (Some (mkUserReward "u1" "r1"))),
     Settled (Return (Some (mkUserReward "u2" "r1"))),
     (run2 quiet quiet both_read_first (Reading "u1" "r1") (Reading "u2" "r1") w0).2) ∧
  user_rewards
    (db (run2 quiet quiet both_read_first (Reading "u1" "r1") (Reading "u2" "r1") w0).2) =
    [mkUserReward "u1" "r1"; mkUserReward "u2" "r1"].
Proof. repeat split; vm_compute; reflexivity. Qed.

(** The updates write what the call computed from the rows it read at its
    start, whatever the rows hold by then. *)
Lemma claim_update_unconditional E u r user reward w cur_user cur_reward :
  supabase w = true -> update_user_fault E = NoFault -> update_reward_fault E = NoFault ->
  users (db w) !! u = Some cur_user -> rewards (db w) !! r = Some cur_reward ->
  (claim_update E u r user reward w).1 = Return tt ∧
  u_points <$> users (db (claim_update E u r user reward w).2) !! u =
    Some (u_points user - r_points_required reward) ∧
  r_stock <$> rewards (db (claim_update E u r user reward w).2) !! r =
    Some (r_stock reward - 1).
Proof.
  intros Hs Hfu Hfr Hu Hr. rewrite claim_update_eq by done. simpl.
  rewrite Hfu, Hfr, Hu. simpl. rewrite Hr. simpl.
  rewrite !lookup_insert_eq. done.
Qed.

(** C4 (amended). The commit phase of [claimReward] writes the points and
    the stock it computed from the rows read at the start, whatever the
    rows hold by then: no compare-and-set, no retry. So, of two calls by two
    users with enough points for a reward with stock 1, in a store that
    executes every statement: when both read before either writes, both
    succeed, with two Claim records and a final stock of 0; when the second
    starts after the first is done, the first succeeds and the second fails
    with [Error('Reward out of stock')], with one Claim record and a final
    stock of 0. *)
Theorem concurrent_claims_without_compare_and_set E1 E2 u1 u2 r user1 user2 reward w :
  supabase w = true -> faultless E1 -> faultless E2 -> u1 ≠ u2 ->
  users (db w) !! u1 = Some user1 -> users (db w) !! u2 = Some user2 ->
  rewards (db w) !! r = Some reward -> r_stock reward = 1 ->
  r_points_required reward <= u_points user1 ->
  r_points_required reward <= u_points user2 ->
  (∀ w1 cur_user cur_reward,
     supabase w1 = true ->
     users (db w1) !! u1 = Some cur_user -> rewards (db w1) !! r = Some cur_reward ->
     u_points <$> users (db (claim_update E1 u1 r user1 reward w1).2) !! u1 =
       Some (u_points user1 - r_points_required reward) ∧
     r_stock <$> rewards (db (claim_update E1 u1 r user1 reward w1).2) !! r =
       Some (r_stock reward - 1)) ∧
  (∃ w',
     run2 E1 E2 both_read_first (Reading u1 r) (Reading u2 r) w =
       (Settled (Return (Some (mkUserReward u1 r))),
        Settled (Return (Some (mkUserReward u2 r))), w') ∧
     r_stock <$> rewards (db w') !! r = Some 0 ∧
     user_rewards (db w') =
       (user_rewards (db w) ++ [mkUserReward u1 r; mkUserReward u2 r])%list) ∧
  (∃ w',
     run2 E1 E2 one_after_the_other (Reading u1 r) (Reading u2 r) w =
       (Settled (Return (Some (mkUserReward u1 r))),
        Settled (Throw (Error "Reward out of stock")), w') ∧
     r_stock <$> rewards (db w') !! r = Some 0 ∧
     user_rewards (db w') = (user_rewards (db w) ++ [mkUserReward u1 r])%list).
Proof.
  intros Hs (F1a & F1b & F1c & F1d & F1e & F1f) (F2a & F2b & F2c & F2d & F2e & F2f)
         Hne Hu1 Hu2 Hr Hst Hp1 Hp2.
  assert (Hck1 := claim_checks_pass user1 reward Hp1 ltac:(lia)).
  assert (Hck2 := claim_checks_pass user2 reward Hp2 ltac:(lia)).
  split.
  { intros w1 cu cr Hs1 Hcu Hcr.
    by destruct (claim_update_unconditional E1 u1 r user1 reward w1 cu cr) as (_ & ? & ?). }
  destruct w as [s d c]; simpl in *; subst s.
  split.
  - unfold both_read_first; simpl.
    rewrite claim_read_eq by done. simpl. rewrite Hu1, Hr, Hck1. simpl.
    rewrite claim_read_eq by done. simpl. rewrite Hu2, Hr, Hck2. simpl.
    rewrite claim_insert_eq, F1c. simpl.
    rewrite claim_update_eq by done. simpl. rewrite F1d, F1e, Hu1. simpl. rewrite Hr. simpl.
    rewrite claim_log_eq by done. simpl. rewrite F1f. simpl.
    rewrite claim_insert_eq, F2c. simpl.
    rewrite claim_update_eq by done. simpl. rewrite F2d, F2e.
    rewrite lookup_insert_ne by done. rewrite Hu2. simpl.
    rewrite lookup_insert_eq. simpl.
    rewrite claim_log_eq by done. simpl. rewrite F2f. simpl.
    eexists. split; [reflexivity|]. simpl. rewrite lookup_insert_eq. simpl.
    split; [f_equal; lia|]. by rewrite <- app_assoc.
  - unfold one_after_the_other; simpl.
    rewrite claim_read_eq by done. simpl. rewrite Hu1, Hr, Hck1. simpl.
    rewrite claim_insert_eq, F1c. simpl.
    rewrite claim_update_eq by done. simpl. rewrite F1d, F1e, Hu1. simpl. rewrite Hr. simpl.
    rewrite claim_log_eq by done. simpl. rewrite F1f. simpl.
    rewrite claim_read_eq by done. simpl.
    rewrite lookup_insert_ne by done. rewrite Hu2. rewrite lookup_insert_eq.
    unfold claim_checks, single. simpl.
    destruct (Z.ltb_spec (u_points user2) (r_points_required reward)); [lia|].
    destruct (Z.leb_spec (r_stock reward - 1) 0); [|lia]. simpl.
    eexists. split; [reflexivity|]. simpl. rewrite lookup_insert_eq. simpl.
    split; [f_equal; lia|done].
Qed.

(** An instance: alice and bob claim the one headset in stock. *)
Lemma concurrent_claims_without_compare_and_set_witness :
  (supabase w0 = true ∧ faultless quiet ∧ "u1" ≠ "u2" ∧
   users (db w0) !! "u1" = Some alice ∧ users (db w0) !! "u2" = Some bob ∧
   rewards (db w0) !! "r1" = Some headset ∧ r_stock headset = 1 ∧
   r_points_required headset <= u_points alice ∧
   r_points_required headset <= u_points bob) ∧
  (∃ w',
     run2 quiet quiet both_read_first (Reading "u1" "r1") (Reading "u2" "r1") w0 =
       (Settled (Return (Some (mkUserReward "u1" "r1"))),
        Settled (Return (Some (mkUserReward "u2" "r1"))), w') ∧
     r_stock <$> rewards (db w') !! "r1" = Some 0 ∧
     user_rewards (db w') =
       (user_rewards (db w0) ++ [mkUserReward "u1" "r1"; mkUserReward "u2" "r1"])%list) ∧
  (∃ w',
     run2 quiet quiet one_after_the_other (Reading "u1" "r1") (Reading "u2" "r1") w0 =
       (Settled (Return (Some (mkUserReward "u1" "r1"))),
        Settled (Throw (Error "Reward out of stock")), w') ∧
     r_stock <$> rewards (db w') !! "r1" = Some 0 ∧
     user_rewards (db w') = (user_rewards (db w0) ++ [mkUserReward "u1" "r1"])%list).
Proof.
  assert (Hquiet : faultless quiet) by (repeat split; reflexivity).
  assert (Hne : "u1" ≠ "u2") by (intros [=]).
  split.
  - repeat split; try reflexivity; try exact Hne; vm_compute; intros [=].
  - apply (concurrent_claims_without_compare_and_set
             quiet quiet "u1" "u2" "r1" alice bob headset w0);
      try reflexivity; try exact Hquiet; try exact Hne; vm_compute; intros [=].
Defined.

(** On the sample data, every schedule of eight stretches: of the 120
    that let both calls settle, 60 see both calls succeed and 60 see one
    succeed; all leave a stock of 0. *)
Example outcomes_of_all_schedules :
  let outcomes := omap outcome (schedules 8) in
  length outcomes = 120%nat ∧
  length (filter (fun o => o = (true, true, Some 0)) outcomes) = 60%nat ∧
  length (filter (fun o => o = (true, false, Some 0)) outcomes) = 30%nat ∧
  length (filter (fun o => o = (false, true, Some 0)) outcomes) = 30%nat.
Proof. vm_compute. repeat split. Qed.

(** *** The ledger invariant *)

Lemma claimReward_preserves_invariant E u r w :
  ledger_invariant (db w) -> ledger_invariant (db (claimReward E u r w).2).
Proof.
  intros [Hus Hrs].
  destruct (claimReward E u r w) as [[data|e] w'] eqn:Hrun; simpl.
  - apply claimReward_Return in Hrun
      as (user & reward & _ & Hu & Hr & Hp & Hst & _ & Hus' & Hrs' & _).
    split.
    + rewrite Hus'. apply map_Forall_insert_2; [simpl; lia | done].
    + rewrite Hrs'. destruct (update_reward_fault E); try done.
      apply map_Forall_insert_2; [simpl; lia | done].
  - apply claimReward_Throw in Hrun as [->|Hrun]; [done|].
    destruct Hrun as (user & reward & Hu & Hr & Hp & Hst & _ & _ & _ & Hus' & Hrs' & _).
    split.
    + rewrite Hus'. destruct (update_user_fault E); try done.
      apply map_Forall_insert_2; [simpl; lia | done].
    + rewrite Hrs'. destruct (update_reward_fault E); try done.
      apply map_Forall_insert_2; [simpl; lia | done].
Qed.

(** C5. From a store where every user's points and every reward's stock
    are not negative, the same holds after each operation of any sequence
    of claim operations, whether it succeeds or fails, and whatever the
    store does to its statements. *)
Theorem ledger_invariant_after_every_claim ops w :
  ledger_invariant (db w) ->
  Forall (fun w' => ledger_invariant (db w')) (run_claims ops w).
Proof.
  revert w. induction ops as [|op ops IH]; intros w Hw; simpl; constructor.
  - by apply claimReward_preserves_invariant.
  - apply IH. by apply claimReward_preserves_invariant.
Qed.

(** An instance: three claims on the sample store, two of them with a
    store that refuses a statement. *)
Lemma ledger_invariant_after_every_claim_witness :
  ledger_invariant (db w0) ∧
  Forall (fun w' => ledger_invariant (db w')) (run_claims three_claims w0).
Proof.
  assert (H0 : ledger_invariant (db w0)) by (apply (bool_decide_unpack _); vm_compute; exact I).
  split; [exact H0|].
  apply (ledger_invariant_after_every_claim three_claims w0 H0).
Defined.

(** The invariant under interleaving: a stretch of a call in progress keeps
    it, because what the call writes was computed from rows that passed the
    checks. *)
Lemma step_preserves_invariant E t w :
  thread_ok t -> ledger_invariant (db w) ->
  thread_ok (step E t w).1 ∧ ledger_invariant (db (step E t w).2).
Proof.
  intros Ht Hw. destruct t as [u r|u r user reward|u r user reward data|u r reward data|c]; simpl.
  - destruct (claim_read E u r w) as [[[user reward]|e] w1] eqn:Hread; simpl.
    + by apply claim_read_Return in Hread as (-> & _ & _ & _ & _ & _ & ? & ?).
    + pose proof (claim_read_world E u r w) as Hw1. rewrite Hread in Hw1. simpl in Hw1.
      by subst w1.
  - rewrite claim_insert_eq. destruct (insert_claim_fault E); simpl; done.
  - destruct Ht as [Hp Hst]. destruct Hw as [Hus Hrs].
    assert (Hinv : ledger_invariant (db (claim_update E u r user reward w).2)).
    { destruct (supabase w) eqn:Hs.
      - rewrite claim_update_eq by done. simpl.
        assert (Hus1 : map_Forall (fun _ x => 0 <= u_points x)
                  (users (db (match update_user_fault E, users (db w) !! u with
                              | NoFault, Some cur =>
                                  set_db (fun d => mkDb (<[u := spend user reward (now E) cur]> (users d))
                                            (rewards d) (user_rewards d) (user_activity d)) w
                              | _, _ => w
                              end)))).
        { destruct (update_user_fault E); try done. destruct (users (db w) !! u); try done.
          simpl. apply map_Forall_insert_2; [simpl; lia|done]. }
        assert (Hrs1 : map_Forall (fun _ x => 0 <= r_stock x)
                  (rewards (db (match update_user_fault E, users (db w) !! u with
                              | NoFault, Some cur =>
                                  set_db (fun d => mkDb (<[u := spend user reward (now E) cur]> (users d))
                                            (rewards d) (user_rewards d) (user_activity d)) w
                              | _, _ => w
                              end)))).
        { destruct (update_user_fault E); try done. destruct (users (db w) !! u); done. }
        destruct (update_reward_fault E); try done.
        destruct (rewards _ !! r); try done.
        split; simpl; [done|]. apply map_Forall_insert_2; [simpl; lia|done].
      - js_unfold. destruct w as [s d c]; simpl in *; subst s. simpl.
        destruct (update_reward_fault E); simpl; try done.
        destruct (rewards d !! r); simpl; try done.
        split; simpl; [done|]. apply map_Forall_insert_2; [simpl; lia|done]. }
    destruct (claim_update E u r user reward w) as [[[]|e] w1]; simpl in *; done.
  - unfold claim_log, mbind, Js_bind, mret, Js_ret. rewrite claim_logActivity_eq. simpl.
    split; [done|]. destruct (supabase w); [|done].
    destruct (insert_activity_fault E); done.
  - done.
Qed.

Lemma run2_preserves_invariant E1 E2 schedule : forall t1 t2 w,
  thread_ok t1 -> thread_ok t2 -> ledger_invariant (db w) ->
  ledger_invariant (db (run2 E1 E2 schedule t1 t2 w).2).
Proof.
  induction schedule as [|[] schedule IH]; intros t1 t2 w Ht1 Ht2 Hw; simpl; [done|..].
  - destruct (step_preserves_invariant E1 t1 w Ht1 Hw) as [Ht1' Hw'].
    destruct (step E1 t1 w) as [t1' w']. by apply IH.
  - destruct (step_preserves_invariant E2 t2 w Ht2 Hw) as [Ht2' Hw'].
    destruct (step E2 t2 w) as [t2' w']. by apply IH.
Qed.

(** *** The order of the checks and their failures *)

(** The checks after reads that the store executes, in the order user,
    reward, balance, stock; a check that fails leaves the world as it was.
    An absent user makes [getUserById] throw the error of the store for a
    missing row ([PGRST116]); an absent reward yields [Error('User or
    reward not found')]; a balance that is short yields
    [Error('Insufficient points')]; a stock that is not positive yields
    [Error('Reward out of stock')]. *)
Lemma claim_precondition_failures E userId rewardId w :
  supabase w = true -> get_user_fault E = NoFault -> get_reward_fault E = NoFault ->
  (users (db w) !! userId = None ->
   claimReward E userId rewardId w = (Throw PGRST116, w)) ∧
  (∀ user, users (db w) !! userId = Some user -> rewards (db w) !! rewardId = None ->
   claimReward E userId rewardId w = (Throw (Error "User or reward not found"), w)) ∧
  (∀ user reward,
     users (db w) !! userId = Some user -> rewards (db w) !! rewardId = Some reward ->
     u_points user < r_points_required reward ->
     claimReward E userId rewardId w = (Throw (Error "Insufficient points"), w)) ∧
  (∀ user reward,
     users (db w) !! userId = Some user -> rewards (db w) !! rewardId = Some reward ->
     r_points_required reward <= u_points user -> r_stock reward <= 0 ->
     claimReward E userId rewardId w = (Throw (Error "Reward out of stock"), w)) ∧
  NoDup [PGRST116; Error "User or reward not found"; Error "Insufficient points";
         Error "Reward out of stock"].
Proof.
  intros Hs Hfu Hfr. repeat split.
  - intros Hu. rewrite claimReward_unfold, claim_read_eq by done. by rewrite Hu.
  - intros user Hu Hr. rewrite claimReward_unfold, claim_read_eq by done.
    by rewrite Hu, Hr.
  - intros user reward Hu Hr Hp. rewrite claimReward_unfold, claim_read_eq by done.
    rewrite Hu, Hr. unfold claim_checks, single. simpl.
    by destruct (Z.ltb_spec (u_points user) (r_points_required reward)); [|lia].
  - intros user reward Hu Hr Hp Hst. rewrite claimReward_unfold, claim_read_eq by done.
    rewrite Hu, Hr. unfold claim_checks, single. simpl.
    destruct (Z.ltb_spec (u_points user) (r_points_required reward)); [lia|].
    by destruct (Z.leb_spec (r_stock reward) 0); [|lia].
  - apply (bool_decide_unpack _). vm_compute. exact I.
Qed.

(** With a client, [getUserById] never returns [null]: it returns a row or
    throws, so the [!user] of the check after the reads is never true. *)
Lemma getUserById_never_null E id w c w' :
  supabase w = true -> getUserById E id w = (c, w') -> c ≠ Return None.
Proof.
  js_unfold. unfold single. destruct w as [s d co]; simpl; intros ->.
  destruct (get_user_fault E); simpl; [|by intros [= <- <-]..].
  destruct (users d !! id); simpl; by intros [= <- <-].
Qed.

(** C6. The code at an absent user. With a client and a read of [users]
    that the store executes, a claim by a user the store does not have
    throws the error of the store for [.single()] on no row ([PGRST116]),
    passed on by [getUserById], whatever the reward and whatever becomes of
    the read of the reward; it is not the error of the check for a missing
    row, ['User or reward not found'], which the call never reaches. So on
    the sample store for the user ["u9"], while the absence of the reward
    ["r9"] is reported by that check. *)
Theorem absent_user_gets_the_store_error :
  (∀ E userId rewardId w,
     supabase w = true -> get_user_fault E = NoFault -> users (db w) !! userId = None ->
     claimReward E userId rewardId w = (Throw PGRST116, w)) ∧
  PGRST116 ≠ Error "User or reward not found" ∧
  users (db w0) !! "u9" = None ∧
  claimReward quiet "u9" "r1" w0 = (Throw PGRST116, w0) ∧
  claimReward quiet "u9" "r9" w0 = (Throw PGRST116, w0) ∧
  claimReward quiet "u1" "r9" w0 = (Throw (Error "User or reward not found"), w0).
Proof.
  split; [|repeat split; vm_compute; congruence].
  intros E userId rewardId w Hs Hf Hu. rewrite claimReward_unfold.
  assert (Hread : claim_read E userId rewardId w = (Throw PGRST116, w)).
  { js_unfold. unfold single. destruct w as [s d c]; simpl in *; subst s.
    rewrite Hf. simpl. rewrite Hu. simpl.
    destruct (get_reward_fault E); simpl; [|done..].
    by destruct (rewards d !! rewardId). }
  by rewrite Hread.
Qed.

(** *** The activity log *)

(** The fate of the append to [user_activity] decides neither what
    [claimReward] returns or throws, nor what it leaves in the other
    tables. *)
Lemma claim_activity_fault_irrelevant E f u r w :
  (claimReward (set_activity_fault f E) u r w).1 = (claimReward E u r w).1 ∧
  users (db (claimReward (set_activity_fault f E) u r w).2) =
    users (db (claimReward E u r w).2) ∧
  rewards (db (claimReward (set_activity_fault f E) u r w).2) =
    rewards (db (claimReward E u r w).2) ∧
  user_rewards (db (claimReward (set_activity_fault f E) u r w).2) =
    user_rewards (db (claimReward E u r w).2).
Proof.
  rewrite !claimReward_unfold.
  change (claim_read (set_activity_fault f E)) with (claim_read E).
  change (claim_insert (set_activity_fault f E)) with (claim_insert E).
  change (claim_update (set_activity_fault f E)) with (claim_update E).
  destruct (claim_read E u r w) as [[[user reward]|e] w1]; [|done].
  destruct (claim_insert E u r w1) as [[data|e] w2]; [|done].
  destruct (claim_update E u r user reward w2) as [[[]|e] w3]; [|done].
  unfold claim_log, mbind, Js_bind, mret, Js_ret. rewrite !claim_logActivity_eq. simpl.
  destruct (supabase w3); [|done].
  destruct f, (insert_activity_fault E); done.
Qed.

End ClaimFacts.

(** ** Registration, login and the profile *)

Module AuthFacts.
Import Auth.

#[local] Arguments logActivity : simpl never.
#[local] Arguments createUser : simpl never.
#[local] Arguments getUserByEmail : simpl never.
#[local] Arguments sign_token : simpl never.
#[local] Arguments without_password : simpl never.

(** [logActivity] returns [null], whatever becomes of the append. *)
Lemma auth_logActivity_eq E userId activityType description pointsChange tournamentId rewardId w :
  logActivity E userId activityType description pointsChange tournamentId rewardId w =
  (Return None,
   log_world E (mkActivity userId tournamentId rewardId activityType description pointsChange) w).
Proof.
  unfold logActivity, log_world, insert_activity, storage_call, try_catch, console_error,
    modify, gets, mbind, Js_bind, mret, Js_ret.
  destruct w as [[] us ua mu co]; simpl; [|done].
  destruct (insert_activity_fault E); done.
Qed.

(** Looking a user up changes nothing. *)
Lemma getUserByEmail_world E email w : (getUserByEmail E email w).2 = w.
Proof.
  unfold getUserByEmail, select_by_email, storage_call, gets, throw, mbind, Js_bind, mret, Js_ret.
  destruct w as [[] us ua mu co]; simpl; [|done].
  destruct (get_by_email_fault E); simpl; repeat case_match; simplify_eq; done.
Qed.

(** What [createUser] returns and leaves, for data without an [id]. *)
Lemma createUser_Return E userData w created w' :
  createUser E userData w = (Return created, w') ->
  userData !! "id" = None ->
  ∃ user,
    created = Some user ∧
    user !! "points" = userData !! "points" ∧
    supabase w' = supabase w ∧ user_activity w' = user_activity w ∧ console w' = console w ∧
    if supabase w
    then users w !! new_id E = None ∧ users w' = <[new_id E := user]> (users w) ∧
         mockUsers w' = mockUsers w
    else users w' = users w ∧ mockUsers w' = (mockUsers w ++ [user])%list.
Proof.
  unfold createUser, insert_user, storage_call, gets, modify, throw, mbind, Js_bind, mret, Js_ret.
  destruct w as [[] us ua mu co]; simpl.
  - intros Hrun Hid. destruct (insert_user_fault E); simpl in Hrun; [|done..].
    rewrite lookup_union_r in Hrun by done.
    rewrite lookup_insert_eq in Hrun.
    destruct (us !! new_id E) eqn:Hfresh; simpl in Hrun; [done|].
    injection Hrun as <- <-. eexists. split; [reflexivity|]. simpl.
    split; [|done].
    destruct (userData !! "points") eqn:Hp.
    + by apply lookup_union_Some_l.
    + rewrite lookup_union_r by done. done.
  - intros [= <- <-] Hid. eexists. split; [reflexivity|]. simpl.
    split; [|done].
    rewrite lookup_insert_ne by done. rewrite lookup_insert_ne by done.
    destruct (userData !! "points") eqn:Hp.
    + by apply lookup_union_Some_l.
    + rewrite lookup_union_r by done. done.
Qed.

Lemma createUser_succeeds E userData w :
  userData !! "id" = None ->
  supabase w = false ∨ (insert_user_fault E = NoFault ∧ users w !! new_id E = None) ->
  ∃ user w', createUser E userData w = (Return (Some user), w').
Proof.
  intros Hid Hok.
  unfold createUser, insert_user, storage_call, gets, modify, throw, mbind, Js_bind, mret, Js_ret.
  destruct w as [[] us ua mu co]; simpl in *.
  - destruct Hok as [|[-> Hfresh]]; [done|]. simpl.
    rewrite lookup_union_r by done. rewrite lookup_insert_eq, Hfresh. simpl. eauto.
  - eauto.
Qed.

Section Facts.
Context `{Libraries}.

Ltac handler_unfold :=
  unfold register, login, getProfile, updateProfile, compare_password, not_null, try_catch,
    console_error, modify, throw, mbind, Js_bind, mret, Js_ret in *.

(** *** Registration *)

(** Valid inputs register, when the store executes the lookup and the
    insert. *)
Lemma register_valid_succeeds E body w :
  truthy (rb_username body) = true -> truthy (rb_email body) = true ->
  truthy (rb_password body) = true ->
  (6 <= String.length (default "" (rb_password body)))%nat ->
  (getUserByEmail E (default "" (rb_email body)) w).1 = Return None ->
  supabase w = false ∨ (insert_user_fault E = NoFault ∧ users w !! new_id E = None) ->
  ∃ res w', register E body w = (Return res, w') ∧ status res = 201.
Proof.
  intros Hu He Hp Hlen Hfree Hok.
  unfold register, try_catch, mbind, Js_bind, mret, Js_ret, console_error, modify.
  rewrite Hu, He, Hp. simpl.
  destruct (Z.ltb_spec (Z.of_nat (String.length (default "" (rb_password body)))) 6); [lia|].
  pose proof (getUserByEmail_world E (default "" (rb_email body)) w) as Hw.
  destruct (getUserByEmail E (default "" (rb_email body)) w) as [c w1].
  simpl in *. subst. simpl.
  destruct (createUser_succeeds E (userData_of E body) w) as (user & w1 & Hcreate); [done..|].
  fold (userData_of E body). rewrite Hcreate. simpl.
  rewrite auth_logActivity_eq. simpl. eauto.
Qed.

(** C7 (amended). For every registration that succeeds (status 201), the
    created User has the welcome bonus of 100 points, in the store (or, in
    mock mode, in [mockUsers]) and in the response, and [register] asks
    [logActivity] for a [registration] entry with that balance, 100, as
    points delta: the entry is recorded when there is a client and the
    store executes the append; when the store refuses the append, or in
    mock mode, none is recorded and the registration succeeds all the
    same. *)
Theorem registration_grants_welcome_bonus E body w res w' :
  register E body w = (Return res, w') -> status res = 201 ->
  ∃ user,
    json res = SessionBody "User registered successfully" (sign_token E user)
                           (without_password user) ∧
    user !! "points" = Some (VNum 100) ∧
    (if supabase w
     then users w !! new_id E = None ∧ users w' = <[new_id E := user]> (users w)
     else mockUsers w' = (mockUsers w ++ [user])%list) ∧
    user_activity w' =
      if supabase w then
        match insert_activity_fault E with
        | NoFault =>
            (user_activity w ++
             [mkActivity (user !! "id") None None "registration" "User registered" 100])%list
        | _ => user_activity w
        end
      else user_activity w.
Proof.
  unfold register. unfold try_catch, mbind, Js_bind, mret, Js_ret, console_error, modify.
  destruct (_ || _); [simpl; intros [= <- <-]; done|].
  destruct (_ <? 6); [simpl; intros [= <- <-]; done|].
  pose proof (getUserByEmail_world E (default "" (rb_email body)) w) as Hw.
  destruct (getUserByEmail E (default "" (rb_email body)) w) as [[existing|e] w1];
    simpl in Hw; subst w1; [|simpl; intros [= <- <-]; done].
  destruct (bool_decide (is_Some existing)); [simpl; intros [= <- <-]; done|].
  fold (userData_of E body).
  destruct (createUser E (userData_of E body) w) as [[created|e] w1] eqn:Hcreate;
    [|simpl; intros [= <- <-]; done].
  apply createUser_Return in Hcreate as (user & -> & Hp & Hs & Hua & Hco & Hst); [|done].
  unfold not_null, throw. simpl. rewrite auth_logActivity_eq. simpl.
  intros [= <- <-] _. exists user. split; [done|]. split; [by rewrite Hp|].
  unfold log_world. rewrite Hs.
  destruct (supabase w).
  - destruct Hst as (Hfresh & Hus & Hmu).
    destruct (insert_activity_fault E); simpl; rewrite ?Hua; done.
  - destruct Hst as (Hus & Hmu). done.
Qed.

(** *** Login *)

(** C8. The code at a password that is not a string (a number, [true], an
    array, an object). For an email that no user has, the answer is 401
    ['Invalid email or password'], before the password is looked at; for an
    email that a user has, the password reaches [bcrypt.compare], which
    throws on what is not a string, and the answer is 500 ['Login failed.
    Please try again.']. So on the sample store, with the number 123456 for
    the password: 401 for an unknown email, 500 for the administrator's. The
    two answers tell a caller which email is known. *)
Theorem non_string_password_tells_known_email :
  (∀ E w email password found,
     email ≠ "" -> truthy_field (Some password) = true -> (∀ s, password ≠ FStr s) ->
     (getUserByEmail E (trim (toLowerCase email)) w).1 = Return found ->
     (login E (mkLoginBody (Some (FStr email)) (Some password)) w).1 =
       Return (match found with
               | None => mkRes 401 (ErrorBody "Invalid email or password")
               | Some _ => mkRes 500 (ErrorBody "Login failed. Please try again.")
               end)) ∧
  (login (H := AuthExamples.toy_libraries) AuthExamples.quiet
         AuthExamples.numeric_login_unknown AuthExamples.w0).1 =
    Return (mkRes 401 (ErrorBody "Invalid email or password")) ∧
  (login (H := AuthExamples.toy_libraries) AuthExamples.quiet
         AuthExamples.numeric_login_admin AuthExamples.w0).1 =
    Return (mkRes 500 (ErrorBody "Login failed. Please try again.")) ∧
  (login (H := AuthExamples.toy_libraries) AuthExamples.quiet
         AuthExamples.numeric_login_unknown AuthExamples.w0).1 ≠
  (login (H := AuthExamples.toy_libraries) AuthExamples.quiet
         AuthExamples.numeric_login_admin AuthExamples.w0).1.
Proof.
  split; [|repeat split; vm_compute; congruence].
  intros E w email password found Hne Htp Hns Hfound.
  pose proof (getUserByEmail_world E (trim (toLowerCase email)) w) as Hw.
  unfold login, lowered_and_trimmed.
  unfold try_catch, mbind, Js_bind, mret, Js_ret, compare_password, throw,
    console_error, modify.
  cbn [lb_email lb_password]. rewrite Htp.
  replace (truthy_field (Some (FStr email))) with true by (by destruct email).
  simpl.
  destruct (getUserByEmail E _ w) as [c w1]. simpl in *. subst.
  destruct found as [user|]; [|done].
  destruct password as [s| | | | |]; try done. by destruct (Hns s).
Qed.

(** A login attempt whose password is a string, or missing, gets the same
    response when no user has the email and when a user has it and the
    password does not match the stored hash, whatever the email field
    holds. When the email and the password are strings that are not empty,
    that response is status 401 with the error ['Invalid email or
    password'], and the world is left as it was. *)
Lemma login_failures_indistinguishable E1 w1 E2 w2 body w2' user hash :
  (∀ password, lb_password body = Some password -> ∃ s, password = FStr s) ->
  (∀ email, lb_email body = Some (FStr email) ->
     (getUserByEmail E1 (trim (toLowerCase email)) w1).1 = Return None ∧
     getUserByEmail E2 (trim (toLowerCase email)) w2 = (Return (Some user), w2')) ->
  user !! "password" = Some (VStr hash) ->
  (∀ password, lb_password body = Some (FStr password) ->
     bcrypt_compare password hash = false) ->
  (login E1 body w1).1 = (login E2 body w2).1 ∧
  (∀ email password,
     lb_email body = Some (FStr email) -> email ≠ "" ->
     lb_password body = Some (FStr password) -> password ≠ "" ->
     login E1 body w1 = (Return (mkRes 401 (ErrorBody "Invalid email or password")), w1) ∧
     login E2 body w2 = (Return (mkRes 401 (ErrorBody "Invalid email or password")), w2)).
Proof.
  intros Hstring Hlookup Hhash Hcmp.
  assert (Hboth : ∀ email password,
            lb_email body = Some (FStr email) -> lb_password body = Some (FStr password) ->
            truthy_field (lb_email body) = true -> truthy_field (lb_password body) = true ->
            login E1 body w1 =
              (Return (mkRes 401 (ErrorBody "Invalid email or password")), w1) ∧
            login E2 body w2 =
              (Return (mkRes 401 (ErrorBody "Invalid email or password")), w2)).
  { intros email password He Hp Hte Htp.
    destruct (Hlookup email He) as [Hnone Hsome].
    pose proof (getUserByEmail_world E1 (trim (toLowerCase email)) w1) as Hw1.
    pose proof (getUserByEmail_world E2 (trim (toLowerCase email)) w2) as Hw2.
    unfold login, try_catch, mbind, Js_bind, mret, Js_ret, compare_password,
      lowered_and_trimmed.
    rewrite Hte, Htp, He, Hp. simpl.
    destruct (getUserByEmail E1 _ w1) as [c1 w1'']. simpl in *. subst.
    rewrite Hsome in *. simpl in *. subst.
    rewrite Hhash. simpl. rewrite (Hcmp password Hp). done. }
  split.
  - destruct body as [email password]. simpl in *.
    destruct (truthy_field email) eqn:Hte;
      [|unfold login, try_catch, mbind, Js_bind, mret, Js_ret; simpl; by rewrite Hte].
    destruct (truthy_field password) eqn:Htp;
      [|unfold login, try_catch, mbind, Js_bind, mret, Js_ret; simpl; by rewrite Hte, Htp].
    destruct password as [password|]; [|done].
    destruct (Hstring password eq_refl) as [s ->].
    destruct email as [[email| | | | |]|];
      [destruct (Hboth email s eq_refl eq_refl eq_refl eq_refl) as [-> ->]; done|..];
      unfold login, try_catch, mbind, Js_bind, mret, Js_ret, lowered_and_trimmed,
        throw, console_error, modify; cbn [lb_email lb_password];
      rewrite Hte, Htp; reflexivity.
  - intros email password He Hne Hp Hnp.
    apply (Hboth email password He Hp).
    + rewrite He. simpl. by destruct email.
    + rewrite Hp. simpl. by destruct password.
Qed.

(** *** The password in the responses *)

Lemma without_password_lookup user : without_password user !! "password" = None.
Proof. apply lookup_delete_eq. Qed.

(** C10. [register], [login], [getProfile] and [updateProfile] always
    respond, and the user object of the response, when it has one, has no
    [password] property. *)
Theorem responses_carry_no_password E w rbody lbody userId pbody :
  password_free (register E rbody w) ∧ password_free (login E lbody w) ∧
  password_free (getProfile E userId w) ∧ password_free (updateProfile E userId pbody w).
Proof.
  unfold password_free. repeat split.
  all: handler_unfold.
  all: repeat case_match; simplify_eq; simpl; eexists; (split; [reflexivity|]); simpl.
  all: intros user' ?; simplify_eq; auto using without_password_lookup.
Qed.

(** *** The activity log *)

(** The fate of the append to [user_activity] does not decide what
    [register] and [login] respond. *)
Lemma auth_activity_fault_irrelevant E f body lbody w :
  (register (set_activity_fault f E) body w).1 = (register E body w).1 ∧
  (login (set_activity_fault f E) lbody w).1 = (login E lbody w).1.
Proof.
  split.
  - unfold register, try_catch, mbind, Js_bind, mret, Js_ret, console_error, modify,
      not_null, throw.
    change (getUserByEmail (set_activity_fault f E)) with (getUserByEmail E).
    change (createUser (set_activity_fault f E)) with (createUser E).
    repeat (first [rewrite auth_logActivity_eq in * | case_match]; simpl in *; simplify_eq);
      done.
  - unfold login, try_catch, mbind, Js_bind, mret, Js_ret, console_error, modify,
      compare_password, throw.
    change (getUserByEmail (set_activity_fault f E)) with (getUserByEmail E).
    repeat (first [rewrite auth_logActivity_eq in * | case_match]; simpl in *; simplify_eq);
      done.
Qed.

End Facts.

(** *** On the sample data *)

(** C7 (counterexample). The store refuses the append to [user_activity]:
    the registration of valid inputs succeeds, with status 201 and 100
    points, and no Activity Entry is recorded. *)
Lemma registration_without_activity_entry :
  (register (H := AuthExamples.toy_libraries) AuthExamples.lossy AuthExamples.alice_form
            AuthExamples.w0).1 = Return AuthExamples.alice_registered ∧
  status AuthExamples.alice_registered = 201 ∧
  user_activity (register (H := AuthExamples.toy_libraries) AuthExamples.lossy
                          AuthExamples.alice_form AuthExamples.w0).2 =
    user_activity AuthExamples.w0.
Proof. repeat split; vm_compute; reflexivity. Qed.

(** An instance: the registration of alice, the store executing everything. *)
Lemma registration_grants_welcome_bonus_witness :
  (register (H := AuthExamples.toy_libraries) AuthExamples.quiet AuthExamples.alice_form
            AuthExamples.w0 =
     (Return AuthExamples.alice_registered,
      (register (H := AuthExamples.toy_libraries) AuthExamples.quiet AuthExamples.alice_form
                AuthExamples.w0).2) ∧
   status AuthExamples.alice_registered = 201) ∧
  ∃ user,
    json AuthExamples.alice_registered =
      SessionBody "User registered successfully"
                  (sign_token (H := AuthExamples.toy_libraries) AuthExamples.quiet user)
                  (without_password user) ∧
    user !! "points" = Some (VNum 100) ∧
    (if supabase AuthExamples.w0
     then users AuthExamples.w0 !! new_id AuthExamples.quiet = None ∧
          users (register (H := AuthExamples.toy_libraries) AuthExamples.quiet
                          AuthExamples.alice_form AuthExamples.w0).2 =
            <[new_id AuthExamples.quiet := user]> (users AuthExamples.w0)
     else mockUsers (register (H := AuthExamples.toy_libraries) AuthExamples.quiet
                              AuthExamples.alice_form AuthExamples.w0).2 =
            (mockUsers AuthExamples.w0 ++ [user])%list) ∧
    user_activity (register (H := AuthExamples.toy_libraries) AuthExamples.quiet
                            AuthExamples.alice_form AuthExamples.w0).2 =
      if supabase AuthExamples.w0 then
        match insert_activity_fault AuthExamples.quiet with
        | NoFault =>
            (user_activity AuthExamples.w0 ++
             [mkActivity (user !! "id") None None "registration" "User registered" 100])%list
        | _ => user_activity AuthExamples.w0
        end
      else user_activity AuthExamples.w0.
Proof.
  split; [split; [vm_compute; reflexivity | reflexivity]|].
  apply (registration_grants_welcome_bonus (H := AuthExamples.toy_libraries)
           AuthExamples.quiet AuthExamples.alice_form AuthExamples.w0
           AuthExamples.alice_registered).
  - vm_compute. reflexivity.
  - reflexivity.
Defined.

(** An instance: the same login against a store without users and against
    a store where the email is the administrator's. *)
Example login_failures_indistinguishable_on_sample_data :
  ((∀ password, lb_password AuthExamples.wrong_password_login = Some password ->
                ∃ s, password = FStr s) ∧
   (getUserByEmail AuthExamples.quiet (trim (toLowerCase "admin@gmail.com"))
      AuthExamples.emptied).1 = Return None ∧
   getUserByEmail AuthExamples.quiet (trim (toLowerCase "admin@gmail.com"))
      AuthExamples.w0 = (Return (Some AuthExamples.admin), AuthExamples.w0) ∧
   AuthExamples.admin !! "password" = Some (VStr "$2a$salt$Admin@123") ∧
   bcrypt_compare (Libraries := AuthExamples.toy_libraries) "letmein" "$2a$salt$Admin@123"
      = false) ∧
  (login (H := AuthExamples.toy_libraries) AuthExamples.quiet
         AuthExamples.wrong_password_login AuthExamples.emptied).1 =
  (login (H := AuthExamples.toy_libraries) AuthExamples.quiet
         AuthExamples.wrong_password_login AuthExamples.w0).1.
Proof.
  split.
  { split; [intros password [= <-]; by eexists|]. repeat split; vm_compute; reflexivity. }
  apply (login_failures_indistinguishable (H := AuthExamples.toy_libraries)
           AuthExamples.quiet AuthExamples.emptied AuthExamples.quiet AuthExamples.w0
           AuthExamples.wrong_password_login AuthExamples.w0 AuthExamples.admin
           "$2a$salt$Admin@123").
  - intros password [= <-]. by eexists.
  - intros email [= <-]. split; vm_compute; reflexivity.
  - vm_compute. reflexivity.
  - intros password [= <-]. vm_compute. reflexivity.
Qed.

(** The four handlers on the sample data: each responds with a user
    object, of a stored row that has a password. *)
Example responses_on_sample_data :
  AuthExamples.admin !! "password" = Some (VStr "$2a$salt$Admin@123") ∧
  (register (H := AuthExamples.toy_libraries) AuthExamples.quiet AuthExamples.alice_form
            AuthExamples.w0).1 = Return AuthExamples.alice_registered ∧
  body_user (json AuthExamples.alice_registered) =
    Some (delete "password" AuthExamples.alice_row) ∧
  (login (H := AuthExamples.toy_libraries) AuthExamples.quiet AuthExamples.admin_login
         AuthExamples.w0).1 =
    Return (mkRes 200 (SessionBody "Login successful"
                         "header.payload.riyadah_elite_fallback_secret"
                         (delete "password" AuthExamples.admin))) ∧
  (getProfile AuthExamples.quiet "admin-id" AuthExamples.w0).1 =
    Return (mkRes 200 (UserBody (delete "password" AuthExamples.admin))) ∧
  (updateProfile AuthExamples.quiet "admin-id" (mkProfileBody None None) AuthExamples.mock0).1 =
    Return (mkRes 200 (UserBody (<["updated_at" := VStr (now AuthExamples.quiet)]>
                                   (delete "password" AuthExamples.admin)))).
Proof. repeat split; vm_compute; reflexivity. Qed.

End AuthFacts.

(** ** The activity log never fails its caller *)

(** C9. [logActivity] returns ([null]) whatever becomes of the append to
    [user_activity], in both [db] objects: a refusal by the store and a
    rejected promise are caught and printed. So what [claimReward] returns
    or throws, what it leaves in [users], [rewards] and [user_rewards], and
    what [register] and [login] respond, are the same for every fate of the
    append: an operation that succeeds with the append succeeds without
    it. *)
Theorem activity_log_failure_is_swallowed :
  (∀ E userId activityType description pointsChange tournamentId rewardId w,
     (ClaimEngine.logActivity E userId activityType description pointsChange
                              tournamentId rewardId w).1 = Return None) ∧
  (∀ E userId activityType description pointsChange tournamentId rewardId w,
     (Auth.logActivity E userId activityType description pointsChange
                       tournamentId rewardId w).1 = Return None) ∧
  (∀ E f userId rewardId w,
     (ClaimEngine.claimReward (ClaimEngine.set_activity_fault f E) userId rewardId w).1 =
       (ClaimEngine.claimReward E userId rewardId w).1 ∧
     ClaimEngine.users
       (ClaimEngine.db
          (ClaimEngine.claimReward (ClaimEngine.set_activity_fault f E) userId rewardId w).2) =
       ClaimEngine.users (ClaimEngine.db (ClaimEngine.claimReward E userId rewardId w).2) ∧
     ClaimEngine.rewards
       (ClaimEngine.db
          (ClaimEngine.claimReward (ClaimEngine.set_activity_fault f E) userId rewardId w).2) =
       ClaimEngine.rewards (ClaimEngine.db (ClaimEngine.claimReward E userId rewardId w).2) ∧
     ClaimEngine.user_rewards
       (ClaimEngine.db
          (ClaimEngine.claimReward (ClaimEngine.set_activity_fault f E) userId rewardId w).2) =
       ClaimEngine.user_rewards
         (ClaimEngine.db (ClaimEngine.claimReward E userId rewardId w).2)) ∧
  (∀ (L : Auth.Libraries) E f body w,
     (Auth.register (Auth.set_activity_fault f E) body w).1 = (Auth.register E body w).1) ∧
  (∀ (L : Auth.Libraries) E f body w,
     (Auth.login (Auth.set_activity_fault f E) body w).1 = (Auth.login E body w).1).
Proof.
  split; [intros; by rewrite ClaimFacts.claim_logActivity_eq|].
  split; [intros; by rewrite AuthFacts.auth_logActivity_eq|].
  split; [intros; apply ClaimFacts.claim_activity_fault_irrelevant|].
  split; intros L E f body w.
  - apply (AuthFacts.auth_activity_fault_irrelevant E f body (Auth.mkLoginBody None None) w).
  - apply (AuthFacts.auth_activity_fault_irrelevant E f (Auth.mkRegisterBody None None None)
             body w).
Qed.

(** ** More on the claim operation *)

Module ClaimMore.
Import ClaimEngine ClaimExamples ClaimPool MoreClaimExamples.

#[local] Arguments claim_checks : simpl never.
#[local] Arguments single : simpl never.

(** X1. A claim touches the row of its user and the row of its reward
    only, whatever its outcome and whatever the store does: every other
    user and every other reward is as before; of the user's row only the
    points (and the time of update) can differ, of the reward's row only
    the stock. *)
Theorem claim_touches_only_its_rows E userId rewardId w :
  (∀ v, v ≠ userId ->
     users (db (claimReward E userId rewardId w).2) !! v = users (db w) !! v) ∧
  (∀ s, s ≠ rewardId ->
     rewards (db (claimReward E userId rewardId w).2) !! s = rewards (db w) !! s) ∧
  (∀ user, users (db w) !! userId = Some user ->
     ∃ user', users (db (claimReward E userId rewardId w).2) !! userId = Some user' ∧
              u_id user' = u_id user ∧ u_username user' = u_username user ∧
              u_email user' = u_email user ∧ u_role user' = u_role user ∧
              u_created_at user' = u_created_at user) ∧
  (∀ reward, rewards (db w) !! rewardId = Some reward ->
     ∃ reward', rewards (db (claimReward E userId rewardId w).2) !! rewardId = Some reward' ∧
                r_id reward' = r_id reward ∧ r_title reward' = r_title reward ∧
                r_points_required reward' = r_points_required reward ∧
                r_is_active reward' = r_is_active reward).
Proof.
  destruct (claimReward E userId rewardId w) as [[data|e] w'] eqn:Hrun; simpl.
  - apply ClaimFacts.claimReward_Return in Hrun
      as (user & reward & _ & Hu & Hr & _ & _ & _ & Hus & Hrs & _).
    rewrite Hus, Hrs. repeat split.
    + intros v Hv. by rewrite lookup_insert_ne.
    + intros s Hs. destruct (update_reward_fault E); try done. by rewrite lookup_insert_ne.
    + intros user0 Hu0. rewrite lookup_insert_eq. eexists. split; [done|].
      by simplify_eq.
    + intros reward0 Hr0. simplify_eq.
      destruct (update_reward_fault E); rewrite ?lookup_insert_eq; eauto 10.
  - apply ClaimFacts.claimReward_Throw in Hrun as [->|Hrun].
    { repeat split; eauto 10. }
    destruct Hrun as (user & reward & Hu & Hr & _ & _ & _ & _ & _ & Hus & Hrs & _).
    rewrite Hus, Hrs. repeat split.
    + intros v Hv. destruct (update_user_fault E); try done. by rewrite lookup_insert_ne.
    + intros s Hs. destruct (update_reward_fault E); try done. by rewrite lookup_insert_ne.
    + intros user0 Hu0. simplify_eq.
      destruct (update_user_fault E); rewrite ?lookup_insert_eq; eauto 10.
    + intros reward0 Hr0. simplify_eq.
      destruct (update_reward_fault E); rewrite ?lookup_insert_eq; eauto 10.
Qed.

(** A claim in a store that executes every statement. *)
Lemma claimReward_faultless E u r w user reward :
  supabase w = true -> faultless E ->
  users (db w) !! u = Some user -> rewards (db w) !! r = Some reward ->
  r_points_required reward <= u_points user -> 0 < r_stock reward ->
  claimReward E u r w =
  (Return (Some (mkUserReward u r)),
   mkWorld true
     (mkDb (<[u := spend user reward (now E) user]> (users (db w)))
           (<[r := take_one reward reward]> (rewards (db w)))
           (user_rewards (db w) ++ [mkUserReward u r])
           (user_activity (db w) ++ [claim_entry u r reward]))
     (console w)).
Proof.
  intros Hs (Fa & Fb & Fc & Fd & Fe & Ff) Hu Hr Hp Hst.
  destruct w as [s d c]; simpl in *; subst s.
  rewrite ClaimFacts.claimReward_unfold.
  rewrite ClaimFacts.claim_read_eq by done. simpl. rewrite Hu, Hr.
  rewrite ClaimFacts.claim_checks_pass by done.
  rewrite ClaimFacts.claim_insert_eq, Fc. simpl.
  rewrite ClaimFacts.claim_update_eq by done. simpl. rewrite Fd, Fe, Hu. simpl. rewrite Hr.
  rewrite ClaimFacts.claim_log_eq by done. simpl. rewrite Ff. done.
Qed.

(** X2. Nothing limits a user to one claim of a reward: with points for
    two and a stock of two or more, in a store that executes every
    statement, two claims in a row both succeed; they leave two Claim
    records for the same user and reward, two Activity Entries, the points
    lower by twice the cost and the stock lower by two. *)
Theorem same_reward_claimed_twice E1 E2 userId rewardId w user reward :
  supabase w = true -> faultless E1 -> faultless E2 ->
  users (db w) !! userId = Some user -> rewards (db w) !! rewardId = Some reward ->
  0 <= r_points_required reward ->
  2 * r_points_required reward <= u_points user -> 2 <= r_stock reward ->
  (claimReward E1 userId rewardId w).1 = Return (Some (mkUserReward userId rewardId)) ∧
  (claimReward E2 userId rewardId (claimReward E1 userId rewardId w).2).1 =
    Return (Some (mkUserReward userId rewardId)) ∧
  u_points <$> users (db (claimReward E2 userId rewardId
                            (claimReward E1 userId rewardId w).2).2) !! userId =
    Some (u_points user - 2 * r_points_required reward) ∧
  r_stock <$> rewards (db (claimReward E2 userId rewardId
                             (claimReward E1 userId rewardId w).2).2) !! rewardId =
    Some (r_stock reward - 2) ∧
  user_rewards (db (claimReward E2 userId rewardId (claimReward E1 userId rewardId w).2).2) =
    (user_rewards (db w) ++ [mkUserReward userId rewardId; mkUserReward userId rewardId])%list ∧
  length (user_activity (db (claimReward E2 userId rewardId
                               (claimReward E1 userId rewardId w).2).2)) =
    S (S (length (user_activity (db w)))).
Proof.
  intros Hs HE1 HE2 Hu Hr Hc Hp Hst.
  rewrite (claimReward_faultless E1 userId rewardId w user reward) by (done || lia).
  simpl.
  rewrite (claimReward_faultless E2 userId rewardId _ (spend user reward (now E1) user)
             (take_one reward reward));
    [|done|done|apply lookup_insert_eq|apply lookup_insert_eq|simpl; lia..].
  cbn [fst snd db users rewards user_rewards user_activity].
  rewrite !lookup_insert_eq. rewrite <- !app_assoc, !length_app. simpl.
  repeat split; try done; try (f_equal; lia); try lia.
Qed.

Lemma same_reward_claimed_twice_witness :
  (supabase w0 = true ∧ faultless quiet ∧
   users (db w0) !! "u2" = Some bob ∧ rewards (db w0) !! "r2" = Some mousepad ∧
   0 <= r_points_required mousepad ∧
   2 * r_points_required mousepad <= u_points bob ∧ 2 <= r_stock mousepad) ∧
  user_rewards (db (claimReward quiet "u2" "r2" (claimReward quiet "u2" "r2" w0).2).2) =
    (user_rewards (db w0) ++ [mkUserReward "u2" "r2"; mkUserReward "u2" "r2"])%list.
Proof.
  assert (Hquiet : faultless quiet) by (repeat split; reflexivity).
  split; [repeat split; try reflexivity; vm_compute; intros [=]|].
  apply (same_reward_claimed_twice quiet quiet "u2" "r2" w0 bob mousepad);
    try reflexivity; try exact Hquiet; vm_compute; intros [=].
Defined.

(** The client and the console after a claim that returns. *)
Lemma claimReward_Return_client E u r w data w' :
  claimReward E u r w = (Return data, w') -> supabase w' = true.
Proof.
  rewrite ClaimFacts.claimReward_unfold.
  destruct (claim_read E u r w) as [[[user reward]|e] w1] eqn:Hread; [|done].
  apply ClaimFacts.claim_read_Return in Hread as (-> & Hs & _ & _ & Hu & Hr & Hp & Hst).
  rewrite ClaimFacts.claim_insert_eq.
  destruct (insert_claim_fault E); [|done..].
  rewrite ClaimFacts.claim_update_eq by done. simpl. rewrite Hu.
  destruct (update_user_fault E); [|done..].
  simpl. rewrite Hr.
  destruct (update_reward_fault E) eqn:Hf; [| |done].
  all: rewrite ClaimFacts.claim_log_eq by done.
  all: intros [= <- <-].
  all: destruct (insert_activity_fault E); simpl; done.
Qed.

(** X3. A claim that leaves the user with less than the cost blocks the
    next one: after a successful claim by a user who had less than twice
    the cost, the next claim of the same reward by that user, its reads
    going through, throws [Error('Insufficient points')] and changes
    nothing. *)
Theorem spent_balance_blocks_next_claim E1 E2 userId rewardId w data w1 user reward :
  claimReward E1 userId rewardId w = (Return data, w1) ->
  users (db w) !! userId = Some user -> rewards (db w) !! rewardId = Some reward ->
  u_points user < 2 * r_points_required reward ->
  get_user_fault E2 = NoFault -> get_reward_fault E2 = NoFault ->
  claimReward E2 userId rewardId w1 = (Throw (Error "Insufficient points"), w1).
Proof.
  intros Hrun Hu Hr Hlt Hfu Hfr.
  pose proof (claimReward_Return_client _ _ _ _ _ _ Hrun) as Hs1.
  apply ClaimFacts.claimReward_Return in Hrun
    as (user' & reward' & Hs & Hu' & Hr' & _ & _ & _ & Hus & Hrs & _).
  rewrite Hu in Hu'. rewrite Hr in Hr'. injection Hu' as <-. injection Hr' as <-.
  rewrite ClaimFacts.claimReward_unfold, ClaimFacts.claim_read_eq by done.
  rewrite Hus, lookup_insert_eq, Hrs.
  assert (Hr1 : ∃ reward1,
            match update_reward_fault E1 with
            | NoFault => <[rewardId := take_one reward reward]> (rewards (db w))
            | _ => rewards (db w)
            end !! rewardId = Some reward1 ∧
            r_points_required reward1 = r_points_required reward).
  { destruct (update_reward_fault E1); rewrite ?lookup_insert_eq; eauto. }
  destruct Hr1 as (reward1 & -> & Hc).
  unfold claim_checks, single. simpl. rewrite Hc.
  by destruct (Z.ltb_spec (u_points user - r_points_required reward)
                          (r_points_required reward)); [|lia].
Qed.

(** An instance: alice has 500 points, the headset costs 500. *)
Lemma spent_balance_blocks_next_claim_witness :
  (claimReward quiet "u1" "r1" w0 =
     (Return (Some (mkUserReward "u1" "r1")), (claimReward quiet "u1" "r1" w0).2) ∧
   users (db w0) !! "u1" = Some alice ∧ rewards (db w0) !! "r1" = Some headset ∧
   u_points alice < 2 * r_points_required headset ∧
   get_user_fault quiet = NoFault ∧ get_reward_fault quiet = NoFault) ∧
  claimReward quiet "u1" "r1" (claimReward quiet "u1" "r1" w0).2 =
    (Throw (Error "Insufficient points"), (claimReward quiet "u1" "r1" w0).2).
Proof.
  split; [repeat split; vm_compute; reflexivity|].
  apply (spent_balance_blocks_next_claim quiet quiet "u1" "r1" w0
           (Some (mkUserReward "u1" "r1")) _ alice headset); vm_compute; reflexivity.
Defined.

(** *** Interleavings *)

Lemma run_pool_preserves_invariant schedule : forall pool w,
  Forall (fun c => thread_ok c.2) pool -> ledger_invariant (db w) ->
  ledger_invariant (db (run_pool schedule pool w).2).
Proof.
  induction schedule as [|i schedule IH]; intros pool w Hpool Hw; simpl; [done|].
  destruct (pool !! i) as [[E t]|] eqn:Hi; [|by apply IH].
  assert (Ht : thread_ok t).
  { apply (Forall_lookup_1 _ _ _ _ Hpool) in Hi. done. }
  destruct (ClaimFacts.step_preserves_invariant E t w Ht Hw) as [Ht' Hw'].
  destruct (step E t w) as [t' w']. apply IH; [|done].
  apply Forall_insert; done.
Qed.

(** X4. Under every interleaving of any number of concurrent
    [claimReward] calls, whatever the store does to their statements, no
    user's points and no reward's stock become negative. *)
Theorem ledger_invariant_under_any_interleaving schedule calls w :
  ledger_invariant (db w) ->
  ledger_invariant (db (run_pool schedule (fresh_calls calls) w).2).
Proof.
  intros Hw. apply run_pool_preserves_invariant; [|done].
  unfold fresh_calls. apply Forall_fmap, Forall_forall.
  intros [[E u] r] _. done.
Qed.

(** An instance: three calls for the one headset, interleaved. *)
Lemma ledger_invariant_under_any_interleaving_witness :
  ledger_invariant (db w0) ∧
  ledger_invariant
    (db (run_pool [0; 1; 2; 2; 1; 0; 0; 1; 2; 2; 1; 0]%nat
           (fresh_calls [(quiet, "u1", "r1"); (failing_update, "u2", "r1");
                         (lossy_log, "u2", "r2")]) w0).2).
Proof.
  assert (H0 : ledger_invariant (db w0)) by (apply (bool_decide_unpack _); vm_compute; exact I).
  split; [exact H0|].
  apply (ledger_invariant_under_any_interleaving _ _ w0 H0).
Defined.

(** X5. Two concurrent claims by one user pay once: when a user with
    enough points for each of two rewards in stock, not for both, claims
    them in two calls that both read before either writes, in a store that
    executes every statement, both calls succeed, and the points left are
    the points read less the cost of the reward whose update came last. *)
Theorem concurrent_claims_by_one_user_pay_once
    E1 E2 userId r1 r2 user reward1 reward2 w :
  supabase w = true -> faultless E1 -> faultless E2 -> r1 ≠ r2 ->
  users (db w) !! userId = Some user ->
  rewards (db w) !! r1 = Some reward1 -> rewards (db w) !! r2 = Some reward2 ->
  0 < r_stock reward1 -> 0 < r_stock reward2 ->
  r_points_required reward1 <= u_points user ->
  r_points_required reward2 <= u_points user ->
  ∃ w',
    run2 E1 E2 both_read_first (Reading userId r1) (Reading userId r2) w =
      (Settled (Return (Some (mkUserReward userId r1))),
       Settled (Return (Some (mkUserReward userId r2))), w') ∧
    u_points <$> users (db w') !! userId = Some (u_points user - r_points_required reward2) ∧
    user_rewards (db w') =
      (user_rewards (db w) ++ [mkUserReward userId r1; mkUserReward userId r2])%list.
Proof.
  intros Hs (F1a & F1b & F1c & F1d & F1e & F1f) (F2a & F2b & F2c & F2d & F2e & F2f)
         Hne Hu Hr1 Hr2 Hst1 Hst2 Hp1 Hp2.
  assert (Hck1 := ClaimFacts.claim_checks_pass user reward1 Hp1 Hst1).
  assert (Hck2 := ClaimFacts.claim_checks_pass user reward2 Hp2 Hst2).
  destruct w as [s d c]; simpl in *; subst s.
  unfold both_read_first; simpl.
  rewrite ClaimFacts.claim_read_eq by done. simpl. rewrite Hu, Hr1, Hck1. simpl.
  rewrite ClaimFacts.claim_read_eq by done. simpl. rewrite Hu, Hr2, Hck2. simpl.
  rewrite ClaimFacts.claim_insert_eq, F1c. simpl.
  rewrite ClaimFacts.claim_update_eq by done. simpl. rewrite F1d, F1e, Hu. simpl.
  rewrite Hr1. simpl.
  rewrite ClaimFacts.claim_log_eq by done. simpl. rewrite F1f. simpl.
  rewrite ClaimFacts.claim_insert_eq, F2c. simpl.
  rewrite ClaimFacts.claim_update_eq by done. simpl. rewrite F2d, F2e.
  rewrite lookup_insert_eq. simpl.
  rewrite lookup_insert_ne by done. rewrite Hr2. simpl.
  rewrite ClaimFacts.claim_log_eq by done. simpl. rewrite F2f. simpl.
  eexists. split; [reflexivity|]. simpl. rewrite lookup_insert_eq. simpl.
  split; [done|]. by rewrite <- app_assoc.
Qed.

(** An instance: bob, with 700 points, claims the headset (500) and the
    keyboard (600) at once. *)
Lemma concurrent_claims_by_one_user_pay_once_witness :
  (supabase shop = true ∧ faultless quiet ∧ "r1" ≠ "r3" ∧
   users (db shop) !! "u2" = Some bob ∧
   rewards (db shop) !! "r1" = Some headset ∧ rewards (db shop) !! "r3" = Some keyboard ∧
   0 < r_stock headset ∧ 0 < r_stock keyboard ∧
   r_points_required headset <= u_points bob ∧
   r_points_required keyboard <= u_points bob) ∧
  ∃ w',
    run2 quiet quiet both_read_first (Reading "u2" "r1") (Reading "u2" "r3") shop =
      (Settled (Return (Some (mkUserReward "u2" "r1"))),
       Settled (Return (Some (mkUserReward "u2" "r3"))), w') ∧
    u_points <$> users (db w') !! "u2" = Some (u_points bob - r_points_required keyboard) ∧
    user_rewards (db w') =
      (user_rewards (db shop) ++ [mkUserReward "u2" "r1"; mkUserReward "u2" "r3"])%list.
Proof.
  assert (Hquiet : faultless quiet) by (repeat split; reflexivity).
  assert (Hne : "r1" ≠ "r3") by (intros [=]).
  split.
  - repeat split; try reflexivity; try exact Hne; vm_compute; intros [=].
  - apply (concurrent_claims_by_one_user_pay_once
             quiet quiet "u2" "r1" "r3" bob headset keyboard shop);
      try reflexivity; try exact Hquiet; try exact Hne; vm_compute; intros [=].
Defined.

End ClaimMore.

(** ** The listings of rewards and of claims *)

Module QueryFacts.
Import ClaimEngine ClaimExamples RewardQueries.






(** X8. [getUserRewards] lists the Claim records of its user only, and a
    claim by another user, whatever its outcome, does not change which
    records it lists. *)
Theorem getUserRewards_lists_own_claims E f userId other rewardId w :
  other ≠ userId ->
  (∀ l w', getUserRewards f userId w = (Return l, w') ->
           Forall (fun row => ur_user_id row.1 = userId) l) ∧
  (∀ l l1 w' w1',
     getUserRewards f userId w = (Return l, w') ->
     getUserRewards f userId (claimReward E other rewardId w).2 = (Return l1, w1') ->
     l1.*1 = l.*1).
Proof.
  intros Hne.
  assert (Hlist : ∀ w l w', getUserRewards f userId w = (Return l, w') ->
            l = [] ∨
            l = (fun ur => (ur, rewards (db w) !! ur_reward_id ur)) <$>
                reverse (filter (fun ur => ur_user_id ur = userId) (user_rewards (db w)))).
  { intros [s d c] l w'.
    unfold getUserRewards, select_user_rewards, storage_call, gets, throw, mbind, Js_bind,
      mret, Js_ret. simpl.
    destruct s; simpl; [|intros [= <- <-]; by left].
    destruct f; simpl; [|done..]. intros [= <- <-]. by right. }
  assert (Hmock : ∀ w l w', getUserRewards f userId w = (Return l, w') ->
            supabase w = false -> l = []).
  { intros [s d c] l w'.
    unfold getUserRewards, gets, mbind, Js_bind, mret, Js_ret. simpl.
    intros Hrun ->. simpl in Hrun. by injection Hrun as <- <-. }
  assert (Hdb : ∀ w l w', getUserRewards f userId w = (Return l, w') ->
            supabase w = true ->
            l = (fun ur => (ur, rewards (db w) !! ur_reward_id ur)) <$>
                reverse (filter (fun ur => ur_user_id ur = userId) (user_rewards (db w)))).
  { intros [s d c] l w'.
    unfold getUserRewards, select_user_rewards, storage_call, gets, throw, mbind, Js_bind,
      mret, Js_ret. simpl.
    intros Hrun ->. simpl in Hrun. destruct f; simpl in Hrun; [|done..].
    by injection Hrun as <- <-. }
  split.
  - intros l w' Hrun. destruct (Hlist _ _ _ Hrun) as [->| ->]; [done|].
    apply Forall_fmap, Forall_reverse, Forall_forall. intros ur Hin. simpl.
    by apply list_elem_of_filter in Hin as [? _].
  - intros l l1 w' w1' Hrun Hrun1.
    assert (Hsame : supabase (claimReward E other rewardId w).2 = supabase w ∧
              filter (fun ur => ur_user_id ur = userId)
                     (user_rewards (db (claimReward E other rewardId w).2)) =
              filter (fun ur => ur_user_id ur = userId) (user_rewards (db w))).
    { destruct (claimReward E other rewardId w) as [[data|e] w2] eqn:Hclaim; simpl.
      - pose proof (ClaimMore.claimReward_Return_client _ _ _ _ _ _ Hclaim) as Hs2.
        apply ClaimFacts.claimReward_Return in Hclaim
          as (user & reward & Hs & _ & _ & _ & _ & _ & _ & _ & Hur & _).
        split; [congruence|]. rewrite Hur, filter_app.
        rewrite filter_cons_False by done. by rewrite filter_nil, app_nil_r.
      - apply ClaimFacts.claimReward_Throw in Hclaim as [->|Hclaim]; [done|].
        destruct Hclaim as (user & reward & _ & _ & _ & _ & _ & Hs & _ & _ & _ & Hur & _).
        split; [done|]. rewrite Hur, filter_app.
        rewrite filter_cons_False by done. by rewrite filter_nil, app_nil_r. }
    destruct Hsame as [Hs Hfilter].
    destruct (supabase w) eqn:Hsw.
    + rewrite (Hdb _ _ _ Hrun Hsw), (Hdb _ _ _ Hrun1 Hs).
      rewrite <- !list_fmap_compose, Hfilter. reflexivity.
    + by rewrite (Hmock _ _ _ Hrun Hsw), (Hmock _ _ _ Hrun1 Hs).
Qed.

(** An instance: alice has claimed a mousepad, and then bob claims one.
    Her listing holds her Claim record before and after; the row of the
    reward that comes with it shows the stock that bob's claim left. *)
Lemma getUserRewards_lists_own_claims_witness :
  ("u2" ≠ "u1" ∧
   getUserRewards NoFault "u1" MoreClaimExamples.after_mousepad =
     (Return [(mkUserReward "u1" "r2", Some (mkReward "r2" "Mousepad" 100 4 false))],
      MoreClaimExamples.after_mousepad) ∧
   (claimReward quiet "u2" "r2" MoreClaimExamples.after_mousepad).1 =
     Return (Some (mkUserReward "u2" "r2")) ∧
   getUserRewards NoFault "u1"
                  (claimReward quiet "u2" "r2" MoreClaimExamples.after_mousepad).2 =
     (Return [(mkUserReward "u1" "r2", Some (mkReward "r2" "Mousepad" 100 3 false))],
      (claimReward quiet "u2" "r2" MoreClaimExamples.after_mousepad).2)) ∧
  Forall (fun row : UserReward * option Reward => ur_user_id row.1 = "u1")
         [(mkUserReward "u1" "r2", Some (mkReward "r2" "Mousepad" 100 4 false))] ∧
  [(mkUserReward "u1" "r2", Some (mkReward "r2" "Mousepad" 100 3 false))].*1 =
  [(mkUserReward "u1" "r2", Some (mkReward "r2" "Mousepad" 100 4 false))].*1.
Proof.
  assert (Hne : "u2" ≠ "u1") by (intros [=]).
  assert (Hbefore : getUserRewards NoFault "u1" MoreClaimExamples.after_mousepad =
            (Return [(mkUserReward "u1" "r2", Some (mkReward "r2" "Mousepad" 100 4 false))],
             MoreClaimExamples.after_mousepad)) by (vm_compute; reflexivity).
  assert (Hafter : getUserRewards NoFault "u1"
                     (claimReward quiet "u2" "r2" MoreClaimExamples.after_mousepad).2 =
            (Return [(mkUserReward "u1" "r2", Some (mkReward "r2" "Mousepad" 100 3 false))],
             (claimReward quiet "u2" "r2" MoreClaimExamples.after_mousepad).2))
    by (vm_compute; reflexivity).
  split; [repeat split; try done; vm_compute; reflexivity|].
  destruct (getUserRewards_lists_own_claims quiet NoFault "u1" "u2" "r2"
              MoreClaimExamples.after_mousepad Hne) as [Hown Hsame].
  split; [exact (Hown _ _ Hbefore) | exact (Hsame _ _ _ _ Hbefore Hafter)].
Defined.

End QueryFacts.

(** ** Tournaments and the activity feed *)

Module TournamentFacts.
Import ClaimEngine ClaimExamples Tournaments TournamentExamples.

Ltac store_unfold :=
  unfold joinTournament, getUserTournaments, getTournaments, getUserActivity,
    insert_user_tournament, select_user_tournaments, select_tournaments,
    select_user_activity, on_base, storage_call, gets, throw, mbind, Js_bind, mret, Js_ret.

(** X9. A [joinTournament] call that returns has added one participation
    row, which it returns, and asked the activity log for a
    [tournament_join] entry worth 10 points, recorded when the store
    executes the append; it has changed no user's points, and no other
    table: the 10 points are in the log only. *)
Theorem joinTournament_logs_points_without_granting f E userId tournamentId s data s' :
  joinTournament f E userId tournamentId s = (Return data, s') ->
  data = Some (mkUserTournament userId tournamentId) ∧
  user_tournaments s' = (user_tournaments s ++ [mkUserTournament userId tournamentId])%list ∧
  users (db (base s')) = users (db (base s)) ∧
  rewards (db (base s')) = rewards (db (base s)) ∧
  user_rewards (db (base s')) = user_rewards (db (base s)) ∧
  tournaments s' = tournaments s ∧
  user_activity (db (base s')) =
    match insert_activity_fault E with
    | NoFault =>
        (user_activity (db (base s)) ++
         [mkActivity userId (Some tournamentId) None "tournament_join" "Joined tournament" 10])%list
    | _ => user_activity (db (base s))
    end.
Proof.
  store_unfold. destruct s as [[sb d c] ts uts]; simpl.
  destruct sb; simpl; [|done].
  destruct f; simpl; [|done..].
  rewrite ClaimFacts.claim_logActivity_eq. simpl.
  intros [= <- <-]. simpl.
  destruct (insert_activity_fault E); done.
Qed.

Lemma joinTournament_logs_points_without_granting_witness :
  joinTournament NoFault quiet "u1" "t1" s0 =
    (Return (Some (mkUserTournament "u1" "t1")), (joinTournament NoFault quiet "u1" "t1" s0).2) ∧
  users (db (base (joinTournament NoFault quiet "u1" "t1" s0).2)) = users (db (base s0)).
Proof.
  split; [vm_compute; reflexivity|].
  apply (joinTournament_logs_points_without_granting NoFault quiet "u1" "t1" s0
           (Some (mkUserTournament "u1" "t1"))).
  vm_compute. reflexivity.
Defined.

(** X10. [joinTournament] fails without a trace: when it throws (no
    client, or the insert fails), the store is as it was, and nothing was
    logged. *)
Theorem joinTournament_failure_changes_nothing f E userId tournamentId s e s' :
  joinTournament f E userId tournamentId s = (Throw e, s') ->
  s' = s ∧
  (supabase (base s) = false ∧ e = Error "Database not configured" ∨
   f = ErrorResult e ∨ f = Rejects e).
Proof.
  store_unfold. destruct s as [[sb d c] ts uts]; simpl.
  destruct sb; simpl; [|intros [= <- <-]; auto].
  destruct f; simpl.
  - rewrite ClaimFacts.claim_logActivity_eq. done.
  - intros [= <- <-]. auto.
  - intros [= <- <-]. auto.
Qed.

Lemma joinTournament_failure_changes_nothing_witness :
  joinTournament (ErrorResult statement_timeout) quiet "u1" "t1" s0 =
    (Throw statement_timeout, s0) ∧
  s0 = s0 ∧
  (supabase (base s0) = false ∧ statement_timeout = Error "Database not configured" ∨
   ErrorResult statement_timeout = ErrorResult statement_timeout ∨
   ErrorResult statement_timeout = Rejects statement_timeout).
Proof.
  split; [vm_compute; reflexivity|].
  apply (joinTournament_failure_changes_nothing (ErrorResult statement_timeout) quiet
           "u1" "t1" s0 statement_timeout s0).
  vm_compute. reflexivity.
Defined.









(** X14. With a client and a query that goes through, [getTournaments]
    returns, without changing anything, every tournament of the store,
    once for each row, the earlier start first, each with the username of
    the user that created it when the store has that user. *)
Theorem getTournaments_lists_all_by_start s :
  supabase (base s) = true ->
  ∃ l, getTournaments NoFault s = (Return l, s) ∧
       StronglySorted earlier l ∧
       l.*1 ≡ₚ (map_to_list (tournaments s)).*2 ∧
       Forall (fun row => row.2 = t_created_by row.1 ≫= fun id =>
                                    u_username <$> users (db (base s)) !! id) l.
Proof.
  destruct s as [[sb d c] ts uts]; simpl; intros ->. store_unfold. simpl.
  eexists. split; [reflexivity|].
  split; [apply (StronglySorted_merge_sort earlier)|].
  split.
  - rewrite merge_sort_Permutation, <- list_fmap_compose.
    generalize (map_to_list ts).*2. intros l.
    induction l as [|t l IH]; simpl; [done|]. by rewrite IH.
  - rewrite merge_sort_Permutation. apply Forall_fmap, Forall_forall. done.
Qed.

Lemma getTournaments_lists_all_by_start_witness :
  supabase (base s0) = true ∧
  ∃ l, getTournaments NoFault s0 = (Return l, s0) ∧
       StronglySorted earlier l ∧
       l.*1 ≡ₚ (map_to_list (tournaments s0)).*2 ∧
       Forall (fun row => row.2 = t_created_by row.1 ≫= fun id =>
                                    u_username <$> users (db (base s0)) !! id) l.
Proof.
  split; [reflexivity|].
  apply (getTournaments_lists_all_by_start s0). reflexivity.
Defined.

End TournamentFacts.

(** ** More on registration, login and the profile *)

Module AuthMore.
Import Auth.

#[local] Arguments logActivity : simpl never.
#[local] Arguments createUser : simpl never.
#[local] Arguments updateUser : simpl never.
#[local] Arguments getUserByEmail : simpl never.
#[local] Arguments getUserById : simpl never.
#[local] Arguments sign_token : simpl never.
#[local] Arguments without_password : simpl never.

(** [createUser] stores nothing when it throws. *)
Lemma createUser_Throw E userData w e w' :
  createUser E userData w = (Throw e, w') -> w' = w.
Proof.
  unfold createUser, insert_user, storage_call, gets, modify, throw, mbind, Js_bind, mret, Js_ret.
  destruct w as [[] us ua mu co]; simpl; [|done].
  destruct (insert_user_fault E); simpl; repeat case_match; simplify_eq; simpl;
    intros; simplify_eq; done.
Qed.

Lemma getUserById_world E id w : (getUserById E id w).2 = w.
Proof.
  unfold getUserById, select_by_id, storage_call, gets, throw, mbind, Js_bind, mret, Js_ret.
  destruct w as [[] us ua mu co]; simpl; [|done].
  destruct (get_by_id_fault E); simpl; repeat case_match; simplify_eq; done.
Qed.


(** A filter that nothing passes. *)
Lemma filter_none {A} (P : A -> Prop) `{∀ x, Decision (P x)} (l : list A) :
  Forall (fun x => ¬ P x) l -> filter P l = [].
Proof.
  induction 1 as [|x l Hx _ IH]; [done|]. by rewrite filter_cons_False.
Qed.

(** [arr.find] finds a row pushed last when no row before it matches. *)
Lemma find_user_pushed k v arr row :
  Forall (fun r => r !! k ≠ Some v) arr -> row !! k = Some v ->
  find_user k v (arr ++ [row]) = Some row.
Proof.
  unfold find_user, has_field. intros Harr Hrow.
  induction Harr as [|r arr Hr _ IH]; simpl.
  - by rewrite bool_decide_eq_true_2.
  - by rewrite bool_decide_eq_false_2.
Qed.

(** The query by email selects a row just inserted, and no other, when no
    row before it has the email. *)
Lemma rows_by_email_inserted (us : gmap string Obj) key row email :
  us !! key = None ->
  map_Forall (fun _ r => r !! "email" ≠ Some (VStr email)) us ->
  row !! "email" = Some (VStr email) ->
  filter (fun r => has_field "email" (VStr email) r) (map_to_list (<[key := row]> us)).*2
  = [row].
Proof.
  intros Hfresh Hnone Hrow.
  apply Permutation_singleton_r.
  rewrite map_to_list_insert by done. simpl.
  rewrite filter_cons_True by (unfold has_field; by rewrite bool_decide_eq_true_2).
  rewrite filter_none; [reflexivity|].
  apply Forall_fmap, Forall_forall. intros [k r] Hin. simpl.
  apply elem_of_map_to_list in Hin. unfold has_field.
  rewrite bool_decide_eq_false_2; [exact id|]. by apply (Hnone k r).
Qed.

(** What [createUser] returns and leaves, field by field, for data
    without an [id]. *)
Lemma createUser_Return_fields E userData w created w' :
  createUser E userData w = (Return created, w') ->
  userData !! "id" = None ->
  ∃ user,
    created = Some user ∧
    (∀ k, k ≠ "created_at" -> k ≠ "updated_at" -> is_Some (userData !! k) ->
          user !! k = userData !! k) ∧
    supabase w' = supabase w ∧ user_activity w' = user_activity w ∧ console w' = console w ∧
    if supabase w
    then users w !! new_id E = None ∧ users w' = <[new_id E := user]> (users w) ∧
         mockUsers w' = mockUsers w ∧ user !! "id" = Some (VStr (new_id E))
    else users w' = users w ∧ mockUsers w' = (mockUsers w ++ [user])%list.
Proof.
  unfold createUser, insert_user, storage_call, gets, modify, throw, mbind, Js_bind, mret, Js_ret.
  destruct w as [[] us ua mu co]; simpl.
  - intros Hrun Hid. destruct (insert_user_fault E); simpl in Hrun; [|done..].
    rewrite lookup_union_r in Hrun by done.
    rewrite lookup_insert_eq in Hrun.
    destruct (us !! new_id E) eqn:Hfresh; simpl in Hrun; [done|].
    injection Hrun as <- <-. eexists. split; [reflexivity|]. simpl.
    split.
    + intros k _ _ [v Hk]. rewrite Hk. by apply lookup_union_Some_l.
    + repeat split; try done. rewrite lookup_union_r by done. apply lookup_insert_eq.
  - intros [= <- <-] Hid. eexists. split; [reflexivity|]. simpl.
    split; [|done].
    intros k Hc Hu [v Hk]. rewrite Hk.
    rewrite lookup_insert_ne by done. rewrite lookup_insert_ne by done.
    by apply lookup_union_Some_l.
Qed.

Section Facts.
Context `{Libraries}.

(** X15. A registration stores something only when it answers 201: with
    any other answer the users, the mock users and the activity log are as
    before, and with a 400 (a field missing, a password shorter than six, an
    email that is taken) nothing at all has changed. *)
Theorem register_stores_only_on_success E body w res w' :
  register E body w = (Return res, w') -> status res ≠ 201 ->
  users w' = users w ∧ mockUsers w' = mockUsers w ∧ user_activity w' = user_activity w ∧
  (status res = 400 -> w' = w).
Proof.
  unfold register. unfold try_catch, mbind, Js_bind, mret, Js_ret, console_error, modify.
  destruct (_ || _); [simpl; intros [= <- <-]; done|].
  destruct (_ <? 6); [simpl; intros [= <- <-]; done|].
  pose proof (AuthFacts.getUserByEmail_world E (default "" (rb_email body)) w) as Hw.
  destruct (getUserByEmail E (default "" (rb_email body)) w) as [[existing|e] w1];
    simpl in Hw; subst w1; [|simpl; intros [= <- <-]; done].
  destruct (bool_decide (is_Some existing)); [simpl; intros [= <- <-]; done|].
  destruct (createUser E _ w) as [[created|e] w1] eqn:Hcreate.
  - apply AuthFacts.createUser_Return in Hcreate as (user & -> & _); [|done].
    unfold not_null, throw. simpl. rewrite AuthFacts.auth_logActivity_eq. simpl.
    intros [= <- <-]. done.
  - apply createUser_Throw in Hcreate as ->. simpl. intros [= <- <-]. done.
Qed.

(** A registration that answers 201: the row it made. *)
Lemma register_success_row E body w res w' :
  register E body w = (Return res, w') -> status res = 201 ->
  ∃ user,
    json res = SessionBody "User registered successfully" (sign_token E user)
                           (without_password user) ∧
    user !! "email" = Some (VStr (trim (toLowerCase (default "" (rb_email body))))) ∧
    user !! "password" =
      Some (VStr (bcrypt_hash (default "" (rb_password body)) 12 (salt E))) ∧
    user !! "points" = Some (VNum 100) ∧ user !! "role" = Some (VStr "user") ∧
    supabase w' = supabase w ∧
    if supabase w
    then users w !! new_id E = None ∧ users w' = <[new_id E := user]> (users w) ∧
         mockUsers w' = mockUsers w ∧ user !! "id" = Some (VStr (new_id E))
    else users w' = users w ∧ mockUsers w' = (mockUsers w ++ [user])%list.
Proof.
  unfold register. unfold try_catch, mbind, Js_bind, mret, Js_ret, console_error, modify.
  destruct (_ || _); [simpl; intros [= <- <-]; done|].
  destruct (_ <? 6); [simpl; intros [= <- <-]; done|].
  pose proof (AuthFacts.getUserByEmail_world E (default "" (rb_email body)) w) as Hw.
  destruct (getUserByEmail E (default "" (rb_email body)) w) as [[existing|e] w1];
    simpl in Hw; subst w1; [|simpl; intros [= <- <-]; done].
  destruct (bool_decide (is_Some existing)); [simpl; intros [= <- <-]; done|].
  fold (userData_of E body).
  destruct (createUser E (userData_of E body) w) as [[created|e] w1] eqn:Hcreate;
    [|simpl; intros [= <- <-]; done].
  apply createUser_Return_fields in Hcreate as (user & -> & Hk & Hs & Hua & Hco & Hst);
    [|done].
  unfold not_null, throw. simpl. rewrite AuthFacts.auth_logActivity_eq. simpl.
  intros [= <- <-] _. exists user. split; [done|].
  rewrite !Hk by (done || (eexists; reflexivity)).
  repeat split; try done.
  - unfold log_world. rewrite Hs. destruct (supabase w); [|done].
    by destruct (insert_activity_fault E).
  - unfold log_world. rewrite Hs. destruct (supabase w); [|done].
    destruct Hst as (? & ? & ? & ?). by destruct (insert_activity_fault E).
Qed.

(** X16. Registration and login fit together: after a registration that
    answered 201, of an email that no stored user had in its stored form
    (lower case, trimmed), a login with the same email and password, its
    lookup going through, answers 200 with the user object that the
    registration returned, provided [bcrypt.compare] accepts the hash that
    [bcrypt.hash] made of the password. *)
Theorem register_then_login E1 E2 body w res w1 :
  register E1 body w = (Return res, w1) -> status res = 201 ->
  get_by_email_fault E2 = NoFault ->
  map_Forall (fun _ row =>
    row !! "email" ≠ Some (VStr (trim (toLowerCase (default "" (rb_email body)))))) (users w) ->
  Forall (fun row =>
    row !! "email" ≠ Some (VStr (trim (toLowerCase (default "" (rb_email body))))))
    (mockUsers w) ->
  bcrypt_compare (default "" (rb_password body))
                 (bcrypt_hash (default "" (rb_password body)) 12 (salt E1)) = true ->
  ∃ user,
    body_user (json res) = Some (without_password user) ∧
    (login E2 (mkLoginBody (FStr <$> rb_email body) (FStr <$> rb_password body)) w1).1 =
      Return (mkRes 200 (SessionBody "Login successful" (sign_token E2 user)
                                     (without_password user))).
Proof.
  intros Hreg H201 Hf Hdb Hmock Hcmp.
  assert (Hvalid : truthy (rb_email body) = true ∧ truthy (rb_password body) = true).
  { revert Hreg H201. unfold register, try_catch, mbind, Js_bind, mret, Js_ret.
    destruct (truthy (rb_username body)), (truthy (rb_email body)),
      (truthy (rb_password body)); simpl; try (intros [= <- <-]; done). done. }
  destruct Hvalid as [He Hp].
  apply register_success_row in Hreg as (user & Hjson & Hemail & Hpw & _ & _ & Hs & Hst);
    [|done].
  exists user. split; [by rewrite Hjson|].
  assert (Hfound : getUserByEmail E2 (trim (toLowerCase (default "" (rb_email body)))) w1
                   = (Return (Some user), w1)).
  { unfold getUserByEmail, select_by_email, storage_call, gets, throw, mbind, Js_bind,
      mret, Js_ret.
    rewrite Hs. destruct (supabase w); simpl.
    - destruct Hst as (Hfresh & Hus & _ & _). rewrite Hf, Hus.
      by rewrite rows_by_email_inserted.
    - destruct Hst as (_ & Hmu). rewrite Hmu. by rewrite find_user_pushed. }
  destruct (rb_email body) as [email|]; [|done].
  destruct (rb_password body) as [password|]; [|done].
  unfold login, try_catch, mbind, Js_bind, mret, Js_ret, compare_password,
    lowered_and_trimmed. simpl in *.
  rewrite He, Hp. simpl. rewrite Hfound. rewrite Hpw. simpl. rewrite Hcmp. simpl.
  rewrite AuthFacts.auth_logActivity_eq. reflexivity.
Qed.
End Facts.

Lemma register_then_login_witness :
  (register (H := AuthExamples.toy_libraries) AuthExamples.quiet AuthExamples.alice_form
            AuthExamples.w0 =
     (Return AuthExamples.alice_registered,
      (register (H := AuthExamples.toy_libraries) AuthExamples.quiet AuthExamples.alice_form
                AuthExamples.w0).2) ∧
   status AuthExamples.alice_registered = 201 ∧
   get_by_email_fault AuthExamples.quiet = NoFault ∧
   bcrypt_compare (Libraries := AuthExamples.toy_libraries) "secret1"
     (bcrypt_hash (Libraries := AuthExamples.toy_libraries) "secret1" 12
                  (salt AuthExamples.quiet)) = true) ∧
  ∃ user,
    body_user (json AuthExamples.alice_registered) = Some (without_password user) ∧
    (login (H := AuthExamples.toy_libraries) AuthExamples.quiet
           (mkLoginBody (Some (FStr "alice@example.com")) (Some (FStr "secret1")))
           (register (H := AuthExamples.toy_libraries) AuthExamples.quiet
                     AuthExamples.alice_form AuthExamples.w0).2).1 =
      Return (mkRes 200 (SessionBody "Login successful"
                (sign_token (H := AuthExamples.toy_libraries) AuthExamples.quiet user)
                (without_password user))).
Proof.
  split; [repeat split; vm_compute; reflexivity|].
  apply (register_then_login (H := AuthExamples.toy_libraries) AuthExamples.quiet
           AuthExamples.quiet AuthExamples.alice_form AuthExamples.w0
           AuthExamples.alice_registered).
  - vm_compute. reflexivity.
  - reflexivity.
  - reflexivity.
  - apply (bool_decide_unpack _). vm_compute. exact I.
  - apply (bool_decide_unpack _). vm_compute. exact I.
  - vm_compute. reflexivity.
Defined.

(** An instance: the store refuses the insertion of alice. *)
Lemma register_stores_only_on_success_witness :
  (register (H := AuthExamples.toy_libraries) MoreAuthExamples.failing_insert
            AuthExamples.alice_form AuthExamples.w0 =
     (Return (mkRes 500 (ErrorBody "Registration failed. Please try again.")),
      (register (H := AuthExamples.toy_libraries) MoreAuthExamples.failing_insert
                AuthExamples.alice_form AuthExamples.w0).2) ∧
   status (mkRes 500 (ErrorBody "Registration failed. Please try again.")) ≠ 201) ∧
  users (register (H := AuthExamples.toy_libraries) MoreAuthExamples.failing_insert
                  AuthExamples.alice_form AuthExamples.w0).2 = users AuthExamples.w0.
Proof.
  split; [split; [vm_compute; reflexivity | vm_compute; intros [=]]|].
  apply (register_stores_only_on_success (H := AuthExamples.toy_libraries)
           MoreAuthExamples.failing_insert AuthExamples.alice_form AuthExamples.w0
           (mkRes 500 (ErrorBody "Registration failed. Please try again."))).
  - vm_compute. reflexivity.
  - vm_compute. intros [=].
Defined.

(** [arr.find] stops at the first match. *)
Lemma find_user_app_l k v arr more row :
  find_user k v arr = Some row -> find_user k v (arr ++ more) = Some row.
Proof.
  unfold find_user. induction arr as [|r arr IH]; simpl; [done|].
  destruct (has_field k v r); [done|]. apply IH.
Qed.

Section MockFacts.
Context `{Libraries}.

(** X17. Without a client, an email is checked as typed and stored in
    lower case: when a mock user already has the stored form of an email
    and a registration of another spelling of it answers 201, two mock
    users share the email, and a login with the new password is checked
    against the first of them: it answers 401 when [bcrypt.compare] rejects
    the older hash. *)
Theorem mock_registration_shadowed_by_older_user E1 E2 body w res w1 old hash :
  supabase w = false ->
  register E1 body w = (Return res, w1) -> status res = 201 ->
  find_user "email" (VStr (trim (toLowerCase (default "" (rb_email body))))) (mockUsers w)
    = Some old ->
  old !! "password" = Some (VStr hash) ->
  bcrypt_compare (default "" (rb_password body)) hash = false ->
  (∃ user, mockUsers w1 = (mockUsers w ++ [user])%list ∧
           user !! "email" = Some (VStr (trim (toLowerCase (default "" (rb_email body)))))) ∧
  login E2 (mkLoginBody (FStr <$> rb_email body) (FStr <$> rb_password body)) w1 =
    (Return (mkRes 401 (ErrorBody "Invalid email or password")), w1).
Proof.
  intros Hmock Hreg H201 Hold Hhash Hcmp.
  assert (Hvalid : truthy (rb_email body) = true ∧ truthy (rb_password body) = true).
  { revert Hreg H201. unfold register, try_catch, mbind, Js_bind, mret, Js_ret.
    destruct (truthy (rb_username body)), (truthy (rb_email body)),
      (truthy (rb_password body)); simpl; try (intros [= <- <-]; done). done. }
  destruct Hvalid as [He Hp].
  apply register_success_row in Hreg as (user & _ & Hemail & _ & _ & _ & Hs & Hst); [|done].
  rewrite Hmock in Hs, Hst. destruct Hst as [_ Hmu].
  split; [by exists user|].
  destruct (rb_email body) as [email|]; [|done].
  destruct (rb_password body) as [password|]; [|done].
  unfold login, try_catch, mbind, Js_bind, mret, Js_ret, compare_password,
    lowered_and_trimmed. simpl in *.
  rewrite He, Hp. simpl.
  unfold getUserByEmail, gets, mbind, Js_bind, mret, Js_ret. rewrite Hs. simpl.
  rewrite Hmu, (find_user_app_l _ _ _ _ _ Hold). rewrite Hhash. simpl. by rewrite Hcmp.
Qed.
End MockFacts.

Lemma mock_registration_shadowed_by_older_user_witness :
  (supabase AuthExamples.mock0 = false ∧
   status (mkRes 201 (SessionBody "User registered successfully"
             "header.payload.riyadah_elite_fallback_secret"
             (delete "password" MoreAuthExamples.second_admin))) = 201 ∧
   register (H := AuthExamples.toy_libraries) AuthExamples.quiet MoreAuthExamples.admin_again
            AuthExamples.mock0 =
     (Return (mkRes 201 (SessionBody "User registered successfully"
                "header.payload.riyadah_elite_fallback_secret"
                (delete "password" MoreAuthExamples.second_admin))),
      (register (H := AuthExamples.toy_libraries) AuthExamples.quiet MoreAuthExamples.admin_again
                AuthExamples.mock0).2) ∧
   find_user "email" (VStr "admin@gmail.com") (mockUsers AuthExamples.mock0)
     = Some AuthExamples.admin) ∧
  login (H := AuthExamples.toy_libraries) AuthExamples.quiet
        (mkLoginBody (Some (FStr "Admin@Gmail.com")) (Some (FStr "secret1")))
        (register (H := AuthExamples.toy_libraries) AuthExamples.quiet MoreAuthExamples.admin_again
                  AuthExamples.mock0).2 =
    (Return (mkRes 401 (ErrorBody "Invalid email or password")),
     (register (H := AuthExamples.toy_libraries) AuthExamples.quiet MoreAuthExamples.admin_again
               AuthExamples.mock0).2).
Proof.
  split; [repeat split; vm_compute; reflexivity|].
  apply (mock_registration_shadowed_by_older_user (H := AuthExamples.toy_libraries)
           AuthExamples.quiet AuthExamples.quiet MoreAuthExamples.admin_again AuthExamples.mock0
           (mkRes 201 (SessionBody "User registered successfully"
              "header.payload.riyadah_elite_fallback_secret"
              (delete "password" MoreAuthExamples.second_admin)))
           _ AuthExamples.admin "$2a$salt$Admin@123"); vm_compute; reflexivity.
Defined.

(** [arr.findIndex] returns the place of a row that matches. *)
Lemma findIndex_Some k v arr i :
  findIndex k v arr = Some i -> ∃ row, arr !! i = Some row ∧ row !! k = Some v.
Proof.
  revert i. induction arr as [|r arr IH]; intros i; simpl; [done|].
  unfold has_field at 1. case_bool_decide as Hr.
  - intros [= <-]. by exists r.
  - destruct (findIndex k v arr) as [j|]; simpl; [|done].
    intros [= <-]. by apply IH.
Qed.

(** What [updateUser] returns and leaves. *)
Lemma updateUser_Return E id updates w updated w' :
  updateUser E id updates w = (Return updated, w') ->
  ∃ old,
    updated = Some (<["updated_at" := VStr (now E)]> (updates ∪ old)) ∧
    supabase w' = supabase w ∧ user_activity w' = user_activity w ∧ console w' = console w ∧
    if supabase w
    then users w !! id = Some old ∧ mockUsers w' = mockUsers w ∧
         users w' = <[id := <["updated_at" := VStr (now E)]> (updates ∪ old)]> (users w)
    else ∃ i, mockUsers w !! i = Some old ∧ old !! "id" = Some (VStr id) ∧ users w' = users w ∧
              mockUsers w' = <[i := <["updated_at" := VStr (now E)]> (updates ∪ old)]> (mockUsers w).
Proof.
  unfold updateUser, update_user_row, storage_call, gets, modify, throw, mbind, Js_bind,
    mret, Js_ret.
  destruct w as [[] us ua mu co]; simpl.
  - destruct (update_user_fault E); simpl; [|done..].
    destruct (us !! id) as [old|] eqn:Hold; simpl; [|done].
    intros [= <- <-]. exists old. rewrite insert_union_l. done.
  - destruct (findIndex "id" (VStr id) mu) as [i|] eqn:Hi; simpl; [|done].
    intros [= <- <-]. apply findIndex_Some in Hi as (old & Hold & Hid).
    exists old. rewrite Hold. simpl. repeat split; try done. by exists i.
Qed.

Lemma updateUser_Throw E id updates w e w' :
  updateUser E id updates w = (Throw e, w') -> w' = w.
Proof.
  unfold updateUser, update_user_row, storage_call, gets, modify, throw, mbind, Js_bind,
    mret, Js_ret.
  destruct w as [[] us ua mu co]; simpl.
  - destruct (update_user_fault E); simpl; repeat case_match; simplify_eq; simpl;
      intros; simplify_eq; done.
  - repeat case_match; simplify_eq; simpl; intros; simplify_eq; done.
Qed.

Section ProfileFacts.
Context `{Libraries}.

(** X18. A login reads and logs: whatever it answers and whatever the
    store does, it leaves every user as it was; it adds an Activity Entry
    only when it answers 200, and then one [login] entry worth 0 points,
    when there is a client and the store executes the append. *)
Theorem login_changes_no_user E body w res w' :
  login E body w = (Return res, w') ->
  users w' = users w ∧ mockUsers w' = mockUsers w ∧
  (status res ≠ 200 -> user_activity w' = user_activity w) ∧
  (status res = 200 ->
   ∃ user,
     json res = SessionBody "Login successful" (sign_token E user) (without_password user) ∧
     user_activity w' =
       if supabase w then
         match insert_activity_fault E with
         | NoFault =>
             (user_activity w ++
              [mkActivity (user !! "id") None None "login" "User logged in" 0])%list
         | _ => user_activity w
         end
       else user_activity w).
Proof.
  unfold login, lowered_and_trimmed.
  unfold try_catch, mbind, Js_bind, mret, Js_ret, console_error, modify,
    compare_password, throw.
  destruct (_ || _); [simpl; intros [= <- <-]; done|].
  destruct (lb_email body) as [[email| | | | |]|]; try (simpl; intros [= <- <-]; done).
  pose proof (AuthFacts.getUserByEmail_world E (trim (toLowerCase email)) w) as Hw.
  destruct (getUserByEmail E _ w) as [[[user|]|e] w1];
    simpl in Hw; subst w1; [| |]; try (simpl; intros [= <- <-]; done).
  destruct (lb_password body) as [[password| | | | |]|];
    try (simpl; intros [= <- <-]; done).
  destruct (user !! "password") as [[| | |hash]|]; try (simpl; intros [= <- <-]; done).
  simpl. destruct (bcrypt_compare _ hash); simpl; [|intros [= <- <-]; done].
  rewrite AuthFacts.auth_logActivity_eq. simpl. intros [= <- <-]. simpl.
  unfold log_world.
  repeat split; try (destruct (supabase w), (insert_activity_fault E); done).
  intros _. exists user. split; [done|].
  destruct (supabase w), (insert_activity_fault E); done.
Qed.

(** X19. [getProfile] answers 404 without a client only: with a client,
    a user that the store does not have makes the query fail, and the
    answer is 500 ['Failed to get profile']; without one, it is 404 ['User
    not found']. In no case does [getProfile] change a table. *)
Theorem getProfile_missing_user E userId w :
  (supabase w = true -> get_by_id_fault E = NoFault -> users w !! userId = None ->
   (getProfile E userId w).1 = Return (mkRes 500 (ErrorBody "Failed to get profile"))) ∧
  (supabase w = false -> find_user "id" (VStr userId) (mockUsers w) = None ->
   getProfile E userId w = (Return (mkRes 404 (ErrorBody "User not found")), w)) ∧
  (∀ res w', getProfile E userId w = (Return res, w') -> status res = 404 ->
             supabase w = false) ∧
  users (getProfile E userId w).2 = users w ∧
  mockUsers (getProfile E userId w).2 = mockUsers w ∧
  user_activity (getProfile E userId w).2 = user_activity w.
Proof.
  unfold getProfile, try_catch, mbind, Js_bind, mret, Js_ret, console_error, modify.
  pose proof (getUserById_world E userId w) as Hw.
  repeat split.
  - intros Hs Hf Hnone. clear Hw.
    unfold getUserById, select_by_id, storage_call, gets, throw, mbind, Js_bind, mret, Js_ret.
    destruct w as [s us ua mu co]; simpl in *; subst s. rewrite Hf. simpl.
    rewrite Hnone. reflexivity.
  - intros Hs Hnone. clear Hw.
    unfold getUserById, gets, mbind, Js_bind, mret, Js_ret.
    rewrite Hs. simpl. rewrite Hnone. reflexivity.
  - intros res w'. revert Hw.
    unfold getUserById, select_by_id, single, storage_call, gets, throw, mbind, Js_bind,
      mret, Js_ret.
    destruct (supabase w); [|done]. simpl.
    destruct (get_by_id_fault E); simpl; [|intros _ [= <- <-]; done..].
    destruct (users w !! userId); simpl; intros _ [= <- <-]; done.
  - destruct (getUserById E userId w) as [[[user|]|e] w1]; simpl in *; by subst.
  - destruct (getUserById E userId w) as [[[user|]|e] w1]; simpl in *; by subst.
  - destruct (getUserById E userId w) as [[[user|]|e] w1]; simpl in *; by subst.
Qed.

(** X20. A profile update changes the profile only: when [updateProfile]
    answers 200, the row of the user is the old row with, at most, another
    [name], [avatar] and [updated_at]; its points, role, email and password
    are as before, and so is every other user. With any other answer no
    user and no Activity Entry has changed. *)
Theorem updateProfile_changes_profile_fields_only E userId body w res w' :
  updateProfile E userId body w = (Return res, w') ->
  (status res = 200 ->
   ∃ old new,
     json res = UserBody (without_password new) ∧
     (∀ k, k ≠ "name" -> k ≠ "avatar" -> k ≠ "updated_at" -> new !! k = old !! k) ∧
     new !! "updated_at" = Some (VStr (now E)) ∧
     if supabase w
     then users w !! userId = Some old ∧ users w' = <[userId := new]> (users w) ∧
          mockUsers w' = mockUsers w
     else ∃ i, mockUsers w !! i = Some old ∧ old !! "id" = Some (VStr userId) ∧
               mockUsers w' = <[i := new]> (mockUsers w) ∧ users w' = users w) ∧
  (status res ≠ 200 ->
   users w' = users w ∧ mockUsers w' = mockUsers w ∧ user_activity w' = user_activity w).
Proof.
  unfold updateProfile, try_catch, mbind, Js_bind, mret, Js_ret, console_error, modify,
    not_null, throw.
  set (updates := (if truthy (pb_avatar body) then _ else _) : Obj).
  assert (Hupd : ∀ k, k ≠ "name" -> k ≠ "avatar" -> updates !! k = None).
  { intros k Hn Ha. unfold updates.
    destruct (truthy (pb_avatar body)), (truthy (pb_name body));
      rewrite ?lookup_insert_ne by done; apply lookup_empty. }
  destruct (updateUser E userId updates w) as [[updated|e] w1] eqn:Hrun.
  - apply updateUser_Return in Hrun as (old & -> & Hs & Hua & Hco & Hst).
    rewrite AuthFacts.auth_logActivity_eq. simpl. intros [= <- <-]. simpl.
    split; [|done]. intros _. exists old. eexists. split; [reflexivity|].
    split.
    { intros k Hn Ha Hu. rewrite lookup_insert_ne by done.
      rewrite lookup_union_r; [done|]. by apply Hupd. }
    split; [apply lookup_insert_eq|].
    unfold log_world. rewrite Hs. destruct (supabase w).
    + destruct Hst as (? & ? & ?). by destruct (insert_activity_fault E).
    + destruct Hst as (i & ? & ? & ? & ?). by exists i.
  - apply updateUser_Throw in Hrun as ->. simpl. intros [= <- <-]. simpl. done.
Qed.
End ProfileFacts.

(** An instance: the administrator logs in, the store executing
    everything. *)
Lemma login_changes_no_user_witness :
  login (H := AuthExamples.toy_libraries) AuthExamples.quiet AuthExamples.admin_login
        AuthExamples.w0 =
    (Return MoreAuthExamples.admin_session,
     (login (H := AuthExamples.toy_libraries) AuthExamples.quiet AuthExamples.admin_login
            AuthExamples.w0).2) ∧
  users (login (H := AuthExamples.toy_libraries) AuthExamples.quiet AuthExamples.admin_login
               AuthExamples.w0).2 = users AuthExamples.w0.
Proof.
  split; [vm_compute; reflexivity|].
  apply (login_changes_no_user (H := AuthExamples.toy_libraries) AuthExamples.quiet
           AuthExamples.admin_login AuthExamples.w0 MoreAuthExamples.admin_session).
  vm_compute; reflexivity.
Defined.

(** An instance: the administrator takes another name. *)
Lemma updateProfile_changes_profile_fields_only_witness :
  updateProfile AuthExamples.quiet "admin-id" MoreAuthExamples.new_name AuthExamples.w0 =
    (Return MoreAuthExamples.renamed,
     (updateProfile AuthExamples.quiet "admin-id" MoreAuthExamples.new_name
                    AuthExamples.w0).2) ∧
  (status MoreAuthExamples.renamed = 200 ->
   ∃ old new,
     json MoreAuthExamples.renamed = UserBody (without_password new) ∧
     (∀ k, k ≠ "name" -> k ≠ "avatar" -> k ≠ "updated_at" -> new !! k = old !! k) ∧
     new !! "updated_at" = Some (VStr (now AuthExamples.quiet)) ∧
     if supabase AuthExamples.w0
     then users AuthExamples.w0 !! "admin-id" = Some old ∧
          users (updateProfile AuthExamples.quiet "admin-id" MoreAuthExamples.new_name
                               AuthExamples.w0).2 =
            <["admin-id" := new]> (users AuthExamples.w0) ∧
          mockUsers (updateProfile AuthExamples.quiet "admin-id" MoreAuthExamples.new_name
                                   AuthExamples.w0).2 = mockUsers AuthExamples.w0
     else ∃ i, mockUsers AuthExamples.w0 !! i = Some old ∧
               old !! "id" = Some (VStr "admin-id") ∧
               mockUsers (updateProfile AuthExamples.quiet "admin-id"
                                        MoreAuthExamples.new_name AuthExamples.w0).2 =
                 <[i := new]> (mockUsers AuthExamples.w0) ∧
               users (updateProfile AuthExamples.quiet "admin-id" MoreAuthExamples.new_name
                                    AuthExamples.w0).2 = users AuthExamples.w0).
Proof.
  split; [vm_compute; reflexivity|].
  apply (updateProfile_changes_profile_fields_only AuthExamples.quiet "admin-id"
           MoreAuthExamples.new_name AuthExamples.w0 MoreAuthExamples.renamed).
  vm_compute; reflexivity.
Defined.

End AuthMore.

(** ** The middleware *)

Module MiddlewareFacts.
Import Auth Middleware.

Lemma split_spaces_word s : space_free s = true -> split_spaces s = [s].
Proof.
  induction s as [|c s IH]; simpl; [done|].
  destruct (Ascii.eqb c " "); simpl; [done|]. intros Hs. by rewrite IH.
Qed.

Lemma split_spaces_app a b :
  space_free a = true -> split_spaces (a +:+ " " +:+ b) = a :: split_spaces b.
Proof.
  induction a as [|c a IH]; simpl; [done|].
  destruct (Ascii.eqb c " "); simpl; [done|]. intros Hs. by rewrite IH.
Qed.

Lemma truthy_Some s : s ≠ "" -> truthy (Some s) = true.
Proof. by destruct s. Qed.

Lemma truthy_app a b : truthy (Some (a +:+ " " +:+ b)) = true.
Proof. by destruct a. Qed.

Lemma second_word scheme token :
  space_free scheme = true -> space_free token = true ->
  split_spaces (scheme +:+ " " +:+ token) !! 1%nat = Some token.
Proof. intros Hs Ht. by rewrite split_spaces_app, split_spaces_word. Qed.

Section Facts.
Context `{Verifier}.

(** [authMiddleware] on a header of two words. *)
Lemma authMiddleware_two_words e now scheme token :
  space_free scheme = true -> space_free token = true -> token ≠ "" ->
  authMiddleware e now (Some (scheme +:+ " " +:+ token)) =
    match jwt_verify token (middleware_secret e) now with
    | Decoded decoded => Next decoded
    | Throws name =>
        if String.eqb name "JsonWebTokenError" then
          Answer (mkRes 401 (ErrorBody "Invalid token"))
        else if String.eqb name "TokenExpiredError" then
          Answer (mkRes 401 (ErrorBody "Token expired"))
        else Answer (mkRes 500 (ErrorBody "Token verification failed"))
    end.
Proof.
  intros Hs Ht Hne. unfold authMiddleware.
  rewrite truthy_app. simpl. rewrite second_word by done.
  by rewrite truthy_Some.
Qed.

(** X21. [authMiddleware] takes the second word of the header for the
    token and never looks at the first: whatever stands before the space,
    ['Bearer'] or not, a token that [jwt.verify] decodes lets the request
    pass with the decoded payload as [req.user]; one that it refuses with
    [JsonWebTokenError] or [TokenExpiredError] is answered 401, and any
    other error 500. *)
Theorem authMiddleware_takes_second_word e now scheme token :
  space_free scheme = true -> space_free token = true -> token ≠ "" ->
  let header := Some (scheme +:+ " " +:+ token) in
  let verified := jwt_verify token (middleware_secret e) now in
  (∀ decoded, verified = Decoded decoded -> authMiddleware e now header = Next decoded) ∧
  (verified = Throws "JsonWebTokenError" ->
   authMiddleware e now header = Answer (mkRes 401 (ErrorBody "Invalid token"))) ∧
  (verified = Throws "TokenExpiredError" ->
   authMiddleware e now header = Answer (mkRes 401 (ErrorBody "Token expired"))) ∧
  (∀ name, verified = Throws name -> name ≠ "JsonWebTokenError" ->
           name ≠ "TokenExpiredError" ->
           authMiddleware e now header =
             Answer (mkRes 500 (ErrorBody "Token verification failed"))).
Proof.
  intros Hs Ht Hne header verified. unfold header.
  rewrite authMiddleware_two_words by done. fold verified.
  repeat split.
  - by intros decoded ->.
  - by intros ->.
  - by intros ->.
  - intros name -> Hj Ht'.
    apply String.eqb_neq in Hj, Ht'. by rewrite Hj, Ht'.
Qed.

(** X22. A header that holds no space is turned away before the token
    library is asked, whatever the library would say: [authMiddleware]
    answers 401 ['No token provided'] for a missing or empty header and 401
    ['Invalid token format'] for any other single word or for a word
    followed by one space; [auth] and [adminAuth] answer 401
    ['Authentication required'] for all of them, and print nothing. *)
Theorem header_without_token_is_rejected e now word :
  space_free word = true ->
  authMiddleware e now None = Answer (mkRes 401 (ErrorBody "No token provided")) ∧
  authMiddleware e now (Some word) =
    Answer (mkRes 401 (ErrorBody (if String.eqb word "" then "No token provided"
                                  else "Invalid token format"))) ∧
  authMiddleware e now (Some (word +:+ " ")) =
    Answer (mkRes 401 (ErrorBody "Invalid token format")) ∧
  (∀ header, header ∈ [None; Some word; Some (word +:+ " ")] ->
     auth e now header = (Answer (mkRes 401 (ErrorBody "Authentication required")), []) ∧
     adminAuth e now header =
       (Answer (mkRes 401 (ErrorBody "Authentication required")), [])).
Proof.
  intros Hw.
  assert (Hone : split_spaces word !! 1%nat = None) by by rewrite split_spaces_word.
  assert (Htwo : split_spaces (word +:+ " ") !! 1%nat = Some "").
  { by rewrite (split_spaces_app word "" Hw : split_spaces (word +:+ " ") = _). }
  split; [done|]. split; [|split].
  - unfold authMiddleware. change (default "" (Some word)) with word.
    rewrite Hone. by destruct word.
  - unfold authMiddleware. change (default "" (Some (word +:+ " "))) with (word +:+ " ").
    rewrite Htwo. by destruct word.
  - intros header Hin. unfold auth, adminAuth.
    rewrite !elem_of_cons, elem_of_nil in Hin.
    destruct Hin as [->|[->|[->|[]]]]; simpl mbind; [done| |]; by rewrite ?Hone, ?Htwo.
Qed.

(** X23. The two admin gates differ on moderators: behind a token that
    decodes to [decoded], [adminAuth] lets the request pass exactly when the
    role is ['admin'], [adminMiddleware] exactly when it is ['admin'] or
    ['moderator']; so a moderator is answered 403 by the first and passes
    the second. *)
Theorem admin_gates_differ_on_moderators e now scheme token decoded :
  space_free scheme = true -> space_free token = true -> token ≠ "" ->
  jwt_verify token (auth_secret e) now = Decoded decoded ->
  let header := Some (scheme +:+ " " +:+ token) in
  ((adminAuth e now header).1 = Next decoded ↔ jwt_role decoded = Some (VStr "admin")) ∧
  (adminMiddleware decoded = Next decoded ↔
   jwt_role decoded = Some (VStr "admin") ∨ jwt_role decoded = Some (VStr "moderator")) ∧
  (jwt_role decoded = Some (VStr "moderator") ->
   adminAuth e now header = (Answer (mkRes 403 (ErrorBody "Admin access required")), []) ∧
   adminMiddleware decoded = Next decoded) ∧
  (jwt_role decoded ≠ Some (VStr "admin") -> jwt_role decoded ≠ Some (VStr "moderator") ->
   adminAuth e now header = (Answer (mkRes 403 (ErrorBody "Admin access required")), []) ∧
   adminMiddleware decoded = Answer (mkRes 403 (ErrorBody "Admin access required"))).
Proof.
  intros Hs Ht Hne Hv header.
  assert (Hgate : adminAuth e now header =
                  if negb (bool_decide (jwt_role decoded = Some (VStr "admin")))
                  then (Answer (mkRes 403 (ErrorBody "Admin access required")), [])
                  else (Next decoded, [])).
  { unfold adminAuth, header. simpl mbind. rewrite second_word by done.
    rewrite truthy_Some by done. simpl negb. cbv iota.
    change (default "" (Some token)) with token. by rewrite Hv. }
  rewrite Hgate. unfold adminMiddleware.
  split; [|split; [|split]].
  - case_bool_decide; simpl; [done|]. split; [intros [=]|done].
  - repeat case_bool_decide; simpl; split; auto; try intros [=]; intros [|]; done.
  - intros Hr. rewrite Hr. done.
  - intros Ha Hm. by rewrite !bool_decide_false.
Qed.

(** X24. With [JWT_SECRET] set, [auth] and [authMiddleware] verify with
    the same secret and let the same requests pass: for every header, one
    calls [next()] with a payload if and only if the other does, with the
    same payload. *)
Theorem auth_agrees_with_authMiddleware_when_secret_set e now header decoded :
  truthy e = true ->
  (auth e now header).1 = Next decoded ↔ authMiddleware e now header = Next decoded.
Proof.
  intros He. unfold auth, authMiddleware, auth_secret, middleware_secret.
  rewrite He.
  destruct header as [header|]; [|simpl; split; intros [=]].
  simpl mbind. change (default "" (Some header)) with header.
  destruct (split_spaces header !! 1%nat) as [token|] eqn:Htoken.
  - destruct header as [|c header]; [done|].
    change (truthy (Some (String c header))) with true. simpl negb. cbv iota.
    change (default "" (Some token)) with token.
    unfold truthy. destruct (String.eqb token ""); simpl; [split; intros [=]|].
    destruct (jwt_verify token (default "" e) now) as [d|name]; simpl; [done|].
    split; [intros [=]|]. by repeat case_match.
  - destruct (truthy (Some header)); simpl; split; intros [=].
Qed.

(** X25. Without [JWT_SECRET], each middleware falls back on a constant
    of its own: a token that verifies under ['riyadah_elite_fallback_secret'],
    the fallback of the controller that signs, passes [authMiddleware], and
    [auth] checks it against ['fallback_secret_key']; when the library
    refuses it there, [auth] answers 401 ['Invalid token'] and prints the
    error. *)
Theorem unset_secret_splits_the_middlewares e now scheme token decoded name :
  truthy e = false ->
  space_free scheme = true -> space_free token = true -> token ≠ "" ->
  jwt_verify token "riyadah_elite_fallback_secret" now = Decoded decoded ->
  jwt_verify token "fallback_secret_key" now = Throws name ->
  authMiddleware e now (Some (scheme +:+ " " +:+ token)) = Next decoded ∧
  auth e now (Some (scheme +:+ " " +:+ token)) =
    (Answer (mkRes 401 (ErrorBody "Invalid token")), [("Auth middleware error:", name)]).
Proof.
  intros He Hs Ht Hne Hd Hn.
  rewrite authMiddleware_two_words by done.
  unfold auth, auth_secret, middleware_secret. rewrite He.
  simpl mbind. rewrite second_word by done.
  rewrite truthy_Some by done. simpl. by rewrite Hd, Hn.
Qed.

End Facts.

(** An instance: the scheme is not ['Bearer']. *)
Lemma authMiddleware_takes_second_word_witness :
  (space_free "Token" = true ∧
   space_free "header.payload.riyadah_elite_fallback_secret" = true ∧
   "header.payload.riyadah_elite_fallback_secret" ≠ "") ∧
  ∀ decoded,
    jwt_verify (Verifier := MiddlewareExamples.toy_verifier)
               "header.payload.riyadah_elite_fallback_secret" (middleware_secret None) 0
      = Decoded decoded ->
    authMiddleware (H := MiddlewareExamples.toy_verifier) None 0
                   (Some ("Token" +:+ " " +:+ "header.payload.riyadah_elite_fallback_secret"))
      = Next decoded.
Proof.
  split; [repeat split; vm_compute; (reflexivity || intros [=])|].
  apply (authMiddleware_takes_second_word (H := MiddlewareExamples.toy_verifier) None 0
           "Token" "header.payload.riyadah_elite_fallback_secret").
  - vm_compute. reflexivity.
  - vm_compute. reflexivity.
  - vm_compute. intros [=].
Defined.

(** An instance: the scheme alone. *)
Lemma header_without_token_is_rejected_witness :
  space_free "Bearer" = true ∧
  authMiddleware (H := MiddlewareExamples.toy_verifier) None 0 (Some "Bearer") =
    Answer (mkRes 401 (ErrorBody (if String.eqb "Bearer" "" then "No token provided"
                                  else "Invalid token format"))).
Proof.
  split; [vm_compute; reflexivity|].
  apply (header_without_token_is_rejected (H := MiddlewareExamples.toy_verifier) None 0
           "Bearer").
  vm_compute. reflexivity.
Defined.

(** An instance: a moderator, [JWT_SECRET] being ['s3cret']. *)
Lemma admin_gates_differ_on_moderators_witness :
  (space_free "Bearer" = true ∧ space_free "header.payload.s3cret" = true ∧
   "header.payload.s3cret" ≠ "" ∧
   jwt_verify (Verifier := MiddlewareExamples.toy_verifier) "header.payload.s3cret"
              (auth_secret (Some "s3cret")) 0
     = Decoded MiddlewareExamples.moderator_payload) ∧
  (jwt_role MiddlewareExamples.moderator_payload = Some (VStr "moderator") ->
   adminAuth (H := MiddlewareExamples.toy_verifier) (Some "s3cret") 0
             (Some ("Bearer" +:+ " " +:+ "header.payload.s3cret")) =
     (Answer (mkRes 403 (ErrorBody "Admin access required")), []) ∧
   adminMiddleware MiddlewareExamples.moderator_payload =
     Next MiddlewareExamples.moderator_payload).
Proof.
  split; [repeat split; vm_compute; (reflexivity || intros [=])|].
  apply (admin_gates_differ_on_moderators (H := MiddlewareExamples.toy_verifier)
           (Some "s3cret") 0 "Bearer" "header.payload.s3cret"
           MiddlewareExamples.moderator_payload).
  - vm_compute. reflexivity.
  - vm_compute. reflexivity.
  - vm_compute. intros [=].
  - vm_compute. reflexivity.
Defined.

(** An instance: [JWT_SECRET] is ['s3cret']. *)
Lemma auth_agrees_with_authMiddleware_when_secret_set_witness :
  truthy (Some "s3cret") = true ∧
  ((auth (H := MiddlewareExamples.toy_verifier) (Some "s3cret") 0
         (Some "Bearer header.payload.s3cret")).1 = Next MiddlewareExamples.moderator_payload ↔
   authMiddleware (H := MiddlewareExamples.toy_verifier) (Some "s3cret") 0
                  (Some "Bearer header.payload.s3cret") =
     Next MiddlewareExamples.moderator_payload).
Proof.
  split; [vm_compute; reflexivity|].
  apply (auth_agrees_with_authMiddleware_when_secret_set
           (H := MiddlewareExamples.toy_verifier) (Some "s3cret") 0
           (Some "Bearer header.payload.s3cret") MiddlewareExamples.moderator_payload).
  vm_compute. reflexivity.
Defined.

(** An instance: [JWT_SECRET] is not set, and the token is the one the
    controller signs. *)
Lemma unset_secret_splits_the_middlewares_witness :
  (truthy None = false ∧ space_free "Bearer" = true ∧
   space_free "header.payload.riyadah_elite_fallback_secret" = true ∧
   "header.payload.riyadah_elite_fallback_secret" ≠ "" ∧
   jwt_verify (Verifier := MiddlewareExamples.toy_verifier)
              "header.payload.riyadah_elite_fallback_secret"
              "riyadah_elite_fallback_secret" 0 = Decoded MiddlewareExamples.admin_payload ∧
   jwt_verify (Verifier := MiddlewareExamples.toy_verifier)
              "header.payload.riyadah_elite_fallback_secret"
              "fallback_secret_key" 0 = Throws "JsonWebTokenError") ∧
  authMiddleware (H := MiddlewareExamples.toy_verifier) None 0
    (Some ("Bearer" +:+ " " +:+ "header.payload.riyadah_elite_fallback_secret")) =
    Next MiddlewareExamples.admin_payload ∧
  auth (H := MiddlewareExamples.toy_verifier) None 0
    (Some ("Bearer" +:+ " " +:+ "header.payload.riyadah_elite_fallback_secret")) =
    (Answer (mkRes 401 (ErrorBody "Invalid token")),
     [("Auth middleware error:", "JsonWebTokenError")]).
Proof.
  split; [repeat split; vm_compute; (reflexivity || intros [=])|].
  apply (unset_secret_splits_the_middlewares (H := MiddlewareExamples.toy_verifier) None 0
           "Bearer" "header.payload.riyadah_elite_fallback_secret"
           MiddlewareExamples.admin_payload "JsonWebTokenError").
  - vm_compute. reflexivity.
  - vm_compute. reflexivity.
  - vm_compute. reflexivity.
  - vm_compute. intros [=].
  - vm_compute. reflexivity.
  - vm_compute. reflexivity.
Defined.

End MiddlewareFacts.

(** ** From the login to the profile *)

Module SessionFacts.
Import Auth Middleware.

Lemma log_world_users E row w : users (log_world E row w) = users w.
Proof. unfold log_world. destruct (supabase w), (insert_activity_fault E); done. Qed.

Lemma log_world_supabase E row w : supabase (log_world E row w) = supabase w.
Proof. unfold log_world. destruct (supabase w) eqn:Hs, (insert_activity_fault E); done. Qed.

Lemma keyed_by_id_insert w key row users' :
  keyed_by_id w -> row !! "id" = Some (VStr key) -> users' = <[key := row]> (users w) ->
  map_Forall (fun key row => row !! "id" = Some (VStr key)) users'.
Proof. intros Hk Hrow ->. by apply map_Forall_insert_2. Qed.

(** With a client, the user [getUserByEmail] returns is a stored row. *)
Lemma getUserByEmail_stored E email w user :
  supabase w = true -> (getUserByEmail E email w).1 = Return (Some user) ->
  ∃ key, users w !! key = Some user.
Proof.
  unfold getUserByEmail, select_by_email, storage_call, gets, throw, mbind, Js_bind, mret,
    Js_ret.
  intros ->. simpl. destruct (get_by_email_fault E); simpl.
  - destruct (filter _ _) as [|row [|]] eqn:Hrows; simpl; try done.
    intros [= ->].
    assert (Hin : user ∈ filter (λ row, has_field "email" (VStr email) row)
                    (map_to_list (users w)).*2) by (rewrite Hrows; set_solver).
    apply list_elem_of_filter in Hin as [_ Hin].
    apply list_elem_of_fmap in Hin as ([key row] & -> & Hin).
    exists key. by apply elem_of_map_to_list.
  - by case_bool_decide.
  - done.
Qed.

Section Facts.
Context `{Libraries}.

Lemma register_users E body w :
  users (register E body w).2 = users w ∨
  ∃ row, row !! "id" = Some (VStr (new_id E)) ∧
         users (register E body w).2 = <[new_id E := row]> (users w).
Proof.
  unfold register. unfold try_catch, mbind, Js_bind, mret, Js_ret, console_error, modify.
  destruct (_ || _); [by left|].
  destruct (_ <? 6); [by left|].
  pose proof (AuthFacts.getUserByEmail_world E (default "" (rb_email body)) w) as Hw.
  destruct (getUserByEmail E (default "" (rb_email body)) w) as [[existing|e] w1];
    simpl in Hw; subst w1; [|by left].
  destruct (bool_decide (is_Some existing)); [by left|].
  fold (userData_of E body).
  destruct (createUser E (userData_of E body) w) as [[created|e] w1] eqn:Hcreate.
  - apply AuthMore.createUser_Return_fields in Hcreate
      as (user & -> & Hk & Hs & Hua & Hco & Hst); [|done].
    unfold not_null, throw. simpl. rewrite AuthFacts.auth_logActivity_eq. simpl.
    rewrite log_world_users. destruct (supabase w).
    + destruct Hst as (? & ? & ? & ?). right. by exists user.
    + destruct Hst as (? & ?). by left.
  - apply AuthMore.createUser_Throw in Hcreate as ->. by left.
Qed.

Lemma login_session E body w res w' :
  login E body w = (Return res, w') -> status res = 200 ->
  ∃ email user,
    lb_email body = Some (FStr email) ∧
    (getUserByEmail E (trim (toLowerCase email)) w).1 = Return (Some user) ∧
    json res = SessionBody "Login successful" (sign_token E user) (without_password user) ∧
    users w' = users w ∧ supabase w' = supabase w.
Proof.
  unfold login, lowered_and_trimmed.
  unfold try_catch, mbind, Js_bind, mret, Js_ret, console_error, modify,
    compare_password, throw.
  destruct (_ || _); [simpl; intros [= <- <-]; done|].
  destruct (lb_email body) as [[email| | | | |]|]; try (simpl; intros [= <- <-]; done).
  pose proof (AuthFacts.getUserByEmail_world E (trim (toLowerCase email)) w) as Hw.
  destruct (getUserByEmail E _ w) as [[[user|]|e] w1] eqn:Hfound;
    simpl in Hw; subst w1; [| |]; try (simpl; intros [= <- <-]; done).
  destruct (lb_password body) as [[password| | | | |]|];
    try (simpl; intros [= <- <-]; done).
  destruct (user !! "password") as [[| | |hash]|]; try (simpl; intros [= <- <-]; done).
  simpl. destruct (bcrypt_compare _ hash); simpl; [|intros [= <- <-]; done].
  rewrite AuthFacts.auth_logActivity_eq. simpl. intros [= <- <-] _.
  exists email, user. by rewrite Hfound, log_world_users, log_world_supabase.
Qed.

Lemma login_users E body w : users (login E body w).2 = users w.
Proof.
  unfold login, lowered_and_trimmed.
  unfold try_catch, mbind, Js_bind, mret, Js_ret, console_error, modify,
    compare_password, throw.
  destruct (_ || _); [done|].
  destruct (lb_email body) as [[email| | | | |]|]; try done.
  pose proof (AuthFacts.getUserByEmail_world E (trim (toLowerCase email)) w) as Hw.
  destruct (getUserByEmail E _ w) as [[[user|]|e] w1];
    simpl in Hw; subst w1; [| |]; try done.
  destruct (lb_password body) as [[password| | | | |]|]; try done.
  destruct (user !! "password") as [[| | |hash]|]; try done.
  simpl. destruct (bcrypt_compare _ hash); simpl; [|done].
  rewrite AuthFacts.auth_logActivity_eq. simpl. apply log_world_users.
Qed.

Lemma getProfile_users E userId w : users (getProfile E userId w).2 = users w.
Proof.
  unfold getProfile, try_catch, mbind, Js_bind, mret, Js_ret, console_error, modify.
  pose proof (AuthMore.getUserById_world E userId w) as Hw.
  destruct (getUserById E userId w) as [[[user|]|e] w1]; simpl in *; by subst.
Qed.

Lemma updateProfile_users E userId body w :
  users (updateProfile E userId body w).2 = users w ∨
  ∃ old new, users w !! userId = Some old ∧ new !! "id" = old !! "id" ∧
             users (updateProfile E userId body w).2 = <[userId := new]> (users w).
Proof.
  unfold updateProfile, try_catch, mbind, Js_bind, mret, Js_ret, console_error, modify,
    not_null, throw.
  set (updates := (if truthy (pb_avatar body) then _ else _) : Obj).
  assert (Hupd : updates !! "id" = None).
  { unfold updates.
    destruct (truthy (pb_avatar body)), (truthy (pb_name body));
      rewrite ?lookup_insert_ne by done; apply lookup_empty. }
  destruct (updateUser E userId updates w) as [[updated|e] w1] eqn:Hrun.
  - apply AuthMore.updateUser_Return in Hrun as (old & -> & Hs & Hua & Hco & Hst).
    rewrite AuthFacts.auth_logActivity_eq. simpl. rewrite log_world_users.
    destruct (supabase w).
    + destruct Hst as (Hold & _ & ->). right. exists old. eexists.
      split; [done|]. split; [|reflexivity].
      rewrite lookup_insert_ne by done. by rewrite lookup_union_r.
    + destruct Hst as (i & _ & _ & -> & _). by left.
  - apply AuthMore.updateUser_Throw in Hrun as ->. by left.
Qed.

(** X26. The store stays keyed by [id]: if every stored row is the one the
    store returns for its own [id], it is still so after [register],
    [login], [getProfile] and [updateProfile], whatever they are sent and
    whatever the store answers. *)
Theorem handlers_keep_rows_keyed E w :
  keyed_by_id w ->
  (∀ body, keyed_by_id (register E body w).2) ∧
  (∀ body, keyed_by_id (login E body w).2) ∧
  (∀ userId, keyed_by_id (getProfile E userId w).2) ∧
  (∀ userId body, keyed_by_id (updateProfile E userId body w).2).
Proof.
  intros Hk. repeat split.
  - intros body. unfold keyed_by_id.
    destruct (register_users E body w) as [->|(row & Hid & ->)]; [done|].
    by apply map_Forall_insert_2.
  - intros body. unfold keyed_by_id. by rewrite login_users.
  - intros userId. unfold keyed_by_id. by rewrite getProfile_users.
  - intros userId body. unfold keyed_by_id.
    destruct (updateProfile_users E userId body w) as [->|(old & new & Hold & Hid & ->)];
      [done|].
    apply map_Forall_insert_2; [|done]. rewrite Hid. by apply (Hk userId old).
Qed.

Context `{Verifier}.

(** X27. The token of a login opens the profile of the user who logged
    in: with a client whose rows are keyed by [id], when [login] answers
    200 and [jwt.verify] decodes what [jwt.sign] signed under the same
    secret, [authMiddleware], given ['Bearer '] and the token of the
    response, lets the request pass with the user's id in [req.user], and
    [getProfile] for that id, its query going through, answers 200 with the
    user object of the login response. *)
Theorem login_token_opens_the_profile E E' body w res w' now :
  supabase w = true -> keyed_by_id w ->
  login E body w = (Return res, w') -> status res = 200 ->
  (∀ key user, users w !! key = Some user ->
     space_free (sign_token E user) = true ∧ sign_token E user ≠ "" ∧
     jwt_verify (sign_token E user) (JWT_SECRET E) now =
       Decoded (mkJwtPayload (user !! "id") (user !! "email") (user !! "role")
                             (user !! "name"))) ->
  get_by_id_fault E' = NoFault ->
  ∃ user token userId decoded,
    json res = SessionBody "Login successful" token (without_password user) ∧
    authMiddleware (env_JWT_SECRET E) now (Some ("Bearer " +:+ token)) = Next decoded ∧
    jwt_userId decoded = Some (VStr userId) ∧
    getProfile E' userId w' = (Return (mkRes 200 (UserBody (without_password user))), w').
Proof.
  intros Hs Hk Hrun Hst Hjwt Hf.
  apply login_session in Hrun as (email & user & _ & Hfound & Hjson & Hus & Hs'); [|done].
  apply getUserByEmail_stored in Hfound as (key & Hkey); [|done].
  destruct (Hjwt key user Hkey) as (Hfree & Hne & Hv).
  exists user, (sign_token E user), key. eexists. split; [done|].
  split; [|split].
  - rewrite (MiddlewareFacts.authMiddleware_two_words (env_JWT_SECRET E) now "Bearer"
               (sign_token E user) eq_refl Hfree Hne
             : authMiddleware _ _ (Some ("Bearer " +:+ sign_token E user)) = _).
    change (middleware_secret (env_JWT_SECRET E)) with (JWT_SECRET E).
    rewrite Hv. reflexivity.
  - simpl. apply (Hk key user Hkey).
  - unfold getProfile, getUserById, select_by_id, storage_call, try_catch, gets, throw,
      mbind, Js_bind, mret, Js_ret.
    rewrite Hs', Hs, Hf. simpl. rewrite Hus, Hkey. reflexivity.
Qed.

End Facts.

(** An instance: the store with the administrator, and alice registering. *)
Lemma handlers_keep_rows_keyed_witness :
  keyed_by_id AuthExamples.w0 ∧
  ∀ body, keyed_by_id (register (H := AuthExamples.toy_libraries) AuthExamples.quiet body
                                AuthExamples.w0).2.
Proof.
  split; [apply (bool_decide_unpack _); vm_compute; exact I|].
  apply (handlers_keep_rows_keyed (H := AuthExamples.toy_libraries) AuthExamples.quiet
           AuthExamples.w0).
  apply (bool_decide_unpack _). vm_compute. exact I.
Defined.

(** An instance: the administrator logs in and asks for the profile. *)
Lemma login_token_opens_the_profile_witness :
  (supabase AuthExamples.w0 = true ∧ keyed_by_id AuthExamples.w0 ∧
   login (H := AuthExamples.toy_libraries) AuthExamples.quiet AuthExamples.admin_login
         AuthExamples.w0 =
     (Return MoreAuthExamples.admin_session,
      (login (H := AuthExamples.toy_libraries) AuthExamples.quiet AuthExamples.admin_login
             AuthExamples.w0).2) ∧
   status MoreAuthExamples.admin_session = 200 ∧
   get_by_id_fault AuthExamples.quiet = NoFault) ∧
  ∃ user token userId decoded,
    json MoreAuthExamples.admin_session =
      SessionBody "Login successful" token (without_password user) ∧
    authMiddleware (H := MiddlewareExamples.toy_verifier)
                   (env_JWT_SECRET AuthExamples.quiet) 0 (Some ("Bearer " +:+ token))
      = Next decoded ∧
    jwt_userId decoded = Some (VStr userId) ∧
    getProfile AuthExamples.quiet userId
               (login (H := AuthExamples.toy_libraries) AuthExamples.quiet
                      AuthExamples.admin_login AuthExamples.w0).2 =
      (Return (mkRes 200 (UserBody (without_password user))),
       (login (H := AuthExamples.toy_libraries) AuthExamples.quiet AuthExamples.admin_login
              AuthExamples.w0).2).
Proof.
  split.
  { repeat split; try (vm_compute; reflexivity).
    apply (bool_decide_unpack _). vm_compute. exact I. }
  apply (login_token_opens_the_profile (H := AuthExamples.toy_libraries)
           (H0 := MiddlewareExamples.toy_verifier) AuthExamples.quiet AuthExamples.quiet
           AuthExamples.admin_login AuthExamples.w0 MoreAuthExamples.admin_session).
  - reflexivity.
  - apply (bool_decide_unpack _). vm_compute. exact I.
  - vm_compute. reflexivity.
  - reflexivity.
  - intros key user Hlook.
    change (users AuthExamples.w0)
      with ({[ "admin-id" := AuthExamples.admin ]} : gmap string Obj) in Hlook.
    apply lookup_singleton_Some in Hlook as [<- <-].
    repeat split; vm_compute; (reflexivity || intros [=]).
  - reflexivity.
Defined.

End SessionFacts.
